(** * The weather station: a Subject/Observer pipeline (weather_station.py)

    A shallow embedding of [src/weather_station.py].  The file has three
    parts:

    - Python's numbers ([int] and [float]) with the builtins the program
      uses: [+], [-], [*], [/], [<], [>], [min], [max], [round(x, 2)] and
      [float('inf')];
    - the classes of the program: [Subject]/[WeatherData], the base class
      [WeatherDataObserver] and the three displays, over an explicit store
      of objects, with exceptions and with standard output as a trace;
    - the properties of the specification. *)

From Stdlib Require Import ZArith Lia Bool String.
From Stdlib Require Import Floats.SpecFloat.
From stdpp Require Import base list.

Local Open Scope Z_scope.

(** ** Python numbers *)

(** A Python [float] is an IEEE 754 binary64 value; we use the Standard
    Library's [spec_float] with 53 bits of precision and [emax = 1024]. *)
Definition prec : Z := 53.
Definition emax : Z := 1024.

(** Exceptions the program can raise. *)
Inductive exn :=
| OverflowError
| ZeroDivisionError
| ValueError
| AttributeError.

(** The result of a call: a value, an exception, or (for the one loop of
    the program) the loop bound of the model exhausted. *)
Inductive outcome (A : Type) :=
| Ok (a : A)
| Raise (e : exn)
| OutOfFuel.
Arguments Ok {A} a.
Arguments Raise {A} e.
Arguments OutOfFuel {A}.

Inductive number :=
| PyInt (z : Z)
| PyFloat (f : spec_float).

(** [a / b] rounded to the nearest integer, ties to the even one
    ([b > 0]; [Z.div] rounds down, so this is right for negative [a] too). *)
Definition div_half_even (a b : Z) : Z :=
  let q := a / b in
  match 2 * (a mod b) ?= b with
  | Lt => q
  | Gt => q + 1
  | Eq => if Z.even q then q else q + 1
  end.

(** The fraction [(n / d) / 2^e] with integer numerator and denominator. *)
Definition scaled_num (n e : Z) : Z := n * 2 ^ Z.max 0 (- e).
Definition scaled_den (d e : Z) : Z := d * 2 ^ Z.max 0 e.

(** [floor (log2 (n / d))] for positive [n] and [d]. *)
Definition ilog2_ratio (n d : Z) : Z :=
  let l := Z.log2 n - Z.log2 d in
  if scaled_den d l <=? scaled_num n l then l else l - 1.

(** The binary64 number nearest to the rational [n / d] ([n >= 0], [d > 0]),
    ties to even, with sign [s]; an infinity when the rounded value is out
    of range.  This is IEEE 754 round-to-nearest-even, the rounding of every
    float operation below, of [float(int)], of float literals and of
    [strtod]. *)
Definition round_ratio (s : bool) (n d : Z) : spec_float :=
  if n <=? 0 then S754_zero s else
  let e := Z.max (ilog2_ratio n d - (prec - 1)) (emin prec emax) in
  let m := div_half_even (scaled_num n e) (scaled_den d e) in
  let '(m', e') := if m =? 2 ^ prec then (2 ^ (prec - 1), e + 1) else (m, e) in
  match m' with
  | Zpos p => if e' <=? emax - prec then S754_finite s p e' else S754_infinity s
  | _ => S754_zero s
  end.

(** The signed dyadic [m * 2^e] rounded to binary64. *)
Definition round_dyadic (m e : Z) : spec_float :=
  round_ratio (m <? 0) (scaled_num (Z.abs m) (- e)) (scaled_den 1 (- e)).

(** A decimal literal [n / 10^k], as [float("...")] and the parser read it. *)
Definition float_lit (n k : Z) : spec_float :=
  round_ratio (n <? 0) (Z.abs n) (10 ^ k).

Definition is_infinity (f : spec_float) : bool :=
  match f with S754_infinity _ => true | _ => false end.

Definition is_zero (f : spec_float) : bool :=
  match f with S754_zero _ => true | _ => false end.

(** [float(z)]: correctly rounded, [OverflowError] when too large. *)
Definition int_to_float (z : Z) : outcome spec_float :=
  let f := round_dyadic z 0 in
  if is_infinity f then Raise OverflowError else Ok f.

Definition signed (s : bool) (m : Z) : Z := if s then - m else m.

(** Float addition: the exact sum, rounded.  An exact zero sum of two
    non-zero numbers is [+0.0]. *)
Definition fadd (x y : spec_float) : spec_float :=
  match x, y with
  | S754_nan, _ | _, S754_nan => S754_nan
  | S754_infinity sx, S754_infinity sy => if Bool.eqb sx sy then x else S754_nan
  | S754_infinity _, _ => x
  | _, S754_infinity _ => y
  | S754_zero sx, S754_zero sy => if Bool.eqb sx sy then x else S754_zero false
  | S754_zero _, _ => y
  | _, S754_zero _ => x
  | S754_finite sx mx ex, S754_finite sy my ey =>
      let ez := Z.min ex ey in
      round_dyadic (signed sx (Zpos mx * 2 ^ (ex - ez)) + signed sy (Zpos my * 2 ^ (ey - ez))) ez
  end.

Definition fopp (x : spec_float) : spec_float := SFopp x.

Definition fsub (x y : spec_float) : spec_float := fadd x (fopp y).

Definition fmul (x y : spec_float) : spec_float :=
  match x, y with
  | S754_nan, _ | _, S754_nan => S754_nan
  | S754_infinity sx, S754_infinity sy => S754_infinity (xorb sx sy)
  | S754_infinity sx, S754_finite sy _ _ => S754_infinity (xorb sx sy)
  | S754_finite sx _ _, S754_infinity sy => S754_infinity (xorb sx sy)
  | S754_infinity _, S754_zero _ => S754_nan
  | S754_zero _, S754_infinity _ => S754_nan
  | S754_finite sx _ _, S754_zero sy => S754_zero (xorb sx sy)
  | S754_zero sx, S754_finite sy _ _ => S754_zero (xorb sx sy)
  | S754_zero sx, S754_zero sy => S754_zero (xorb sx sy)
  | S754_finite sx mx ex, S754_finite sy my ey =>
      round_ratio (xorb sx sy)
        (scaled_num (Zpos mx * Zpos my) (- (ex + ey))) (scaled_den 1 (- (ex + ey)))
  end.

(** Float division by a non-zero divisor (Python raises on a zero one,
    see [py_truediv]). *)
Definition fdiv (x y : spec_float) : spec_float :=
  match x, y with
  | S754_nan, _ | _, S754_nan => S754_nan
  | S754_infinity sx, S754_infinity sy => S754_nan
  | S754_infinity sx, S754_finite sy _ _ => S754_infinity (xorb sx sy)
  | S754_finite sx _ _, S754_infinity sy => S754_zero (xorb sx sy)
  | S754_infinity sx, S754_zero sy => S754_infinity (xorb sx sy)
  | S754_zero sx, S754_infinity sy => S754_zero (xorb sx sy)
  | S754_finite sx _ _, S754_zero sy => S754_infinity (xorb sx sy)
  | S754_zero sx, S754_finite sy _ _ => S754_zero (xorb sx sy)
  | S754_zero sx, S754_zero sy => S754_nan
  | S754_finite sx mx ex, S754_finite sy my ey =>
      round_ratio (xorb sx sy)
        (scaled_num (Zpos mx) (ey - ex)) (scaled_den (Zpos my) (ey - ex))
  end.

(** The exact value of a number, for comparisons: Python compares an [int]
    with a [float] exactly, without converting the [int]. *)
Inductive xval :=
| XNaN
| XNegInf
| XFin (m e : Z)
| XPosInf.

Definition value_of (a : number) : xval :=
  match a with
  | PyInt z => XFin z 0
  | PyFloat S754_nan => XNaN
  | PyFloat (S754_infinity s) => if s then XNegInf else XPosInf
  | PyFloat (S754_zero _) => XFin 0 0
  | PyFloat (S754_finite s m e) => XFin (signed s (Zpos m)) e
  end.

Definition xcompare (x y : xval) : option comparison :=
  match x, y with
  | XNaN, _ | _, XNaN => None
  | XNegInf, XNegInf => Some Eq
  | XNegInf, _ => Some Lt
  | _, XNegInf => Some Gt
  | XPosInf, XPosInf => Some Eq
  | XPosInf, _ => Some Gt
  | _, XPosInf => Some Lt
  | XFin m1 e1, XFin m2 e2 =>
      let e := Z.min e1 e2 in
      Some (m1 * 2 ^ (e1 - e) ?= m2 * 2 ^ (e2 - e))
  end.

Definition py_compare (a b : number) : option comparison :=
  xcompare (value_of a) (value_of b).

(** [a < b], [a > b], [a == b]. *)
Definition py_lt (a b : number) : bool :=
  match py_compare a b with Some Lt => true | _ => false end.
Definition py_gt (a b : number) : bool :=
  match py_compare a b with Some Gt => true | _ => false end.
Definition py_eq (a b : number) : bool :=
  match py_compare a b with Some Eq => true | _ => false end.

(** [min(a, b)] and [max(a, b)] keep the first argument unless the second
    is strictly smaller (larger). *)
Definition py_min (a b : number) : number := if py_lt b a then b else a.
Definition py_max (a b : number) : number := if py_gt b a then b else a.

(** Binary arithmetic: [int] with [int] is exact; otherwise an [int]
    operand is converted with [float(...)] first. *)
Definition float_binop (op : spec_float -> spec_float -> spec_float)
    (a b : number) : outcome number :=
  let conv x := match x with PyInt z => int_to_float z | PyFloat f => Ok f end in
  match conv a with
  | Ok fa => match conv b with
             | Ok fb => Ok (PyFloat (op fa fb))
             | Raise e => Raise e
             | OutOfFuel => OutOfFuel
             end
  | Raise e => Raise e
  | OutOfFuel => OutOfFuel
  end.

Definition py_add (a b : number) : outcome number :=
  match a, b with
  | PyInt x, PyInt y => Ok (PyInt (x + y))
  | _, _ => float_binop fadd a b
  end.

Definition py_sub (a b : number) : outcome number :=
  match a, b with
  | PyInt x, PyInt y => Ok (PyInt (x - y))
  | _, _ => float_binop fsub a b
  end.

Definition py_mul (a b : number) : outcome number :=
  match a, b with
  | PyInt x, PyInt y => Ok (PyInt (x * y))
  | _, _ => float_binop fmul a b
  end.

(** True division.  [int / int] is the correctly rounded quotient; with
    a float operand both operands are converted first and the divisor is
    then tested for zero. *)
Definition py_truediv (a b : number) : outcome number :=
  match a, b with
  | PyInt x, PyInt y =>
      if y =? 0 then Raise ZeroDivisionError else
      let f := round_ratio (xorb (x <? 0) (y <? 0)) (Z.abs x) (Z.abs y) in
      if is_infinity f then Raise OverflowError else Ok (PyFloat f)
  | _, _ =>
      match float_binop fdiv a b with
      | Ok q => if py_eq b (PyInt 0) then Raise ZeroDivisionError else Ok q
      | r => r
      end
  end.

(** [round(x, 2)].  An [int] is returned as it is.  A finite [float] is
    rounded, from its exact binary value, to the nearest multiple of
    [1/100] (ties to even), and that decimal is read back as a float. *)
Definition py_round2 (x : number) : outcome number :=
  match x with
  | PyInt _ => Ok x
  | PyFloat (S754_finite s m e) =>
      let k := div_half_even (scaled_num (100 * Zpos m) (- e)) (scaled_den 1 (- e)) in
      let r := round_ratio s k 100 in
      if is_infinity r then Raise OverflowError else Ok (PyFloat r)
  | PyFloat _ => Ok x
  end.

Definition inf : number := PyFloat (S754_infinity false).
Definition neg_inf : number := PyFloat (S754_infinity true).

(** ** The store, output and computations that may raise *)

(** Objects are identified by their address in the store. *)
Abbreviation obj := nat (only parsing).

(** One argument of a [print] call. *)
Inductive pyval :=
| PStr (s : string)
| PNum (n : number).

(** One [print] call: its arguments in order.  The text written is
    [str] of each argument, separated by spaces, which is a function of
    this list. *)
Definition line := list pyval.

(** Computations over a state [S] that may raise. *)
Definition M (S A : Type) : Type := S -> outcome A * S.

Definition ret {S A} (a : A) : M S A := fun s => (Ok a, s).

Definition bind {S A B} (m : M S A) (k : A -> M S B) : M S B :=
  fun s =>
    match m s with
    | (Ok a, s') => k a s'
    | (Raise e, s') => (Raise e, s')
    | (OutOfFuel, s') => (OutOfFuel, s')
    end.

Definition raise {S A} (e : exn) : M S A := fun s => (Raise e, s).
Definition gets {S A} (f : S -> A) : M S A := fun s => (Ok (f s), s).
Definition modify {S} (f : S -> S) : M S unit := fun s => (Ok tt, f s).
Definition lift {S A} (o : outcome A) : M S A := fun s => (o, s).

Declare Scope monad_scope.
Delimit Scope monad_scope with monad.
Notation "'do' x <- m ; k" := (bind m (fun x => k))
  (at level 10, x name, m at level 100, k at level 200) : monad_scope.
Local Open Scope monad_scope.

(** ** The observers *)

(** The attributes [StatisticsDisplay.__init__] adds. *)
Record stats := {
  min_temp : number;
  average_temp : number;
  max_temp : number;
  min_humidity : number;
  average_humidity : number;
  max_humidity : number;
  min_pressure : number;
  average_pressure : number;
  max_pressure : number
}.

(** The attributes [ForecastDisplay.__init__] adds. *)
Record forecast := {
  forcast_temp : number;
  forcast_humidity : number;
  forcast_pressure : number
}.

(** What a [display] method written outside this file may do to the
    subject it holds in [self.weatherData]. *)
Inductive cmd :=
| CallRegister (o : obj)
| CallRemove (o : obj).

(** The class of an observer, with the attributes of the class.
    [UserDisplay] stands for any other subclass of [WeatherDataObserver]:
    its [display] calls the subject's methods in the order of [body]. *)
Inductive klass :=
| CurrentConditionsDisplay
| StatisticsDisplay (s : stats)
| ForecastDisplay (f : forecast)
| UserDisplay (body : list cmd).

(** An instance of [WeatherDataObserver].  Its [weatherData] attribute
    is the one subject of the [world] below. *)
Record observer := {
  temperature : number;
  humidity : number;
  pressure : number;
  class_of : klass
}.

(** The [WeatherData] subject ([observers] and the three measurements,
    here [wd_temperature] and so on since the observers have attributes of
    the same names), the store of observer objects, standard output, and
    the trace of the [update] calls made so far. *)
Record world := {
  observers : list obj;
  wd_temperature : number;
  wd_humidity : number;
  wd_pressure : number;
  heap : list observer;
  stdout : list line;
  updates : list (obj * (number * number * number))
}.

Definition set_observers (l : list obj) (w : world) : world :=
  {| observers := l; wd_temperature := wd_temperature w;
     wd_humidity := wd_humidity w; wd_pressure := wd_pressure w;
     heap := heap w; stdout := stdout w; updates := updates w |}.

Definition set_reading (t h p : number) (w : world) : world :=
  {| observers := observers w; wd_temperature := t;
     wd_humidity := h; wd_pressure := p;
     heap := heap w; stdout := stdout w; updates := updates w |}.

Definition set_heap (hp : list observer) (w : world) : world :=
  {| observers := observers w; wd_temperature := wd_temperature w;
     wd_humidity := wd_humidity w; wd_pressure := wd_pressure w;
     heap := hp; stdout := stdout w; updates := updates w |}.

Definition add_stdout (ls : list line) (w : world) : world :=
  {| observers := observers w; wd_temperature := wd_temperature w;
     wd_humidity := wd_humidity w; wd_pressure := wd_pressure w;
     heap := heap w; stdout := stdout w ++ ls; updates := updates w |}.

Definition add_update (o : obj) (t h p : number) (w : world) : world :=
  {| observers := observers w; wd_temperature := wd_temperature w;
     wd_humidity := wd_humidity w; wd_pressure := wd_pressure w;
     heap := heap w; stdout := stdout w;
     updates := updates w ++ [(o, (t, h, p))] |}.

(** *** StatisticsDisplay *)

Definition set_min_temp (v : number) (s : stats) : stats :=
  {| min_temp := v; average_temp := average_temp s; max_temp := max_temp s;
     min_humidity := min_humidity s; average_humidity := average_humidity s;
     max_humidity := max_humidity s; min_pressure := min_pressure s;
     average_pressure := average_pressure s; max_pressure := max_pressure s |}.
Definition set_average_temp (v : number) (s : stats) : stats :=
  {| min_temp := min_temp s; average_temp := v; max_temp := max_temp s;
     min_humidity := min_humidity s; average_humidity := average_humidity s;
     max_humidity := max_humidity s; min_pressure := min_pressure s;
     average_pressure := average_pressure s; max_pressure := max_pressure s |}.
Definition set_max_temp (v : number) (s : stats) : stats :=
  {| min_temp := min_temp s; average_temp := average_temp s; max_temp := v;
     min_humidity := min_humidity s; average_humidity := average_humidity s;
     max_humidity := max_humidity s; min_pressure := min_pressure s;
     average_pressure := average_pressure s; max_pressure := max_pressure s |}.
Definition set_min_humidity (v : number) (s : stats) : stats :=
  {| min_temp := min_temp s; average_temp := average_temp s; max_temp := max_temp s;
     min_humidity := v; average_humidity := average_humidity s;
     max_humidity := max_humidity s; min_pressure := min_pressure s;
     average_pressure := average_pressure s; max_pressure := max_pressure s |}.
Definition set_average_humidity (v : number) (s : stats) : stats :=
  {| min_temp := min_temp s; average_temp := average_temp s; max_temp := max_temp s;
     min_humidity := min_humidity s; average_humidity := v;
     max_humidity := max_humidity s; min_pressure := min_pressure s;
     average_pressure := average_pressure s; max_pressure := max_pressure s |}.
Definition set_max_humidity (v : number) (s : stats) : stats :=
  {| min_temp := min_temp s; average_temp := average_temp s; max_temp := max_temp s;
     min_humidity := min_humidity s; average_humidity := average_humidity s;
     max_humidity := v; min_pressure := min_pressure s;
     average_pressure := average_pressure s; max_pressure := max_pressure s |}.
Definition set_min_pressure (v : number) (s : stats) : stats :=
  {| min_temp := min_temp s; average_temp := average_temp s; max_temp := max_temp s;
     min_humidity := min_humidity s; average_humidity := average_humidity s;
     max_humidity := max_humidity s; min_pressure := v;
     average_pressure := average_pressure s; max_pressure := max_pressure s |}.
Definition set_average_pressure (v : number) (s : stats) : stats :=
  {| min_temp := min_temp s; average_temp := average_temp s; max_temp := max_temp s;
     min_humidity := min_humidity s; average_humidity := average_humidity s;
     max_humidity := max_humidity s; min_pressure := min_pressure s;
     average_pressure := v; max_pressure := max_pressure s |}.
Definition set_max_pressure (v : number) (s : stats) : stats :=
  {| min_temp := min_temp s; average_temp := average_temp s; max_temp := max_temp s;
     min_humidity := min_humidity s; average_humidity := average_humidity s;
     max_humidity := max_humidity s; min_pressure := min_pressure s;
     average_pressure := average_pressure s; max_pressure := v |}.

(** The attributes after [StatisticsDisplay.__init__]. *)
Definition StatisticsDisplay_init : stats :=
  {| min_temp := inf; average_temp := PyInt 0; max_temp := neg_inf;
     min_humidity := inf; average_humidity := PyInt 0; max_humidity := neg_inf;
     min_pressure := inf; average_pressure := PyInt 0; max_pressure := neg_inf |}.

(** [self.x = round(min(self.x, value), 2)] and its [max] twin. *)
Definition assign_round_min (get : stats -> number) (set : number -> stats -> stats)
    (value : number) : M stats unit :=
  do cur <- gets get;
  do v <- lift (py_round2 (py_min cur value));
  modify (set v).

Definition assign_round_max (get : stats -> number) (set : number -> stats -> stats)
    (value : number) : M stats unit :=
  do cur <- gets get;
  do v <- lift (py_round2 (py_max cur value));
  modify (set v).

(** [self.avg = round((self.max + self.min) / 2, 2)]. *)
Definition assign_midpoint (getmax getmin : stats -> number)
    (set : number -> stats -> stats) : M stats unit :=
  do mx <- gets getmax;
  do mn <- gets getmin;
  do sum <- lift (py_add mx mn);
  do half <- lift (py_truediv sum (PyInt 2));
  do v <- lift (py_round2 half);
  modify (set v).

(** [StatisticsDisplay.calculate_stats]: nine assignments in the order of
    the source; an exception leaves the earlier assignments in place. *)
Definition calculate_stats (temperature humidity pressure : number) : M stats unit :=
  do _ <- assign_round_min min_temp set_min_temp temperature;
  do _ <- assign_round_max max_temp set_max_temp temperature;
  do _ <- assign_midpoint max_temp min_temp set_average_temp;
  do _ <- assign_round_min min_humidity set_min_humidity humidity;
  do _ <- assign_round_max max_humidity set_max_humidity humidity;
  do _ <- assign_midpoint max_humidity min_humidity set_average_humidity;
  do _ <- assign_round_min min_pressure set_min_pressure pressure;
  do _ <- assign_round_max max_pressure set_max_pressure pressure;
  assign_midpoint max_pressure min_pressure set_average_pressure.

(** The eleven [print] calls of [StatisticsDisplay.display]. *)
Definition StatisticsDisplay_lines (s : stats) : list line :=
  [ [PStr "--- Statistics ---"];
    [PStr "Min temperature:"; PNum (min_temp s)];
    [PStr "Max temperature:"; PNum (max_temp s)];
    [PStr "Average temperature:"; PNum (average_temp s)];
    [PStr "Min humidity:"; PNum (min_humidity s)];
    [PStr "Max humidity:"; PNum (max_humidity s)];
    [PStr "Average humidity:"; PNum (average_humidity s)];
    [PStr "Min pressure:"; PNum (min_pressure s)];
    [PStr "Max pressure:"; PNum (max_pressure s)];
    [PStr "Average pressure:"; PNum (average_pressure s)];
    [PStr "------------------"];
    [] ].

(** *** ForecastDisplay *)

Definition ForecastDisplay_init : forecast :=
  {| forcast_temp := PyInt 0; forcast_humidity := PyInt 0;
     forcast_pressure := PyInt 0 |}.

Definition set_forcast_temp (v : number) (f : forecast) : forecast :=
  {| forcast_temp := v; forcast_humidity := forcast_humidity f;
     forcast_pressure := forcast_pressure f |}.
Definition set_forcast_humidity (v : number) (f : forecast) : forecast :=
  {| forcast_temp := forcast_temp f; forcast_humidity := v;
     forcast_pressure := forcast_pressure f |}.
Definition set_forcast_pressure (v : number) (f : forecast) : forecast :=
  {| forcast_temp := forcast_temp f; forcast_humidity := forcast_humidity f;
     forcast_pressure := v |}.

(** [ForecastDisplay.calculate_forcast]; Python evaluates
    [a + b * c + d * e] as [(a + (b * c)) + (d * e)], operands left to
    right. *)
Definition calculate_forcast (temperature humidity pressure : number) : M forecast unit :=
  do a <- lift (py_mul (PyFloat (float_lit 11 2)) humidity);
  do b <- lift (py_add temperature a);
  do c <- lift (py_mul (PyFloat (float_lit 22 2)) pressure);
  do d <- lift (py_add b c);
  do v <- lift (py_round2 d);
  do _ <- modify (set_forcast_temp v);
  do a <- lift (py_mul (PyFloat (float_lit 9 1)) humidity);
  do b <- lift (py_sub humidity a);
  do v <- lift (py_round2 b);
  do _ <- modify (set_forcast_humidity v);
  do a <- lift (py_mul (PyFloat (float_lit 1 1)) temperature);
  do b <- lift (py_add pressure a);
  do c <- lift (py_mul (PyFloat (float_lit 21 2)) pressure);
  do d <- lift (py_sub b c);
  do v <- lift (py_round2 d);
  modify (set_forcast_pressure v).

Definition ForecastDisplay_lines (f : forecast) : list line :=
  [ [PStr "--- Forecast ---"];
    [PStr "Temperature:"; PNum (forcast_temp f)];
    [PStr "Humidity:"; PNum (forcast_humidity f)];
    [PStr "Pressure:"; PNum (forcast_pressure f)];
    [PStr "------------------END OF REPORT------------------"];
    [] ].

(** *** CurrentConditionsDisplay *)

Definition CurrentConditionsDisplay_lines (t h p : number) : list line :=
  [ [PStr "Current conditions:"; PNum t; PStr "F degrees and"; PNum h;
     PStr "[%] humidity"; PStr "and pressure"; PNum p];
    [] ].

(** ** The subject *)

(** [Subject.__init__] and [WeatherData.__init__], in an empty store. *)
Definition WeatherData_init : world :=
  {| observers := []; wd_temperature := PyInt 0; wd_humidity := PyInt 0;
     wd_pressure := PyInt 0; heap := []; stdout := []; updates := [] |}.

(** [Subject.registerObserver]: [self.observers.append(observer)]. *)
Definition registerObserver (observer : obj) : M world unit :=
  modify (fun w => set_observers (observers w ++ [observer]) w).

(** [list.remove]: the list without its first element equal to [o];
    [None] when there is none (Python raises [ValueError]). *)
Fixpoint remove_first (o : obj) (l : list obj) : option (list obj) :=
  match l with
  | [] => None
  | x :: l' =>
      if Nat.eqb x o then Some l'
      else match remove_first o l' with
           | Some r => Some (x :: r)
           | None => None
           end
  end.

(** [Subject.removeObserver]: [self.observers.remove(observer)]. *)
Definition removeObserver (observer : obj) : M world unit :=
  fun w =>
    match remove_first observer (observers w) with
    | Some l => (Ok tt, set_observers l w)
    | None => (Raise ValueError, w)
    end.

(** ** Methods of the observers *)

(** [print]: the call adds its line to standard output.  This is
    [print] on values it can write, see [printable] below; from Python
    3.11 on the text of an [int] of more than 4300 digits is refused with
    [ValueError]. *)
Definition print (ls : list line) : M world unit := modify (add_stdout ls).

Definition with_class (o : observer) (k : klass) : observer :=
  {| temperature := temperature o; humidity := humidity o;
     pressure := pressure o; class_of := k |}.

(** Run a method body [m] on the attributes [s] of object [self] and
    store the attributes it leaves, also when it raises. *)
Definition on_attrs {S : Type} (self : obj) (o : observer) (wrap : S -> klass)
    (s : S) (m : M S unit) : M world S :=
  fun w =>
    let '(r, s') := m s in
    let w' := set_heap (<[self := with_class o (wrap s')]> (heap w)) w in
    match r with
    | Ok _ => (Ok s', w')
    | Raise e => (Raise e, w')
    | OutOfFuel => (OutOfFuel, w')
    end.

Definition run_cmd (c : cmd) : M world unit :=
  match c with
  | CallRegister o => registerObserver o
  | CallRemove o => removeObserver o
  end.

Fixpoint run_body (body : list cmd) : M world unit :=
  match body with
  | [] => ret tt
  | c :: cs => do _ <- run_cmd c; run_body cs
  end.

(** [self.display()], dispatched on the class of [self].  An address with
    no observer behind it stands for an object without the method. *)
Definition display (self : obj) : M world unit :=
  fun w =>
    match heap w !! self with
    | None => (Raise AttributeError, w)
    | Some o =>
        match class_of o with
        | CurrentConditionsDisplay =>
            print (CurrentConditionsDisplay_lines
                     (temperature o) (humidity o) (pressure o)) w
        | StatisticsDisplay s =>
            (do s' <- on_attrs self o StatisticsDisplay s
                        (calculate_stats (temperature o) (humidity o) (pressure o));
             print (StatisticsDisplay_lines s')) w
        | ForecastDisplay f =>
            (do f' <- on_attrs self o ForecastDisplay f
                        (calculate_forcast (temperature o) (humidity o) (pressure o));
             print (ForecastDisplay_lines f')) w
        | UserDisplay body => run_body body w
        end
    end.

(** [WeatherDataObserver.update]. *)
Definition update (self : obj) (temperature humidity pressure : number) : M world unit :=
  fun w =>
    match heap w !! self with
    | None => (Raise AttributeError, w)
    | Some o =>
        (do _ <- modify (add_update self temperature humidity pressure);
         do _ <- modify (set_heap
                   (<[self := {| temperature := temperature; humidity := humidity;
                                 pressure := pressure; class_of := class_of o |}]>
                      (heap w)));
         display self) w
    end.

(** [WeatherDataObserver.__init__] and the [__init__] of the subclass:
    a new object at the next free address, registered with the subject.
    The address is that of no registered observer when every address on
    the list has an object behind it ([registered_allocated] below). *)
Definition new_observer (k : obj -> klass) : M world obj :=
  fun w =>
    let self := length (heap w) in
    (do _ <- modify (set_heap (heap w ++
               [{| temperature := PyInt 0; humidity := PyInt 0;
                   pressure := PyInt 0; class_of := k self |}]));
     do _ <- registerObserver self;
     ret self) w.

Definition new_CurrentConditionsDisplay : M world obj :=
  new_observer (fun _ => CurrentConditionsDisplay).
Definition new_StatisticsDisplay : M world obj :=
  new_observer (fun _ => StatisticsDisplay StatisticsDisplay_init).
Definition new_ForecastDisplay : M world obj :=
  new_observer (fun _ => ForecastDisplay ForecastDisplay_init).
Definition new_UserDisplay (body : obj -> list cmd) : M world obj :=
  new_observer (fun self => UserDisplay (body self)).

(** ** WeatherData *)

(** The loop of [WeatherData.notifyObservers]: [for ob in self.observers]
    reads the list itself at position [i] on every round, so it sees what
    the calls made so far did to it, and ends when [i] is past the end. *)
Fixpoint notify_from (fuel : nat) (i : nat) : M world unit :=
  match fuel with
  | O => fun w => (OutOfFuel, w)
  | S fuel' =>
      fun w =>
        match observers w !! i with
        | None => (Ok tt, w)
        | Some ob =>
            (do _ <- update ob (wd_temperature w) (wd_humidity w) (wd_pressure w);
             notify_from fuel' (S i)) w
        end
  end.

Definition notifyObservers (fuel : nat) : M world unit := notify_from fuel 0.

Definition measurementsChanged (fuel : nat) : M world unit := notifyObservers fuel.

Definition setMeasurements (fuel : nat) (temperature humidity pressure : number)
    : M world unit :=
  do _ <- modify (set_reading temperature humidity pressure);
  measurementsChanged fuel.

(** [WeatherStation.main]. *)
Definition main (fuel : nat) : M world unit :=
  do current_display <- new_CurrentConditionsDisplay;
  do statistics_display <- new_StatisticsDisplay;
  do forcast_display <- new_ForecastDisplay;
  do _ <- setMeasurements fuel (PyInt 80) (PyInt 65) (PyFloat (float_lit 304 1));
  do _ <- setMeasurements fuel (PyInt 82) (PyInt 70) (PyFloat (float_lit 292 1));
  setMeasurements fuel (PyInt 78) (PyInt 90) (PyFloat (float_lit 292 1)).

(** ** Vocabulary of the properties *)

(** An observer whose [update] leaves the subject's list alone: every
    instance of the three display classes of the program, a [UserDisplay]
    with an empty body, and an address with no observer behind it (the
    call raises before anything runs). *)
Definition quietb (hp : list observer) (o : obj) : bool :=
  match hp !! o with
  | Some ob => match class_of ob with UserDisplay (_ :: _) => false | _ => true end
  | None => true
  end.

Definition all_quiet (w : world) : Prop :=
  forallb (quietb (heap w)) (observers w) = true.

(** The reading the subject holds. *)
Definition reading_of (w : world) : number * number * number :=
  (wd_temperature w, wd_humidity w, wd_pressure w).

(** The [update] calls that notifying the observers [l] in order makes. *)
Definition fan_out (l : list obj) (r : number * number * number)
    : list (obj * (number * number * number)) :=
  map (fun o => (o, r)) l.

(** How many of the [update] calls in a trace went to [o]. *)
Definition calls_to (o : obj) (tr : list (obj * (number * number * number))) : nat :=
  length (List.filter (fun c => Nat.eqb (fst c) o) tr).

Definition occurrences (o : obj) (l : list obj) : nat :=
  length (List.filter (fun x => Nat.eqb x o) l).

(** A driver that makes one [setMeasurements] call per reading, going on
    after a call that raised; it returns the outcome of every call. *)
Fixpoint feed (fuel : nat) (rs : list (number * number * number)) (w : world)
    : list (outcome unit) * world :=
  match rs with
  | [] => ([], w)
  | (t, h, p) :: rs' =>
      let '(r, w1) := setMeasurements fuel t h p w in
      let '(rest, w2) := feed fuel rs' w1 in
      (r :: rest, w2)
  end.

(** Only the loop of [notifyObservers] has a bound in the model: the
    arithmetic and the methods of the displays always return or raise. *)
Definition bounded_free {S A : Type} (m : M S A) : Prop :=
  forall s, fst (m s) <> OutOfFuel.

(** *** One quantity of [StatisticsDisplay] at a time *)

(** The running (min, max, average) of one quantity. *)
Definition acc : Type := number * number * number.

Definition acc_min (a : acc) : number := fst (fst a).
Definition acc_max (a : acc) : number := snd (fst a).
Definition acc_avg (a : acc) : number := snd a.

(** The three assignments [calculate_stats] makes for one quantity, on the
    triple of that quantity alone. *)
Definition field_step (value : number) : M acc unit :=
  do cur <- gets acc_min;
  do v <- lift (py_round2 (py_min cur value));
  do _ <- modify (fun a => (v, acc_max a, acc_avg a));
  do cur <- gets acc_max;
  do v <- lift (py_round2 (py_max cur value));
  do _ <- modify (fun a => (acc_min a, v, acc_avg a));
  do mx <- gets acc_max;
  do mn <- gets acc_min;
  do sum <- lift (py_add mx mn);
  do half <- lift (py_truediv sum (PyInt 2));
  do v <- lift (py_round2 half);
  modify (fun a => (acc_min a, acc_max a, v)).

Definition temp_acc (s : stats) : acc := (min_temp s, max_temp s, average_temp s).
Definition humidity_acc (s : stats) : acc :=
  (min_humidity s, max_humidity s, average_humidity s).
Definition pressure_acc (s : stats) : acc :=
  (min_pressure s, max_pressure s, average_pressure s).

Definition stats_of (t h p : acc) : stats :=
  {| min_temp := acc_min t; average_temp := acc_avg t; max_temp := acc_max t;
     min_humidity := acc_min h; average_humidity := acc_avg h;
     max_humidity := acc_max h;
     min_pressure := acc_min p; average_pressure := acc_avg p;
     max_pressure := acc_max p |}.

(** [calculate_stats] as three [field_step]s; a step that raises leaves
    the later quantities as they were. *)
Definition calculate_stats_by_field (t h p : number) (s : stats)
    : outcome unit * stats :=
  let '(r1, a1) := field_step t (temp_acc s) in
  match r1 with
  | Ok _ =>
      let '(r2, a2) := field_step h (humidity_acc s) in
      match r2 with
      | Ok _ =>
          let '(r3, a3) := field_step p (pressure_acc s) in
          (r3, stats_of a1 a2 a3)
      | _ => (r2, stats_of a1 a2 (pressure_acc s))
      end
  | _ => (r1, stats_of a1 (humidity_acc s) (pressure_acc s))
  end.

(** The attributes of the [StatisticsDisplay] at address [o], if there is
    one. *)
Definition stats_at (w : world) (o : obj) : option stats :=
  match heap w !! o with
  | Some ob => match class_of ob with StatisticsDisplay s => Some s | _ => None end
  | None => None
  end.

(** The temperature triple of the [StatisticsDisplay] at [o]. *)
Definition temp_at (w : world) (o : obj) : option acc :=
  option_map temp_acc (stats_at w o).

(** *** The formulas as the specification writes them *)

Definition and_then {A B : Type} (o : outcome A) (k : A -> outcome B) : outcome B :=
  match o with
  | Ok a => k a
  | Raise e => Raise e
  | OutOfFuel => OutOfFuel
  end.

(** [round((min + max) / 2, 2)]. *)
Definition midpoint (mn mx : number) : outcome number :=
  and_then (py_add mn mx) (fun sum =>
  and_then (py_truediv sum (PyInt 2)) py_round2).

(** [round(temperature + 0.11*humidity + 0.22*pressure, 2)]. *)
Definition forecast_temp_formula (t h p : number) : outcome number :=
  and_then (py_mul (PyFloat (float_lit 11 2)) h) (fun a =>
  and_then (py_add t a) (fun b =>
  and_then (py_mul (PyFloat (float_lit 22 2)) p) (fun c =>
  and_then (py_add b c) py_round2))).

(** [round(humidity - 0.9*humidity, 2)]. *)
Definition forecast_humidity_formula (h : number) : outcome number :=
  and_then (py_mul (PyFloat (float_lit 9 1)) h) (fun a =>
  and_then (py_sub h a) py_round2).

(** [round(pressure + 0.1*temperature - 0.21*pressure, 2)]. *)
Definition forecast_pressure_formula (t p : number) : outcome number :=
  and_then (py_mul (PyFloat (float_lit 1 1)) t) (fun a =>
  and_then (py_add p a) (fun b =>
  and_then (py_mul (PyFloat (float_lit 21 2)) p) (fun c =>
  and_then (py_sub b c) py_round2))).

(** The forecast that the three formulas give, from the reading alone. *)
Definition forecast_formulas (t h p : number) : outcome forecast :=
  and_then (forecast_temp_formula t h p) (fun a =>
  and_then (forecast_humidity_formula h) (fun b =>
  and_then (forecast_pressure_formula t p) (fun c =>
  Ok {| forcast_temp := a; forcast_humidity := b; forcast_pressure := c |}))).

(** [calculate_forcast] through the formulas of the specification; a
    formula that raises leaves the later attributes as they were. *)
Definition calculate_forcast_by_formula (t h p : number) (f : forecast)
    : outcome unit * forecast :=
  match forecast_temp_formula t h p with
  | Ok a =>
      match forecast_humidity_formula h with
      | Ok b =>
          match forecast_pressure_formula t p with
          | Ok c =>
              (Ok tt, {| forcast_temp := a; forcast_humidity := b;
                         forcast_pressure := c |})
          | Raise e =>
              (Raise e, {| forcast_temp := a; forcast_humidity := b;
                           forcast_pressure := forcast_pressure f |})
          | OutOfFuel =>
              (OutOfFuel, {| forcast_temp := a; forcast_humidity := b;
                             forcast_pressure := forcast_pressure f |})
          end
      | Raise e =>
          (Raise e, {| forcast_temp := a; forcast_humidity := forcast_humidity f;
                       forcast_pressure := forcast_pressure f |})
      | OutOfFuel =>
          (OutOfFuel, {| forcast_temp := a; forcast_humidity := forcast_humidity f;
                         forcast_pressure := forcast_pressure f |})
      end
  | Raise e => (Raise e, f)
  | OutOfFuel => (OutOfFuel, f)
  end.

(** The attributes of the [ForecastDisplay] at address [o], if there is
    one. *)
Definition forecast_at (w : world) (o : obj) : option forecast :=
  match heap w !! o with
  | Some ob => match class_of ob with ForecastDisplay f => Some f | _ => None end
  | None => None
  end.

(** *** Rounding *)

(** [ge_pow2 n d l]: [n / d >= 2^l]. *)
Definition ge_pow2 (n d l : Z) : Prop := scaled_den d l <= scaled_num n l.

(** [m * 2^e] with [m > 0] is a binary64 number in its canonical form:
    a 53-bit significand, or a shorter one at the least exponent. *)
Definition canonical (m e : Z) : Prop :=
  -1074 <= e <= 971 /\ 0 < m < 2 ^ 53 /\ (2 ^ 52 <= m \/ e = -1074).

(** *** Repeated display *)

(** A value [round(_, 2)] leaves as it is. *)
Definition rounded (x : number) : Prop := py_round2 x = Ok x.

Definition rounded_acc (a : acc) : Prop := rounded (acc_min a) /\ rounded (acc_max a).

Definition rounded_stats (s : stats) : Prop :=
  rounded_acc (temp_acc s) /\ rounded_acc (humidity_acc s)
  /\ rounded_acc (pressure_acc s).

(** The lines a call wrote: what [stdout] gained from [w] to [w']. *)
Definition printed (w w' : world) : list line := drop (length (stdout w)) (stdout w').

(** The world after [n] calls of [display] on [o] in a row. *)
Fixpoint display_times (n : nat) (o : obj) (w : world) : world :=
  match n with
  | O => w
  | S n' => snd (display o (display_times n' o w))
  end.

Definition is_display (k : klass) : bool :=
  match k with UserDisplay _ => false | _ => true end.

(** [display] of one of the three displays, on the object alone: the
    outcome, the object it leaves and the lines it writes. *)
Definition display_obj (ob : observer) : outcome unit * observer * list line :=
  match class_of ob with
  | CurrentConditionsDisplay =>
      (Ok tt, ob,
       CurrentConditionsDisplay_lines (temperature ob) (humidity ob) (pressure ob))
  | StatisticsDisplay s =>
      let '(r, s') := calculate_stats (temperature ob) (humidity ob) (pressure ob) s in
      (r, with_class ob (StatisticsDisplay s'),
       match r with Ok _ => StatisticsDisplay_lines s' | _ => [] end)
  | ForecastDisplay f =>
      let '(r, f') := calculate_forcast (temperature ob) (humidity ob) (pressure ob) f in
      (r, with_class ob (ForecastDisplay f'),
       match r with Ok _ => ForecastDisplay_lines f' | _ => [] end)
  | UserDisplay _ => (Ok tt, ob, [])
  end.

(** The states the program can be in: those its methods lead to from
    the start. *)
Inductive reachable : world -> Prop :=
| reach_start : reachable WeatherData_init
| reach_new_current w :
    reachable w -> reachable (snd (new_CurrentConditionsDisplay w))
| reach_new_statistics w :
    reachable w -> reachable (snd (new_StatisticsDisplay w))
| reach_new_forecast w :
    reachable w -> reachable (snd (new_ForecastDisplay w))
| reach_new_user body w :
    reachable w -> reachable (snd (new_UserDisplay body w))
| reach_register o w :
    reachable w -> reachable (snd (registerObserver o w))
| reach_remove o w :
    reachable w -> reachable (snd (removeObserver o w))
| reach_setMeasurements fuel t h p w :
    reachable w -> reachable (snd (setMeasurements fuel t h p w))
| reach_update o t h p w :
    reachable w -> reachable (snd (update o t h p w))
| reach_display o w :
    reachable w -> reachable (snd (display o w)).

Definition class_ok (k : klass) : Prop :=
  match k with StatisticsDisplay s => rounded_stats s | _ => True end.

Definition heap_ok (w : world) : Prop :=
  Forall (fun ob => class_ok (class_of ob)) (heap w).

(** *** The first reading *)

Definition not_nan (v : number) : Prop := value_of v <> XNaN.

(** A reading that [round(_, 2)] and the midpoint of a value with itself
    give back: an [int] of at most 53 bits, or a finite [float] with at
    most two decimals and below [2^1023] in magnitude. *)
Definition plain_reading (v : number) : Prop :=
  match v with
  | PyInt z => Z.abs z <= 2 ^ 53
  | PyFloat (S754_finite s m e) =>
      canonical (Zpos m) e /\ e <= 970 /\ py_round2 v = Ok v
  | PyFloat (S754_zero _) => True
  | PyFloat _ => False
  end.

(** *** Worlds used as examples *)


(** An [int] too large for a [float]. *)
Definition huge : number := PyInt (10 ^ 400).

(** A subclass of [WeatherDataObserver] whose [display] is
    [self.weatherData.removeObserver(self)], registered before a
    [CurrentConditionsDisplay]. *)
Definition leaver_then_current : world :=
  snd (new_CurrentConditionsDisplay
         (snd (new_UserDisplay (fun self => [CallRemove self]) WeatherData_init))).

(** A [StatisticsDisplay], registered by its constructor and then once
    more by hand. *)
Definition stats_twice : world :=
  snd (registerObserver 0 (snd (new_StatisticsDisplay WeatherData_init))).

(** The three displays of [main], before the first reading. *)
Definition three_displays : world :=
  snd (new_ForecastDisplay
         (snd (new_StatisticsDisplay
                 (snd (new_CurrentConditionsDisplay WeatherData_init))))).

(** [main] after its first [setMeasurements] call. *)
Definition after_first_reading : world :=
  snd (setMeasurements 4 (PyInt 80) (PyInt 65) (PyFloat (float_lit 304 1))
         three_displays).

(** The three displays with the [CurrentConditionsDisplay] taken off the
    list again. *)
Definition current_removed : world := snd (removeObserver 0 three_displays).

(** A [CurrentConditionsDisplay] at address 0 and then an observer of a
    subclass written outside the file, whose [display] is
    [self.weatherData.registerObserver(current_display)]. *)
Definition current_then_registrar : world :=
  snd (new_UserDisplay (fun _ => [CallRegister 0])
         (snd (new_CurrentConditionsDisplay WeatherData_init))).

(** *** Registration *)

(** Every registered address has an object behind it. *)
Definition registered_allocated (w : world) : Prop :=
  Forall (fun o => (o < length (heap w))%nat) (observers w).

(** The reading the observer at [o] has stored. *)
Definition reading_at (w : world) (o : obj) : option (number * number * number) :=
  match heap w !! o with
  | Some ob => Some (temperature ob, humidity ob, pressure ob)
  | None => None
  end.

(** The list without the registrations of [o]. *)
Definition others (o : obj) (l : list obj) : list obj :=
  List.filter (fun x => negb (Nat.eqb x o)) l.

(** *** The three displays *)

(** How many [print] calls a [display] that returns makes. *)
Definition report_length (k : klass) : nat :=
  match k with
  | CurrentConditionsDisplay => 2
  | StatisticsDisplay _ => 12
  | ForecastDisplay _ => 6
  | UserDisplay _ => 0
  end.

(** The address holds an instance of one of the three display classes. *)
Definition displayb (hp : list observer) (o : obj) : bool :=
  match hp !! o with
  | Some ob => is_display (class_of ob)
  | None => false
  end.

Definition all_displays (w : world) : Prop :=
  forallb (displayb (heap w)) (observers w) = true.

(** The object [WeatherDataObserver.update] leaves before it calls
    [display]. *)
Definition with_reading (ob : observer) (t h p : number) : observer :=
  {| temperature := t; humidity := h; pressure := p; class_of := class_of ob |}.

(** *** What [print] can write *)

(** A number [print] can write: the text of an [int] of more than 4300
    digits is refused by [str] and [print] from Python 3.11 on
    ([ValueError]). *)
Definition printable (v : number) : bool :=
  match v with
  | PyInt z => Z.abs z <? 10 ^ 4300
  | PyFloat _ => true
  end.

Definition printable_line (l : line) : bool :=
  forallb (fun a => match a with PNum n => printable n | PStr _ => true end) l.

Definition printable_stats (s : stats) : Prop :=
  printable (min_temp s) = true /\ printable (max_temp s) = true
  /\ printable (min_humidity s) = true /\ printable (max_humidity s) = true
  /\ printable (min_pressure s) = true /\ printable (max_pressure s) = true.

(** The values a [display] of the object can come to print are ones
    [print] can write: the reading it holds and, for a
    [StatisticsDisplay], its minima and maxima. *)
Definition printable_obj (ob : observer) : Prop :=
  printable (temperature ob) = true /\ printable (humidity ob) = true
  /\ printable (pressure ob) = true
  /\ match class_of ob with StatisticsDisplay s => printable_stats s | _ => True end.

(** *** Readings of everyday size *)

(** A number of everyday size: a [float] of binary64, or an [int] of
    magnitude at most [2^1023]. *)
Definition ordinary (v : number) : bool :=
  match v with
  | PyInt z => Z.abs z <=? 2 ^ 1023
  | PyFloat f => valid_binary prec emax f
  end.

Definition is_float (v : number) : bool :=
  match v with PyFloat _ => true | PyInt _ => false end.

Definition ordinary_reading (r : number * number * number) : Prop :=
  ordinary (fst (fst r)) = true /\ ordinary (snd (fst r)) = true
  /\ ordinary (snd r) = true.

Definition ordinary_stats (s : stats) : Prop :=
  ordinary (min_temp s) = true /\ ordinary (max_temp s) = true
  /\ ordinary (min_humidity s) = true /\ ordinary (max_humidity s) = true
  /\ ordinary (min_pressure s) = true /\ ordinary (max_pressure s) = true.

Definition ordinary_class (k : klass) : Prop :=
  match k with StatisticsDisplay s => ordinary_stats s | _ => True end.

(** The running minima and maxima of every [StatisticsDisplay] in the
    store are of everyday size. *)
Definition ordinary_heap (w : world) : Prop :=
  Forall (fun ob => ordinary_class (class_of ob)) (heap w).

(** *** Statistics of [int] readings *)

(** [ob.update(...)] once per reading, in order, up to the first call
    that raises. *)
Fixpoint update_each (o : obj) (rs : list (number * number * number)) : M world unit :=
  match rs with
  | [] => ret tt
  | (t, h, p) :: rs' => do _ <- update o t h p; update_each o rs'
  end.

(** A reading of three [int]s. *)
Definition int_reading (r : Z * Z * Z) : number * number * number :=
  (PyInt (fst (fst r)), PyInt (snd (fst r)), PyInt (snd r)).

(** [f] on each of the three quantities. *)
Definition pointwise (f : Z -> Z -> Z) (a b : Z * Z * Z) : Z * Z * Z :=
  (f (fst (fst a)) (fst (fst b)), f (snd (fst a)) (snd (fst b)), f (snd a) (snd b)).

(** The triple of one quantity holds the [int]s [mn] and [mx] as its
    minimum and maximum, and [round((max + min) / 2, 2)] as its average. *)
Definition int_acc (mn mx : Z) (a : acc) : Prop :=
  acc_min a = PyInt mn /\ acc_max a = PyInt mx
  /\ midpoint (acc_max a) (acc_min a) = Ok (acc_avg a).

Definition int_stats (lo hi : Z * Z * Z) (s : stats) : Prop :=
  int_acc (fst (fst lo)) (fst (fst hi)) (temp_acc s)
  /\ int_acc (snd (fst lo)) (snd (fst hi)) (humidity_acc s)
  /\ int_acc (snd lo) (snd hi) (pressure_acc s).

(** * Properties *)

(** Case analysis on the outcome of each step of a method body, in the
    order in which the left-hand side runs them. *)
Ltac follow_outcomes :=
  repeat (cbn; match goal with
    | |- (let (_, _) := match ?x with _ => _ end in _) = _ => destruct x as [?|?|]
    | |- (match ?x with _ => _ end) = _ => destruct x as [?|?|]
    end); reflexivity.

Arguments calculate_stats : simpl never.
Arguments calculate_forcast : simpl never.
Arguments py_round2 : simpl never.
Arguments py_add : simpl never.
Arguments py_sub : simpl never.
Arguments py_mul : simpl never.
Arguments py_truediv : simpl never.
Arguments round_ratio : simpl never.
Arguments printable : simpl never.

Section Arithmetic.

(** ** The arithmetic on the values of the program *)

(** Float literals are the bits CPython shows with [float.hex]:
    [0.1] is [0x1.999999999999ap-4], [30.4] is [0x1.e666666666666p+4],
    [94.32] is [0x1.7947ae147ae14p+6]. *)
Example float_lit_bits :
  float_lit 1 1 = S754_finite false 0x1999999999999a (-56)
  /\ float_lit 304 1 = S754_finite false 0x1e666666666666 (-48)
  /\ float_lit 9432 2 = S754_finite false 0x17947ae147ae14 (-46).
Proof. vm_compute. repeat split; reflexivity. Qed.

(** On the operands of [main] the operations are those of the Standard
    Library's [SpecFloat]. *)
Example operations_as_SpecFloat :
  let h := round_dyadic 90 0 in
  let t := round_dyadic 78 0 in
  let p := float_lit 292 1 in
  fmul (float_lit 11 2) h = SFmul prec emax (float_lit 11 2) h
  /\ fadd t (fmul (float_lit 11 2) h) = SFadd prec emax t (fmul (float_lit 11 2) h)
  /\ fsub h (fmul (float_lit 9 1) h) = SFsub prec emax h (fmul (float_lit 9 1) h)
  /\ fsub (fadd p (fmul (float_lit 1 1) t)) (fmul (float_lit 21 2) p)
     = SFsub prec emax (fadd p (fmul (float_lit 1 1) t)) (fmul (float_lit 21 2) p)
  /\ fdiv (fadd (float_lit 304 1) p) (round_dyadic 2 0)
     = SFdiv prec emax (fadd (float_lit 304 1) p) (round_dyadic 2 0)
  /\ valid_binary prec emax p = true.
Proof. vm_compute. repeat split; reflexivity. Qed.

(** [round(0.125, 2)] is [0.12] and [round(0.375, 2)] is [0.38] (ties go
    to the even digit), [round(2.675, 2)] is [2.67] (the float is below
    the tie), [round(-0.001, 2)] is [-0.0]. *)
Example py_round2_samples :
  py_round2 (PyFloat (float_lit 125 3)) = Ok (PyFloat (float_lit 12 2))
  /\ py_round2 (PyFloat (float_lit 375 3)) = Ok (PyFloat (float_lit 38 2))
  /\ py_round2 (PyFloat (float_lit 2675 3)) = Ok (PyFloat (float_lit 267 2))
  /\ py_round2 (PyFloat (float_lit (-1) 3)) = Ok (PyFloat (S754_zero true))
  /\ py_round2 (PyInt 80) = Ok (PyInt 80).
Proof. vm_compute. repeat split; reflexivity. Qed.

(** [min(float('inf'), 80)] is the [int] 80, [min(float('inf'), nan)] is
    [inf], [(80 + 80) / 2] is [80.0], [(2 * 10**400) / 2] raises. *)
Example builtins_samples :
  py_min inf (PyInt 80) = PyInt 80
  /\ py_max neg_inf (PyInt 80) = PyInt 80
  /\ py_min inf (PyFloat S754_nan) = inf
  /\ py_truediv (PyInt 160) (PyInt 2) = Ok (PyFloat (float_lit 800 1))
  /\ py_truediv (PyInt (2 * 10 ^ 400)) (PyInt 2) = Raise OverflowError
  /\ py_mul (PyFloat (float_lit 11 2)) (PyInt (10 ^ 400)) = Raise OverflowError
  /\ py_truediv (PyInt 1) (PyInt 0) = Raise ZeroDivisionError
  /\ py_eq (PyInt (2 ^ 53 + 1)) (PyFloat (round_dyadic (2 ^ 53 + 1) 0)) = false.
Proof. vm_compute. repeat split; reflexivity. Qed.

End Arithmetic.

Section Rounding.

(** ** Rounding to binary64 and to two decimals *)

Lemma div_half_even_bounds a b :
  0 < b -> 2 * a - b <= 2 * (div_half_even a b * b) <= 2 * a + b.
Proof.
  intros Hb. unfold div_half_even.
  pose proof (Z.div_mod a b ltac:(lia)) as Hdm.
  pose proof (Z.mod_pos_bound a b Hb) as Hm.
  destruct (Z.compare_spec (2 * (a mod b)) b) as [He|Hl|Hg].
  - destruct (Z.even (a / b)); nia.
  - nia.
  - nia.
Qed.

Lemma div_half_even_unique a b q :
  0 < b -> 2 * a - b < 2 * (q * b) < 2 * a + b -> div_half_even a b = q.
Proof.
  intros Hb Hq.
  pose proof (div_half_even_bounds a b Hb) as H.
  set (r := div_half_even a b) in *. clearbody r.
  assert (-1 < r - q < 1) by nia. lia.
Qed.

Lemma div_half_even_exact q b : 0 < b -> div_half_even (q * b) b = q.
Proof. intros Hb. apply div_half_even_unique; lia. Qed.

Lemma div_half_even_one a : div_half_even a 1 = a.
Proof. rewrite <- (Z.mul_1_r a) at 1. apply div_half_even_exact. lia. Qed.

Lemma div_half_even_nonneg a b : 0 < b -> 0 <= a -> 0 <= div_half_even a b.
Proof.
  intros Hb Ha. pose proof (div_half_even_bounds a b Hb).
  destruct (Z.le_gt_cases 0 (div_half_even a b)) as [|Hneg]; [assumption|].
  unfold div_half_even in *.
  pose proof (Z.div_pos a b Ha Hb).
  destruct (2 * (a mod b) ?= b); try destruct (Z.even (a / b)); lia.
Qed.

Lemma scaled_num_pos n e : 0 < n -> 0 < scaled_num n e.
Proof. intros. unfold scaled_num. pose proof (Z.pow_pos_nonneg 2 (Z.max 0 (- e))). lia. Qed.

Lemma scaled_den_pos d e : 0 < d -> 0 < scaled_den d e.
Proof. intros. unfold scaled_den. pose proof (Z.pow_pos_nonneg 2 (Z.max 0 e)). lia. Qed.

(** Both sides of [c * d * 2^e <= n], cleared of negative powers, at two
    exponents [e] and [e + j]: the fractions differ by the factor [2^j]. *)
Lemma scaled_shift n d e j :
  0 <= j ->
  exists u v, 0 < u /\ 0 < v
    /\ scaled_num n e * u = scaled_num n (e + j) * v
    /\ scaled_den d e * u * 2 ^ j = scaled_den d (e + j) * v.
Proof.
  intros Hj. unfold scaled_num, scaled_den.
  destruct (Z.le_gt_cases 0 e) as [He|He].
  - (* 0 <= e <= e + j *)
    exists 1, 1.
    rewrite (Z.max_l 0 (- e)), (Z.max_l 0 (- (e + j))) by lia.
    rewrite (Z.max_r 0 e), (Z.max_r 0 (e + j)) by lia.
    rewrite Z.pow_add_r by lia. repeat split; lia.
  - destruct (Z.le_gt_cases 0 (e + j)) as [Hej|Hej].
    + (* e < 0 <= e + j *)
      exists 1, (2 ^ (- e)). rewrite (Z.max_r 0 (- e)) by lia.
      rewrite (Z.max_l 0 e) by lia. rewrite (Z.max_l 0 (- (e + j))) by lia.
      rewrite (Z.max_r 0 (e + j)) by lia.
      assert (H2 : 2 ^ j = 2 ^ (e + j) * 2 ^ (- e))
        by (rewrite <- Z.pow_add_r by lia; f_equal; lia).
      pose proof (Z.pow_pos_nonneg 2 (- e)).
      repeat split; try lia; rewrite H2; ring.
    + (* e <= e + j < 0 *)
      exists 1, (2 ^ j). rewrite (Z.max_r 0 (- e)) by lia.
      rewrite (Z.max_l 0 e) by lia. rewrite (Z.max_r 0 (- (e + j))) by lia.
      rewrite (Z.max_l 0 (e + j)) by lia.
      assert (H2 : 2 ^ (- e) = 2 ^ (- (e + j)) * 2 ^ j)
        by (rewrite <- Z.pow_add_r by lia; f_equal; lia).
      pose proof (Z.pow_pos_nonneg 2 j).
      repeat split; try lia; rewrite H2; ring.
Qed.

Lemma ge_pow2_shift n d e j :
  0 <= j -> (ge_pow2 n d (e + j) <-> 2 ^ j * scaled_den d e <= scaled_num n e).
Proof.
  intros Hj. unfold ge_pow2.
  destruct (scaled_shift n d e j Hj) as (u & v & Hu & Hv & Hn & Hd).
  split; intros H.
  - apply (Z.mul_le_mono_pos_r _ _ u Hu). nia.
  - apply (Z.mul_le_mono_pos_r _ _ v Hv). nia.
Qed.

Lemma ge_pow2_anti n d l l' :
  0 < d -> l <= l' -> ge_pow2 n d l' -> ge_pow2 n d l.
Proof.
  intros Hd Hl H. replace l' with (l + (l' - l)) in H by lia.
  apply ge_pow2_shift in H; [|lia].
  pose proof (scaled_den_pos d l Hd).
  pose proof (Z.pow_pos_nonneg 2 (l' - l)).
  unfold ge_pow2. nia.
Qed.

Lemma ilog2_ratio_spec n d :
  0 < n -> 0 < d ->
  ge_pow2 n d (ilog2_ratio n d) /\ ~ ge_pow2 n d (ilog2_ratio n d + 1).
Proof.
  intros Hn Hd.
  pose proof (Z.log2_spec n Hn) as [Ha1 Ha2].
  pose proof (Z.log2_spec d Hd) as [Hb1 Hb2].
  pose proof (Z.log2_nonneg n) as Ha0. pose proof (Z.log2_nonneg d) as Hb0.
  assert (Hup : ~ ge_pow2 n d (Z.log2 n - Z.log2 d + 1)).
  { unfold ge_pow2, scaled_num, scaled_den.
    set (a := Z.log2 n) in *. set (b := Z.log2 d) in *.
    destruct (Z.le_gt_cases 0 (a - b + 1)) as [Hs|Hs].
    - rewrite Z.max_r by lia. rewrite Z.max_l by lia.
      replace (Z.succ a) with (b + (a - b + 1)) in Ha2 by lia.
      rewrite Z.pow_add_r in Ha2 by lia.
      pose proof (Z.pow_pos_nonneg 2 (a - b + 1)). nia.
    - rewrite Z.max_l by lia. rewrite Z.max_r by lia.
      replace b with (Z.succ a + (- (a - b + 1))) in Hb1 at 1 by lia.
      rewrite Z.pow_add_r in Hb1 by lia.
      pose proof (Z.pow_pos_nonneg 2 (- (a - b + 1))). nia. }
  assert (Hlow : ge_pow2 n d (Z.log2 n - Z.log2 d - 1)).
  { unfold ge_pow2, scaled_num, scaled_den.
    set (a := Z.log2 n) in *. set (b := Z.log2 d) in *.
    destruct (Z.le_gt_cases 0 (a - b - 1)) as [Hs|Hs].
    - rewrite Z.max_r by lia. rewrite Z.max_l by lia.
      replace a with (Z.succ b + (a - b - 1)) in Ha1 at 1 by lia.
      rewrite Z.pow_add_r in Ha1 by lia.
      pose proof (Z.pow_pos_nonneg 2 (a - b - 1)). nia.
    - rewrite Z.max_l by lia. rewrite Z.max_r by lia.
      replace (Z.succ b) with (a + (- (a - b - 1))) in Hb2 by lia.
      rewrite Z.pow_add_r in Hb2 by lia.
      pose proof (Z.pow_pos_nonneg 2 (- (a - b - 1))). nia. }
  unfold ilog2_ratio.
  destruct (Z.leb_spec (scaled_den d (Z.log2 n - Z.log2 d))
                       (scaled_num n (Z.log2 n - Z.log2 d))) as [H|H].
  - split; [exact H|exact Hup].
  - split; [exact Hlow|].
    replace (Z.log2 n - Z.log2 d - 1 + 1) with (Z.log2 n - Z.log2 d) by lia.
    unfold ge_pow2. lia.
Qed.

Lemma ilog2_ratio_unique n d l :
  0 < n -> 0 < d -> ge_pow2 n d l -> ~ ge_pow2 n d (l + 1) -> ilog2_ratio n d = l.
Proof.
  intros Hn Hd Hl Hu.
  destruct (ilog2_ratio_spec n d Hn Hd) as [HL HU].
  destruct (Z.lt_trichotomy (ilog2_ratio n d) l) as [Hlt|[Heq|Hgt]]; [|exact Heq|].
  - exfalso. apply HU. apply (ge_pow2_anti n d _ l); [exact Hd|lia|exact Hl].
  - exfalso. apply Hu. apply (ge_pow2_anti n d _ (ilog2_ratio n d)); [exact Hd|lia|exact HL].
Qed.

Lemma emin_binary64 : emin prec emax = -1074.
Proof. reflexivity. Qed.

Lemma digits2_pos_size m : digits2_pos m = Pos.size m.
Proof. induction m; cbn; congruence. Qed.

Lemma digits2_pos_bounds m :
  2 ^ (Zpos (digits2_pos m) - 1) <= Zpos m < 2 ^ Zpos (digits2_pos m).
Proof.
  rewrite digits2_pos_size.
  pose proof (Pos.size_gt m) as Hgt. pose proof (Pos.size_le m) as Hle.
  apply Pos2Z.pos_lt_pos in Hgt. apply Pos2Z.pos_le_pos in Hle.
  rewrite Pos2Z.inj_pow in Hgt, Hle. change (Z.pos 2) with 2 in *.
  change (Zpos m~0) with (2 * Zpos m) in Hle.
  split; [|exact Hgt].
  replace (Zpos (Pos.size m)) with (1 + (Zpos (Pos.size m) - 1)) in Hle by lia.
  rewrite Z.pow_add_r in Hle by lia. change (2 ^ 1) with 2 in Hle. lia.
Qed.

(** [canonical] is the Standard Library's [bounded] at binary64. *)
Lemma canonical_bounded m e :
  canonical (Zpos m) e <-> bounded prec emax m e = true.
Proof.
  unfold bounded, canonical_mantissa, fexp, canonical.
  change (emin prec emax) with (-1074). unfold prec, emax.
  pose proof (digits2_pos_bounds m) as [Hlo Hhi].
  set (dg := Zpos (digits2_pos m)) in *.
  assert (Hdg : 0 < dg) by (subst dg; lia).
  rewrite andb_true_iff, Z.eqb_eq, Z.leb_le.
  split.
  - intros (He & Hm & Hnorm).
    assert (dg <= 53).
    { destruct (Z.le_gt_cases dg 53) as [|Hgt]; [assumption|exfalso].
      assert (2 ^ 53 <= 2 ^ (dg - 1)) by (apply Z.pow_le_mono_r; lia). lia. }
    split; [|lia].
    destruct Hnorm as [Hn|Hs]; [|lia].
    assert (53 <= dg).
    { destruct (Z.le_gt_cases 53 dg) as [|Hlt]; [assumption|exfalso].
      assert (2 ^ dg <= 2 ^ 52) by (apply Z.pow_le_mono_r; lia). lia. }
    lia.
  - intros [Hfe He].
    assert (Hd53 : dg <= 53) by lia.
    assert (2 ^ dg <= 2 ^ 53) by (apply Z.pow_le_mono_r; lia).
    split; [lia|]. split; [lia|].
    destruct (Z.eq_dec e (-1074)) as [|Hne]; [right; assumption|left].
    assert (dg = 53) by lia. subst dg. rewrite H0 in Hlo. exact Hlo.
Qed.

(** If the binary64 number [m * 2^e] is strictly nearer to [n / d] than
    half its unit in the last place, and [n / d] is not below the binade
    of [m * 2^e], then [n / d] rounds to it. *)
Lemma round_ratio_nearest s n d m e :
  0 < n -> 0 < d ->
  canonical (Zpos m) e ->
  (2 ^ 52 * scaled_den d e <= scaled_num n e \/ e = -1074) ->
  2 * (Zpos m * scaled_den d e) - scaled_den d e < 2 * scaled_num n e
    < 2 * (Zpos m * scaled_den d e) + scaled_den d e ->
  round_ratio s n d = S754_finite s m e.
Proof.
  intros Hn Hd (He & Hm & Hnorm) Hbin Hnear.
  pose proof (scaled_den_pos d e Hd) as HD.
  pose proof (scaled_num_pos n e Hn) as HN.
  assert (Hup : ~ ge_pow2 n d (e + 53)).
  { rewrite ge_pow2_shift by lia. nia. }
  assert (HL : Z.max (ilog2_ratio n d - (prec - 1)) (emin prec emax) = e).
  { rewrite emin_binary64. unfold prec.
    destruct (ilog2_ratio_spec n d Hn Hd) as [HL1 HL2].
    destruct Hbin as [Hbin| ->].
    - assert (ilog2_ratio n d = e + 52); [|lia].
      apply ilog2_ratio_unique; auto.
      + apply ge_pow2_shift; [lia|exact Hbin].
      + replace (e + 52 + 1) with (e + 53) by lia. exact Hup.
    - assert (ilog2_ratio n d < -1074 + 53); [|lia].
      destruct (Z.lt_ge_cases (ilog2_ratio n d) (-1074 + 53)) as [|Hge]; [assumption|].
      exfalso. apply Hup. eapply ge_pow2_anti; [exact Hd| |exact HL1]. lia. }
  unfold round_ratio.
  destruct (Z.leb_spec n 0) as [|_]; [lia|].
  rewrite HL.
  rewrite (div_half_even_unique (scaled_num n e) (scaled_den d e) (Zpos m)) by lia.
  destruct (Z.eqb_spec (Zpos m) (2 ^ prec)) as [Heq|_]; [unfold prec in Heq; lia|].
  destruct (Z.leb_spec e (emax - prec)) as [|Hgt]; [reflexivity|].
  unfold emax, prec in Hgt. lia.
Qed.

(** What a finite result of [round_ratio] is: a canonical binary64 number
    within half a unit in the last place of [n / d]. *)
Lemma round_ratio_finite s n d s' m e :
  0 < n -> 0 < d ->
  round_ratio s n d = S754_finite s' m e ->
  s' = s /\ canonical (Zpos m) e
  /\ 2 * (Zpos m * scaled_den d e) - scaled_den d e <= 2 * scaled_num n e
     <= 2 * (Zpos m * scaled_den d e) + scaled_den d e.
Proof.
  intros Hn Hd. unfold round_ratio.
  destruct (Z.leb_spec n 0) as [|_]; [lia|].
  rewrite emin_binary64. unfold prec, emax.
  destruct (ilog2_ratio_spec n d Hn Hd) as [HL1 HL2].
  set (L := ilog2_ratio n d) in *.
  set (e0 := Z.max (L - (53 - 1)) (-1074)).
  assert (He0 : -1074 <= e0 /\ L - 52 <= e0) by lia.
  pose proof (scaled_den_pos d e0 Hd) as HD.
  pose proof (scaled_num_pos n e0 Hn) as HN.
  pose proof (div_half_even_bounds (scaled_num n e0) (scaled_den d e0) HD) as Hb.
  pose proof (div_half_even_nonneg (scaled_num n e0) (scaled_den d e0) HD ltac:(lia)) as H0.
  set (m0 := div_half_even (scaled_num n e0) (scaled_den d e0)) in *.
  assert (Hup : scaled_num n e0 < 2 ^ 53 * scaled_den d e0).
  { apply Z.lt_nge. intros Hc. apply (ge_pow2_shift n d e0 53) in Hc; [|lia].
    apply HL2. eapply ge_pow2_anti; [exact Hd| |exact Hc]. lia. }
  assert (Hm0 : m0 <= 2 ^ 53) by nia.
  assert (Hlow : 2 ^ 52 <= m0 \/ e0 = -1074).
  { destruct (Z.eq_dec e0 (-1074)) as [|Hne]; [right; assumption|left].
    assert (e0 = L - 52) by lia.
    assert (Hge : ge_pow2 n d (e0 + 52)) by (replace (e0 + 52) with L by lia; exact HL1).
    apply ge_pow2_shift in Hge; [|lia]. nia. }
  destruct (Z.eqb_spec m0 (2 ^ 53)) as [Heq|Hne].
  - change (2 ^ (53 - 1)) with (Zpos (2 ^ 52)%positive).
    destruct (Z.leb_spec (e0 + 1) (1024 - 53)) as [Hle|]; [|discriminate].
    intros [= <- <- <-].
    split; [reflexivity|].
    split; [unfold canonical; lia|].
    destruct (scaled_shift n d e0 1 ltac:(lia)) as (u & v & Hu & Hv & Hnum & Hden).
    change (Zpos (2 ^ 52)%positive) with (2 ^ 52).
    pose proof (scaled_den_pos d (e0 + 1) Hd).
    change (2 ^ 1) with 2 in Hden.
    split; apply (Z.mul_le_mono_pos_r _ _ v Hv); nia.
  - destruct m0 as [|p|p] eqn:Hp; try discriminate.
    destruct (Z.leb_spec e0 (1024 - 53)) as [Hle|]; [|discriminate].
    intros [= <- <- <-].
    split; [reflexivity|].
    split; [unfold canonical; lia|]. lia.
Qed.

(** Every result of [round_ratio] is a binary64 number of the Standard
    Library. *)
Lemma round_ratio_valid s n d :
  0 < d -> valid_binary prec emax (round_ratio s n d) = true.
Proof.
  intros Hd.
  destruct (round_ratio s n d) as [s'|s'| |s' m e] eqn:Hr; try reflexivity.
  destruct (Z.lt_ge_cases 0 n) as [Hn|Hn].
  - apply canonical_bounded.
    destruct (round_ratio_finite s n d s' m e Hn Hd Hr) as (_ & Hcan & _).
    exact Hcan.
  - unfold round_ratio in Hr. destruct (Z.leb_spec n 0); [discriminate|lia].
Qed.

Lemma scaled_num_nonpos n e : e <= 0 -> scaled_num n (- e) = n.
Proof. intros. unfold scaled_num. rewrite Z.max_l by lia. cbn. lia. Qed.

Lemma scaled_den_nonpos d e : e <= 0 -> scaled_den d e = d.
Proof. intros. unfold scaled_den. rewrite Z.max_l by lia. cbn. lia. Qed.

Lemma scaled_num_neg n e : e <= 0 -> scaled_num n e = n * 2 ^ (- e).
Proof. intros. unfold scaled_num. rewrite Z.max_r by lia. reflexivity. Qed.

Lemma scaled_den_nonneg d e : 0 <= e -> scaled_den d e = d * 2 ^ e.
Proof. intros. unfold scaled_den. rewrite Z.max_r by lia. reflexivity. Qed.

Lemma scaled_num_nonneg n e : 0 <= e -> scaled_num n e = n.
Proof. intros. unfold scaled_num. rewrite Z.max_l by lia. cbn. lia. Qed.

(** A two-decimal float rounds to itself: [round(round(x, 2), 2)] is
    [round(x, 2)].  Below [2^46] the float nearest to [k / 100] is within
    [1/200] of it, so it rounds back to [k / 100]; from [2^46] on, floats
    are at least [1/64] apart and every float rounds to itself. *)
Lemma round_ratio_100_fixed s k :
  is_infinity (round_ratio s k 100) = false ->
  py_round2 (PyFloat (round_ratio s k 100)) = Ok (PyFloat (round_ratio s k 100)).
Proof.
  intros Hfin.
  destruct (round_ratio s k 100) as [s'|s'| |s' m e] eqn:Hr; try reflexivity.
  assert (Hk : 0 < k).
  { destruct (Z.lt_ge_cases 0 k) as [|Hle]; [assumption|].
    unfold round_ratio in Hr. destruct (Z.leb_spec k 0); [discriminate|lia]. }
  destruct (round_ratio_finite s k 100 s' m e Hk ltac:(lia) Hr)
    as (-> & Hcan & Hnear).
  destruct Hcan as (He & Hm & Hnorm).
  unfold py_round2.
  set (k' := div_half_even (scaled_num (100 * Zpos m) (- e)) (scaled_den 1 (- e))).
  enough (Hgoal : round_ratio s k' 100 = S754_finite s m e) by (rewrite Hgoal; reflexivity).
  destruct (Z.le_gt_cases e (-7)) as [Hsmall|Hbig].
  - (* below 2^46 *)
    assert (k' = k); [|subst k'; congruence].
    subst k'. rewrite scaled_num_nonpos by lia.
    unfold scaled_den at 1. rewrite Z.max_r by lia. rewrite Z.mul_1_l.
    rewrite scaled_num_neg, scaled_den_nonpos in Hnear by lia.
    assert (2 ^ 7 <= 2 ^ (- e)) by (apply Z.pow_le_mono_r; lia).
    change (2 ^ 7) with 128 in *.
    apply div_half_even_unique; lia.
  - destruct (Z.le_gt_cases 0 e) as [Hpos|Hneg].
    + (* integers *)
      assert (Hk' : k' = 100 * Zpos m * 2 ^ e).
      { subst k'. unfold scaled_num, scaled_den.
        rewrite Z.max_r by lia. rewrite Z.max_l by lia.
        replace (- - e) with e by lia. cbn [Z.pow Z.pow_pos Pos.iter Z.mul].
        change (1 * 1) with 1. apply div_half_even_one. }
      pose proof (Z.pow_pos_nonneg 2 e ltac:(lia) Hpos) as H2e.
      apply round_ratio_nearest; try lia.
      * unfold canonical; lia.
      * left. rewrite scaled_den_nonneg, scaled_num_nonneg by lia. nia.
      * rewrite scaled_den_nonneg, scaled_num_nonneg by lia. nia.
    + (* between 2^46 and 2^53 *)
      assert (Hc : exists c, 2 ^ (- e) = c /\ 2 <= c <= 64).
      { assert (Hcases : e = -6 \/ e = -5 \/ e = -4 \/ e = -3 \/ e = -2 \/ e = -1) by lia.
        destruct Hcases as [->|[->|[->|[->|[->| ->]]]]]; eexists; split;
          try reflexivity; lia. }
      destruct Hc as (c & Hc & Hcb).
      assert (Hk'b : 2 * (100 * Zpos m) - c <= 2 * (k' * c) <= 2 * (100 * Zpos m) + c).
      { subst k'. rewrite scaled_num_nonpos by lia.
        unfold scaled_den. rewrite Z.max_r by lia. rewrite Z.mul_1_l, Hc.
        apply div_half_even_bounds. lia. }
      assert (Hm52 : 2 ^ 52 <= Zpos m) by lia.
      assert (Hbin : 2 ^ 52 * 100 <= k' * c).
      { destruct (Z.eq_dec (Zpos m) (2 ^ 52)) as [Heq|Hne]; [|lia].
        assert (Hex : k' = 100 * 2 ^ (52 + e)).
        { subst k'. rewrite scaled_num_nonpos by lia.
          unfold scaled_den. rewrite Z.max_r by lia. rewrite Z.mul_1_l, Heq.
          replace (100 * 2 ^ 52) with (100 * 2 ^ (52 + e) * 2 ^ (- e)).
          - apply div_half_even_exact. lia.
          - rewrite <- Z.mul_assoc, <- Z.pow_add_r by lia. do 2 f_equal. lia. }
        rewrite Hex, <- Hc, <- Z.mul_assoc, <- Z.pow_add_r by lia.
        replace (52 + e + - e) with 52 by lia. lia. }
      apply round_ratio_nearest; try lia.
      * unfold canonical; lia.
      * left. rewrite scaled_den_nonpos, scaled_num_neg, Hc by lia. lia.
      * rewrite scaled_den_nonpos, scaled_num_neg, Hc by lia. lia.
Qed.

Theorem py_round2_idempotent x r :
  py_round2 x = Ok r -> py_round2 r = Ok r.
Proof.
  destruct x as [z|[s|s| |s m e]]; try (intros [= <-]; reflexivity).
  unfold py_round2 at 1.
  destruct (is_infinity _) eqn:Hinf; [discriminate|].
  intros [= <-]. apply round_ratio_100_fixed, Hinf.
Qed.

End Rounding.


Section Frame.

(** ** What one [update] touches *)

Lemma quietb_insert hp i o o' :
  hp !! i = Some o ->
  (match class_of o' with UserDisplay (_ :: _) => false | _ => true end) =
  (match class_of o with UserDisplay (_ :: _) => false | _ => true end) ->
  forall x, quietb (<[i := o']> hp) x = quietb hp x.
Proof.
  intros Hi Hk x. unfold quietb.
  destruct (Nat.eq_dec i x) as [->|Hne].
  - rewrite list_lookup_insert_eq by (eapply lookup_lt_Some; eauto).
    rewrite Hi. exact Hk.
  - rewrite list_lookup_insert_ne by done. reflexivity.
Qed.

Lemma bounded_free_bind {S A B : Type} (m : M S A) (k : A -> M S B) :
  bounded_free m -> (forall a, bounded_free (k a)) -> bounded_free (bind m k).
Proof.
  intros Hm Hk s. unfold bind. specialize (Hm s).
  destruct (m s) as [[a|e|] s']; cbn in *; [apply Hk|discriminate|congruence].
Qed.

Lemma bounded_free_gets {S A : Type} (f : S -> A) : bounded_free (gets f).
Proof. intros s; discriminate. Qed.

Lemma bounded_free_modify {S : Type} (f : S -> S) : bounded_free (modify f).
Proof. intros s; discriminate. Qed.

Lemma bounded_free_lift {S A : Type} (o : outcome A) :
  o <> OutOfFuel -> bounded_free (@lift S A o).
Proof. intros H s; exact H. Qed.

Lemma int_to_float_returns z : int_to_float z <> OutOfFuel.
Proof. unfold int_to_float. destruct (is_infinity _); discriminate. Qed.

Lemma float_binop_returns op a b : float_binop op a b <> OutOfFuel.
Proof.
  unfold float_binop.
  destruct a as [x|x], b as [y|y];
    repeat match goal with
    | |- context [int_to_float ?z] =>
        let H := fresh in
        pose proof (int_to_float_returns z) as H;
        destruct (int_to_float z); try congruence
    end; discriminate.
Qed.

Lemma py_add_returns a b : py_add a b <> OutOfFuel.
Proof. destruct a, b; try apply float_binop_returns; discriminate. Qed.

Lemma py_sub_returns a b : py_sub a b <> OutOfFuel.
Proof. destruct a, b; try apply float_binop_returns; discriminate. Qed.

Lemma py_mul_returns a b : py_mul a b <> OutOfFuel.
Proof. destruct a, b; try apply float_binop_returns; discriminate. Qed.

Lemma py_truediv_returns a b : py_truediv a b <> OutOfFuel.
Proof.
  unfold py_truediv.
  destruct a as [x|x], b as [y|y];
    try (pose proof (float_binop_returns fdiv) as H;
         match goal with
         | |- context [float_binop fdiv ?a ?b] =>
             specialize (H a b); destruct (float_binop fdiv a b); try congruence
         end; destruct (py_eq _ _); discriminate).
  destruct (y =? 0); [discriminate|].
  destruct (is_infinity _); discriminate.
Qed.

Lemma py_round2_returns x : py_round2 x <> OutOfFuel.
Proof.
  unfold py_round2. destruct x as [z|[s|s| |s m e]]; try discriminate.
  destruct (is_infinity _); discriminate.
Qed.

Create HintDb returns.

#[local] Hint Resolve bounded_free_bind bounded_free_gets bounded_free_modify
  bounded_free_lift py_add_returns py_sub_returns py_mul_returns
  py_truediv_returns py_round2_returns : returns.

Lemma calculate_stats_returns t h p : bounded_free (calculate_stats t h p).
Proof.
  unfold calculate_stats, assign_round_min, assign_round_max, assign_midpoint.
  repeat (apply bounded_free_bind; [|intros ?]); auto with returns.
Qed.

Lemma calculate_forcast_returns t h p : bounded_free (calculate_forcast t h p).
Proof.
  unfold calculate_forcast.
  repeat (apply bounded_free_bind; [|intros ?]); auto with returns.
Qed.

(** One [update] of a quiet observer: the subject keeps its list and its
    reading, the other objects keep their attributes, and the trace gains
    the call (unless the address holds no observer). *)
Lemma update_quiet o t h p w r w' :
  quietb (heap w) o = true ->
  update o t h p w = (r, w') ->
  observers w' = observers w /\ reading_of w' = reading_of w
  /\ (forall x, quietb (heap w') x = quietb (heap w) x)
  /\ r <> OutOfFuel
  /\ (forall x, x <> o -> heap w' !! x = heap w !! x)
  /\ ((updates w' = updates w /\ r = Raise AttributeError)
      \/ updates w' = updates w ++ [(o, (t, h, p))]).
Proof.
  intros Hq. unfold update.
  destruct (heap w !! o) as [ob|] eqn:Hob.
  2:{ intros [= <- <-]. repeat split; auto; try discriminate. }
  assert (Hlt : (o < length (heap w))%nat) by (eapply lookup_lt_Some; eauto).
  unfold bind, modify, display; cbn.
  rewrite list_lookup_insert_eq by exact Hlt. cbn.
  assert (Hqi : forall k', (match k' with UserDisplay (_ :: _) => false | _ => true end) = true ->
            (match class_of ob with UserDisplay (_ :: _) => false | _ => true end) = true ->
            forall st x, quietb (<[o := with_class st k']> (<[o := st]> (heap w))) x = quietb (heap w) x).
  { intros k' Hk' Hk st x. unfold quietb.
    destruct (Nat.eq_dec o x) as [->|Hne].
    - rewrite list_lookup_insert_eq by (rewrite length_insert; exact Hlt).
      rewrite Hob. cbn. rewrite Hk', Hk. reflexivity.
    - rewrite !list_lookup_insert_ne by done. reflexivity. }
  assert (Hq' : (match class_of ob with UserDisplay (_ :: _) => false | _ => true end) = true).
  { unfold quietb in Hq. rewrite Hob in Hq. exact Hq. }
  assert (Hq1 : forall st, class_of st = class_of ob ->
            forall x, quietb (<[o := st]> (heap w)) x = quietb (heap w) x).
  { intros st Hst x. apply quietb_insert with (o := ob); auto. rewrite Hst. reflexivity. }
  destruct (class_of ob) as [|s|f|body] eqn:Hk.
  - unfold print, modify; cbn. intros [= <- <-]; cbn.
    repeat split; auto; try discriminate.
    + intros x Hx. rewrite list_lookup_insert_ne by done. reflexivity.
  - unfold bind, on_attrs, print, modify; cbn.
    pose proof (calculate_stats_returns t h p s) as Hret.
    destruct (calculate_stats t h p s) as [rr s'].
    destruct rr as [[]|e|]; [| |contradiction Hret; reflexivity];
      intros [= <- <-]; cbn;
      (repeat split; auto; try discriminate;
       try (intros x; apply Hqi; auto; fail);
       intros x Hx; rewrite !list_lookup_insert_ne by done; reflexivity).
  - unfold bind, on_attrs, print, modify; cbn.
    pose proof (calculate_forcast_returns t h p f) as Hret.
    destruct (calculate_forcast t h p f) as [rr f'].
    destruct rr as [[]|e|]; [| |contradiction Hret; reflexivity];
      intros [= <- <-]; cbn;
      (repeat split; auto; try discriminate;
       try (intros x; apply Hqi; auto; fail);
       intros x Hx; rewrite !list_lookup_insert_ne by done; reflexivity).
  - destruct body as [|c cs]; [|discriminate Hq'].
    cbn. unfold ret. intros [= <- <-]; cbn.
    repeat split; auto; try discriminate.
    + intros x Hx. rewrite list_lookup_insert_ne by done. reflexivity.
Qed.

Lemma all_quiet_lookup w i o :
  all_quiet w -> observers w !! i = Some o -> quietb (heap w) o = true.
Proof.
  unfold all_quiet. rewrite forallb_forall. intros H Hi.
  apply H, list_elem_of_In. eapply list_elem_of_lookup_2; eauto.
Qed.

Lemma all_quiet_transfer w w' :
  observers w' = observers w ->
  (forall x, quietb (heap w') x = quietb (heap w) x) ->
  all_quiet w -> all_quiet w'.
Proof.
  unfold all_quiet. intros -> Hq. rewrite !forallb_forall.
  intros H x Hx. rewrite Hq. auto.
Qed.

(** The loop over quiet observers, from position [i]: the list and the
    reading stay as they are, the loop ends within [length - i + 1] rounds,
    objects outside the rest of the list are not touched, and the calls
    made are those of a prefix of the rest of the list, all of it when no
    call raises. *)
Lemma notify_from_quiet fuel : forall i w r w',
  all_quiet w ->
  (length (observers w) - i < fuel)%nat ->
  notify_from fuel i w = (r, w') ->
  observers w' = observers w /\ reading_of w' = reading_of w
  /\ (forall x, quietb (heap w') x = quietb (heap w) x)
  /\ r <> OutOfFuel
  /\ (forall x, x ∉ drop i (observers w) -> heap w' !! x = heap w !! x)
  /\ exists n,
       updates w' = updates w ++ fan_out (take n (drop i (observers w))) (reading_of w)
       /\ (r = Ok tt -> take n (drop i (observers w)) = drop i (observers w)).
Proof.
  induction fuel as [|fuel IH]; intros i w r w' Hq Hfuel; [lia|].
  cbn [notify_from].
  destruct (observers w !! i) as [ob|] eqn:Hi.
  2:{ intros [= <- <-]. apply lookup_ge_None_1 in Hi.
      rewrite (drop_ge _ _ Hi).
      repeat split; auto; try discriminate.
      exists 0%nat. cbn. rewrite app_nil_r. auto. }
  pose proof (lookup_lt_Some _ _ _ Hi) as Hlt.
  unfold bind.
  destruct (update ob (wd_temperature w) (wd_humidity w) (wd_pressure w) w)
    as [r1 w1] eqn:Hup.
  apply update_quiet in Hup; [|eapply all_quiet_lookup; eauto].
  destruct Hup as (Hobs & Hrd & Hqb & Hfu & Hframe & Htr).
  rewrite (drop_S _ _ _ Hi).
  destruct r1 as [[]|e|]; [| |congruence].
  - intros Hrec. apply IH in Hrec;
      [|eapply all_quiet_transfer; eauto|rewrite Hobs; lia].
    destruct Hrec as (Hobs' & Hrd' & Hqb' & Hfu' & Hframe' & n & Htr' & Hall).
    destruct Htr as [[_ Hbad]|Htr]; [discriminate|].
    rewrite Hobs in Hframe', Htr', Hall. rewrite Hrd in Htr'.
    split; [congruence|]. split; [congruence|].
    split; [intros x; rewrite Hqb'; apply Hqb|].
    split; [exact Hfu'|].
    split.
    + intros x Hx. rewrite elem_of_cons in Hx.
      rewrite Hframe' by tauto. apply Hframe. intros ->. tauto.
    + exists (S n). split.
      * rewrite Htr', Htr. cbn. rewrite <- app_assoc. reflexivity.
      * intros Hr. cbn. f_equal. auto.
  - intros [= <- <-].
    split; [congruence|]. split; [congruence|].
    split; [exact Hqb|]. split; [discriminate|].
    split.
    + intros x Hx. rewrite elem_of_cons in Hx. apply Hframe. intros ->. tauto.
    + destruct Htr as [[Htr _]|Htr].
      * exists 0%nat. cbn. rewrite app_nil_r. split; [auto|discriminate].
      * exists 1%nat. cbn. rewrite take_0. split; [auto|discriminate].
Qed.

Lemma setMeasurements_quiet fuel t h p w r w' :
  all_quiet w ->
  (length (observers w) < fuel)%nat ->
  setMeasurements fuel t h p w = (r, w') ->
  observers w' = observers w /\ reading_of w' = (t, h, p)
  /\ (forall x, quietb (heap w') x = quietb (heap w) x)
  /\ r <> OutOfFuel
  /\ (forall x, x ∉ observers w -> heap w' !! x = heap w !! x)
  /\ exists n,
       updates w' = updates w ++ fan_out (take n (observers w)) (t, h, p)
       /\ (r = Ok tt -> take n (observers w) = observers w).
Proof.
  intros Hq Hfuel.
  unfold setMeasurements, measurementsChanged, notifyObservers, bind, modify.
  intros Hrun.
  apply notify_from_quiet in Hrun; [exact Hrun|exact Hq|cbn; lia].
Qed.

(** A call that raises ends the loop at once. *)
Lemma notify_from_raise fuel i w ob e :
  observers w !! i = Some ob ->
  fst (update ob (wd_temperature w) (wd_humidity w) (wd_pressure w) w) = Raise e ->
  notify_from (S fuel) i w =
  (Raise e, snd (update ob (wd_temperature w) (wd_humidity w) (wd_pressure w) w)).
Proof.
  intros Hi Hr. cbn [notify_from]. rewrite Hi. unfold bind.
  destruct (update _ _ _ _ _) as [r w1]. cbn in Hr. subst r. reflexivity.
Qed.

(** A call that returns lets the loop go on from the next position. *)
Lemma notify_from_ok fuel i w ob :
  observers w !! i = Some ob ->
  fst (update ob (wd_temperature w) (wd_humidity w) (wd_pressure w) w) = Ok tt ->
  notify_from (S fuel) i w =
  notify_from fuel (S i)
    (snd (update ob (wd_temperature w) (wd_humidity w) (wd_pressure w) w)).
Proof.
  intros Hi Hr. cbn [notify_from]. rewrite Hi. unfold bind.
  destruct (update _ _ _ _ _) as [r w1]. cbn in Hr. subst r. reflexivity.
Qed.

Lemma notify_from_end fuel i w :
  observers w !! i = None -> notify_from (S fuel) i w = (Ok tt, w).
Proof. intros Hi. cbn [notify_from]. rewrite Hi. reflexivity. Qed.

(** After any number of rounds of the loop over quiet observers the list
    is the one the loop started with. *)
Lemma notify_from_observers fuel : forall i w,
  all_quiet w -> observers (snd (notify_from fuel i w)) = observers w.
Proof.
  induction fuel as [|fuel IH]; intros i w Hq; [reflexivity|].
  cbn [notify_from].
  destruct (observers w !! i) as [ob|] eqn:Hi; [|reflexivity].
  unfold bind.
  destruct (update ob (wd_temperature w) (wd_humidity w) (wd_pressure w) w)
    as [r1 w1] eqn:Hup.
  apply update_quiet in Hup; [|eapply all_quiet_lookup; eauto].
  destruct Hup as (Hobs & _ & Hqb & _).
  destruct r1 as [[]|e|]; cbn; auto.
  rewrite IH; [exact Hobs|]. eapply all_quiet_transfer; eauto.
Qed.

Lemma set_observers_restore l w : set_observers (observers w) (set_observers l w) = w.
Proof. destruct w. reflexivity. Qed.

(** The [update] of an observer that leaves the list alone does not read
    the list either: it does the same on any list. *)
Lemma update_set_observers o t h p l w :
  quietb (heap w) o = true ->
  update o t h p (set_observers l w)
  = (fst (update o t h p w), set_observers l (snd (update o t h p w))).
Proof.
  intros Hq. unfold quietb in Hq. unfold update.
  cbn [heap set_observers].
  destruct (heap w !! o) as [ob|] eqn:Hob; [|reflexivity].
  assert (Hlt : (o < length (heap w))%nat) by (eapply lookup_lt_Some; eauto).
  unfold bind, modify, display; cbn.
  rewrite list_lookup_insert_eq by exact Hlt. cbn.
  destruct (class_of ob) as [|s|f|body].
  - reflexivity.
  - unfold bind, on_attrs, print, modify; cbn.
    destruct (calculate_stats t h p s) as [[[]|e|] s']; reflexivity.
  - unfold bind, on_attrs, print, modify; cbn.
    destruct (calculate_forcast t h p f) as [[[]|e|] f']; reflexivity.
  - destruct body as [|c cs]; [|discriminate Hq]. reflexivity.
Qed.

Lemma all_quiet_take k w : all_quiet w -> all_quiet (set_observers (take k (observers w)) w).
Proof.
  unfold all_quiet. cbn [heap observers set_observers]. rewrite !forallb_forall.
  intros H x Hx. apply H. apply list_elem_of_In. apply list_elem_of_In in Hx.
  rewrite <- (take_drop k (observers w)). apply elem_of_app. left. exact Hx.
Qed.

(** The loop over quiet observers ends at the first [update] that raises:
    the observers before it are notified as they are by the loop over the
    list cut at that position, which returns, and the state the loop ends
    in is the one the raising [update] leaves. *)
Lemma notify_from_raiser fuel : forall i w e w',
  all_quiet w ->
  (length (observers w) - i < fuel)%nat ->
  notify_from fuel i w = (Raise e, w') ->
  exists k o wk,
    (i <= k)%nat
    /\ observers w !! k = Some o
    /\ notify_from fuel i (set_observers (take k (observers w)) w) = (Ok tt, wk)
    /\ update o (wd_temperature w) (wd_humidity w) (wd_pressure w)
         (set_observers (observers w) wk) = (Raise e, w').
Proof.
  induction fuel as [|fuel IH]; intros i w e w' Hq Hfuel; [lia|].
  cbn [notify_from].
  destruct (observers w !! i) as [ob|] eqn:Hi; [|discriminate].
  pose proof (lookup_lt_Some _ _ _ Hi) as Hlt.
  pose proof (all_quiet_lookup w i ob Hq Hi) as Hqo.
  unfold bind.
  destruct (update ob (wd_temperature w) (wd_humidity w) (wd_pressure w) w)
    as [r1 w1] eqn:Hup.
  pose proof (update_quiet _ _ _ _ _ _ _ Hqo Hup) as (Hobs & Hrd & Hqb & Hfu & _).
  destruct r1 as [[]|e1|]; [| |congruence].
  - intros Hrec.
    apply IH in Hrec; [|eapply all_quiet_transfer; eauto|rewrite Hobs; lia].
    destruct Hrec as (k & o & wk & Hik & Hk & Hcut & Hraise).
    unfold reading_of in Hrd. injection Hrd as Ht Hh Hp.
    rewrite Hobs in Hk, Hcut, Hraise. rewrite Ht, Hh, Hp in Hraise.
    exists k, o, wk. split; [lia|]. split; [exact Hk|]. split; [|exact Hraise].
    cbn [observers set_observers wd_temperature wd_humidity wd_pressure].
    rewrite lookup_take_lt by lia. rewrite Hi.
    rewrite (update_set_observers ob _ _ _ _ w Hqo), Hup. cbn [fst snd].
    exact Hcut.
  - intros [= <- <-]. exists i, ob, (set_observers (take i (observers w)) w).
    split; [lia|]. split; [exact Hi|]. split.
    + cbn [observers set_observers]. rewrite lookup_take_ge by lia. reflexivity.
    + rewrite set_observers_restore. exact Hup.
Qed.

End Frame.

Section Lists.

(** ** The list of observers *)

Lemma remove_first_None o l : remove_first o l = None <-> o ∉ l.
Proof.
  induction l as [|x l IH]; cbn.
  - split; [intros _; apply not_elem_of_nil|reflexivity].
  - rewrite not_elem_of_cons. destruct (Nat.eqb_spec x o) as [->|Hne].
    + split; [discriminate|tauto].
    + destruct (remove_first o l); split; try discriminate; try tauto.
      * intros [_ H]. apply IH in H. discriminate.
      * intros _. split; [congruence|]. apply IH. reflexivity.
Qed.

Lemma remove_first_app o l1 l2 :
  o ∉ l1 -> remove_first o (l1 ++ o :: l2) = Some (l1 ++ l2).
Proof.
  induction l1 as [|x l1 IH]; cbn; intros Hn.
  - rewrite Nat.eqb_refl. reflexivity.
  - rewrite not_elem_of_cons in Hn. destruct Hn as [Hne Hn].
    destruct (Nat.eqb_spec x o); [congruence|]. rewrite IH by exact Hn. reflexivity.
Qed.

Lemma remove_first_Some o l :
  o ∈ l -> exists l1 l2, l = l1 ++ o :: l2 /\ (o ∉ l1)
                         /\ remove_first o l = Some (l1 ++ l2).
Proof.
  intros Hin. apply list_elem_of_split_l in Hin as (l1 & l2 & -> & Hn).
  exists l1, l2. split; [reflexivity|]. split; [exact Hn|].
  apply remove_first_app, Hn.
Qed.

Lemma occurrences_app o l1 l2 :
  occurrences o (l1 ++ l2) = (occurrences o l1 + occurrences o l2)%nat.
Proof. unfold occurrences. rewrite List.filter_app, length_app. reflexivity. Qed.

Lemma occurrences_cons o x l :
  occurrences o (x :: l) = ((if Nat.eqb x o then 1 else 0) + occurrences o l)%nat.
Proof. unfold occurrences. cbn. destruct (Nat.eqb x o); reflexivity. Qed.

Lemma occurrences_zero o l : occurrences o l = 0%nat <-> o ∉ l.
Proof.
  induction l as [|x l IH].
  - split; [intros _; apply not_elem_of_nil|reflexivity].
  - rewrite occurrences_cons, not_elem_of_cons.
    destruct (Nat.eqb_spec x o) as [->|Hne]; cbn.
    + split; [discriminate|tauto].
    + rewrite IH. split; [intros H; split; [congruence|exact H]|tauto].
Qed.

Lemma calls_to_app o tr1 tr2 :
  calls_to o (tr1 ++ tr2) = (calls_to o tr1 + calls_to o tr2)%nat.
Proof. unfold calls_to. rewrite List.filter_app, length_app. reflexivity. Qed.

Lemma calls_to_fan_out o l r : calls_to o (fan_out l r) = occurrences o l.
Proof.
  unfold calls_to, occurrences, fan_out.
  induction l as [|x l IH]; cbn; [reflexivity|].
  destruct (Nat.eqb x o); cbn; rewrite IH; reflexivity.
Qed.

Lemma not_elem_of_take (o : nat) n (l : list nat) : o ∉ l -> o ∉ take n l.
Proof.
  intros Hn Hin. apply Hn. rewrite <- (take_drop n l).
  apply elem_of_app. left. exact Hin.
Qed.

End Lists.

Section Subject.

(** ** The subject: registration, removal and notification *)

Lemma setMeasurements_unfold fuel t h p w :
  setMeasurements fuel t h p w = notify_from fuel 0 (set_reading t h p w).
Proof. reflexivity. Qed.

(** A [setMeasurements] call that raises: some observer's [update] raised,
    after the call had notified the observers before it as a call on the
    list cut at that observer does, and the call ended there. *)
Lemma setMeasurements_raiser w fuel t h p e w' :
  all_quiet w ->
  (length (observers w) < fuel)%nat ->
  setMeasurements fuel t h p w = (Raise e, w') ->
  exists k o wk,
    observers w !! k = Some o
    /\ setMeasurements fuel t h p (set_observers (take k (observers w)) w) = (Ok tt, wk)
    /\ update o t h p (set_observers (observers w) wk) = (Raise e, w').
Proof.
  intros Hq Hfuel Hrun. rewrite setMeasurements_unfold in Hrun.
  apply notify_from_raiser in Hrun; [|exact Hq|cbn; lia].
  destruct Hrun as (k & o & wk & _ & Hk & Hcut & Hraise).
  exists k, o, wk. split; [exact Hk|]. split; [|exact Hraise].
  rewrite setMeasurements_unfold. exact Hcut.
Qed.




(** In [main] the first call returns and reaches the three displays. *)
Example main_first_call :
  let run := setMeasurements 4 (PyInt 80) (PyInt 65) (PyFloat (float_lit 304 1))
               three_displays in
  fst run = Ok tt
  /\ map fst (updates (snd run)) = [0; 1; 2]%nat.
Proof. vm_compute. split; reflexivity. Qed.

(** C2 as stated fails: the loop reads the list itself.  When the first
    observer's [display] removes that observer, the second one moves to
    position 0, the loop goes on at position 1, finds nothing there and
    returns: the second observer, registered when the notification began,
    gets no [update]. *)
Lemma self_removal_skips_next :
  observers leaver_then_current = [0; 1]%nat
  /\ updates leaver_then_current = []
  /\ forall fuel,
       let run := notifyObservers (S (S fuel)) leaver_then_current in
       fst run = Ok tt
       /\ observers (snd run) = [1]%nat
       /\ calls_to 1 (updates (snd run)) = 0%nat.
Proof.
  split; [reflexivity|]. split; [reflexivity|]. intros fuel run. subst run.
  unfold notifyObservers.
  rewrite (notify_from_ok (S fuel) 0 _ 0%nat);
    [|vm_compute; reflexivity|vm_compute; reflexivity].
  rewrite notify_from_end by (vm_compute; reflexivity).
  repeat split; vm_compute; reflexivity.
Qed.

(** C2, amended: when no [update] called during the notification touches
    the list (none of the three displays does), the list is the same after
    every round of the loop, the loop ends, and if no [update] raises every
    observer gets one call per registration. *)
Theorem notifyObservers_quiet_complete (w : world) (fuel : nat) :
  all_quiet w ->
  (length (observers w) < fuel)%nat ->
  (forall rounds, observers (snd (notifyObservers rounds w)) = observers w)
  /\ fst (notifyObservers fuel w) <> OutOfFuel
  /\ (fst (notifyObservers fuel w) = Ok tt ->
      forall o, calls_to o (updates (snd (notifyObservers fuel w)))
                = (calls_to o (updates w) + occurrences o (observers w))%nat).
Proof.
  intros Hq Hfuel.
  split; [intros rounds; apply notify_from_observers, Hq|].
  unfold notifyObservers.
  destruct (notify_from fuel 0 w) as [r w'] eqn:Hrun.
  apply notify_from_quiet in Hrun; [|exact Hq|lia].
  destruct Hrun as (_ & _ & _ & Hfu & _ & n & Htr & Hall).
  split; [exact Hfu|]. cbn. intros Hr o.
  rewrite Htr, (Hall Hr), calls_to_app, calls_to_fan_out. reflexivity.
Qed.

Lemma notifyObservers_quiet_complete_witness :
  all_quiet three_displays
  /\ (length (observers three_displays) < 4)%nat
  /\ (forall rounds,
        observers (snd (notifyObservers rounds three_displays))
        = observers three_displays)
  /\ fst (notifyObservers 4 three_displays) <> OutOfFuel
  /\ (fst (notifyObservers 4 three_displays) = Ok tt ->
      forall o, calls_to o (updates (snd (notifyObservers 4 three_displays)))
                = (calls_to o (updates three_displays)
                   + occurrences o (observers three_displays))%nat)
  /\ fst (notifyObservers 4 three_displays) = Ok tt.
Proof.
  assert (H1 : all_quiet three_displays) by (vm_compute; reflexivity).
  assert (H2 : (length (observers three_displays) < 4)%nat) by (vm_compute; lia).
  split; [exact H1|]. split; [exact H2|].
  destruct (notifyObservers_quiet_complete three_displays 4 H1 H2) as (Ha & Hb & Hc).
  split; [exact Ha|]. split; [exact Hb|]. split; [exact Hc|].
  vm_compute. reflexivity.
Defined.

(** C9: [removeObserver] of an observer that is not in the list raises
    [ValueError], and the subject (its list included) is as before. *)
Theorem removeObserver_absent_raises (o : obj) (w : world) :
  o ∉ observers w ->
  removeObserver o w = (Raise ValueError, w).
Proof.
  intros Hn. unfold removeObserver.
  apply remove_first_None in Hn. rewrite Hn. reflexivity.
Qed.

Lemma removeObserver_absent_raises_witness :
  (7%nat ∉ observers three_displays)
  /\ removeObserver 7 three_displays = (Raise ValueError, three_displays).
Proof.
  assert (H : 7%nat ∉ observers three_displays).
  { apply remove_first_None. vm_compute. reflexivity. }
  split; [exact H|]. exact (removeObserver_absent_raises 7 three_displays H).
Defined.

(** C10: notification over observers that do not call back into the
    subject leaves the list of observers as it is, after any number of
    rounds and also when an [update] raises; so do [update] and [display]
    of such an observer.  [registerObserver] and [removeObserver] are the
    methods that change it: one appends, the other takes an element out. *)
Theorem notification_keeps_observers (w : world) (fuel : nat) (t h p : number) :
  all_quiet w ->
  observers (snd (setMeasurements fuel t h p w)) = observers w
  /\ observers (snd (measurementsChanged fuel w)) = observers w
  /\ observers (snd (notifyObservers fuel w)) = observers w
  /\ ((length (observers w) < fuel)%nat ->
      fst (setMeasurements fuel t h p w) <> OutOfFuel)
  /\ (forall o, quietb (heap w) o = true ->
                observers (snd (update o t h p w)) = observers w)
  /\ (forall o, observers (snd (registerObserver o w)) = observers w ++ [o])
  /\ (forall o, o ∈ observers w ->
                S (length (observers (snd (removeObserver o w))))
                = length (observers w)).
Proof.
  intros Hq.
  split; [exact (notify_from_observers fuel 0 (set_reading t h p w) Hq)|].
  split; [apply notify_from_observers, Hq|].
  split; [apply notify_from_observers, Hq|].
  split.
  { intros Hfuel. destruct (setMeasurements fuel t h p w) as [r w'] eqn:Hrun.
    apply setMeasurements_quiet in Hrun; auto. cbn. tauto. }
  split.
  { intros o Ho. destruct (update o t h p w) as [r w'] eqn:Hup.
    apply update_quiet in Hup; auto. cbn. tauto. }
  split; [reflexivity|].
  intros o Hin. unfold removeObserver.
  apply remove_first_Some in Hin as (l1 & l2 & Hl & _ & Hrm).
  rewrite Hrm, Hl. cbn. rewrite !length_app. cbn. lia.
Qed.

Lemma notification_keeps_observers_witness :
  all_quiet three_displays
  /\ observers (snd (setMeasurements 4 (PyInt 80) (PyInt 65)
                       (PyFloat (float_lit 304 1)) three_displays))
     = observers three_displays.
Proof.
  assert (H1 : all_quiet three_displays) by (vm_compute; reflexivity).
  split; [exact H1|].
  exact (proj1 (notification_keeps_observers three_displays 4
                  (PyInt 80) (PyInt 65) (PyFloat (float_lit 304 1)) H1)).
Defined.

Lemma feed_quiet fuel rs : forall w O,
  all_quiet w -> O ∉ observers w -> (length (observers w) < fuel)%nat ->
  Forall (fun r => r <> OutOfFuel) (fst (feed fuel rs w))
  /\ observers (snd (feed fuel rs w)) = observers w
  /\ heap (snd (feed fuel rs w)) !! O = heap w !! O
  /\ calls_to O (updates (snd (feed fuel rs w))) = calls_to O (updates w).
Proof.
  induction rs as [|[[t h] p] rs IH]; intros w O Hq HO Hfuel; cbn [feed].
  - cbn. repeat split; auto.
  - destruct (setMeasurements fuel t h p w) as [r w1] eqn:Hrun.
    apply setMeasurements_quiet in Hrun; auto.
    destruct Hrun as (Hobs & _ & Hqb & Hfu & Hframe & n & Htr & _).
    specialize (IH w1 O).
    destruct (feed fuel rs w1) as [rest w2]. cbn in *.
    destruct IH as (Hall & Hobs2 & Hheap & Hcalls).
    { eapply all_quiet_transfer; eauto. }
    { rewrite Hobs. exact HO. }
    { rewrite Hobs. exact Hfuel. }
    split; [constructor; auto|].
    split; [congruence|].
    split; [rewrite Hheap; apply Hframe, HO|].
    rewrite Hcalls, Htr, calls_to_app, calls_to_fan_out.
    assert (Hz : occurrences O (take n (observers w)) = 0%nat)
      by (apply occurrences_zero, not_elem_of_take, HO).
    rewrite Hz. lia.
Qed.

(** C3 as stated fails: an observer can be put back on the list by the
    [display] of another one.  With a [CurrentConditionsDisplay] and then
    an observer whose [display] registers it, the
    [CurrentConditionsDisplay] is registered once, is removed, and the next
    [setMeasurements] call updates it all the same: the other observer is
    notified first and registers it again, and the loop, which reads the
    list itself, comes to it. *)
Lemma reregistered_observer_is_notified :
  occurrences 0 (observers current_then_registrar) = 1%nat
  /\ calls_to 0 (updates current_then_registrar) = 0%nat
  /\ reading_at current_then_registrar 0 = Some (PyInt 0, PyInt 0, PyInt 0)
  /\ exists w1,
       removeObserver 0 current_then_registrar = (Ok tt, w1)
       /\ observers w1 = [1%nat]
       /\ fst (setMeasurements 3 (PyInt 80) (PyInt 65) (PyInt 30) w1) = Ok tt
       /\ calls_to 0 (updates (snd (setMeasurements 3 (PyInt 80) (PyInt 65) (PyInt 30) w1)))
          = 1%nat
       /\ reading_at (snd (setMeasurements 3 (PyInt 80) (PyInt 65) (PyInt 30) w1)) 0
          = Some (PyInt 80, PyInt 65, PyInt 30).
Proof.
  split; [reflexivity|]. split; [reflexivity|]. split; [reflexivity|].
  eexists. split; [reflexivity|].
  split; [reflexivity|]. split; [vm_compute; reflexivity|].
  split; vm_compute; reflexivity.
Qed.

(** C3, amended: when the other registered observers are ones whose
    [display] does not call back into the subject, as the three displays,
    an observer registered once and then removed gets no [update] from any
    later [setMeasurements] call, and its attributes stay as they were. *)
Theorem removed_observer_left_alone (w : world) (O : obj) (fuel : nat)
    (rs : list (number * number * number)) :
  occurrences O (observers w) = 1%nat ->
  (forall o, o ∈ observers w -> o <> O -> quietb (heap w) o = true) ->
  (length (observers w) <= fuel)%nat ->
  exists w1,
    removeObserver O w = (Ok tt, w1)
    /\ (O ∉ observers w1)
    /\ Forall (fun r => r <> OutOfFuel) (fst (feed fuel rs w1))
    /\ calls_to O (updates (snd (feed fuel rs w1))) = calls_to O (updates w)
    /\ heap (snd (feed fuel rs w1)) !! O = heap w !! O.
Proof.
  intros Hocc Hquiet Hfuel.
  assert (Hin : O ∈ observers w).
  { destruct (decide (O ∈ observers w)) as [|Hn]; [assumption|].
    apply occurrences_zero in Hn. lia. }
  apply remove_first_Some in Hin as (l1 & l2 & Hl & Hn1 & Hrm).
  assert (Hn2 : O ∉ l2).
  { apply occurrences_zero. rewrite Hl, occurrences_app, occurrences_cons in Hocc.
    rewrite Nat.eqb_refl in Hocc. lia. }
  assert (Hn : O ∉ l1 ++ l2) by (rewrite elem_of_app; tauto).
  exists (set_observers (l1 ++ l2) w).
  unfold removeObserver. rewrite Hrm.
  split; [reflexivity|]. split; [exact Hn|].
  assert (Hq : all_quiet (set_observers (l1 ++ l2) w)).
  { unfold all_quiet. cbn. rewrite forallb_forall. intros x Hx.
    apply list_elem_of_In in Hx. apply Hquiet.
    - rewrite Hl. rewrite elem_of_app in Hx. rewrite elem_of_app, elem_of_cons. tauto.
    - intros ->. contradiction. }
  destruct (feed_quiet fuel rs _ O Hq Hn) as (Hall & _ & Hheap & Hcalls).
  { cbn. rewrite Hl in Hfuel. rewrite length_app in *. cbn in Hfuel. lia. }
  repeat split; assumption.
Qed.

Lemma removed_observer_left_alone_witness :
  occurrences 0 (observers three_displays) = 1%nat
  /\ (forall o, o ∈ observers three_displays -> o <> 0%nat ->
                quietb (heap three_displays) o = true)
  /\ (length (observers three_displays) <= 3)%nat
  /\ exists w1,
       removeObserver 0 three_displays = (Ok tt, w1)
       /\ (0%nat ∉ observers w1)
       /\ Forall (fun r => r <> OutOfFuel)
            (fst (feed 3 [(PyInt 120, PyInt 100, PyInt 1000)] w1))
       /\ calls_to 0 (updates (snd (feed 3 [(PyInt 120, PyInt 100, PyInt 1000)] w1)))
          = calls_to 0 (updates three_displays)
       /\ heap (snd (feed 3 [(PyInt 120, PyInt 100, PyInt 1000)] w1)) !! 0%nat
          = heap three_displays !! 0%nat.
Proof.
  assert (H1 : occurrences 0 (observers three_displays) = 1%nat) by reflexivity.
  assert (H2 : forall o, o ∈ observers three_displays -> o <> 0%nat ->
                         quietb (heap three_displays) o = true).
  { intros o Ho _. change (observers three_displays) with [0; 1; 2]%nat in Ho.
    rewrite !elem_of_cons in Ho.
    destruct Ho as [->|[->|[->|Ho]]]; [reflexivity..|].
    apply elem_of_nil in Ho. contradiction. }
  assert (H3 : (length (observers three_displays) <= 3)%nat) by (vm_compute; lia).
  split; [exact H1|]. split; [exact H2|]. split; [exact H3|].
  exact (removed_observer_left_alone three_displays 0 3
           [(PyInt 120, PyInt 100, PyInt 1000)] H1 H2 H3).
Defined.

(** C4 as stated fails for the same reason as C1: a [StatisticsDisplay]
    registered twice gets one [update], not two, from
    [setMeasurements(10**400, 0, 0)], because that first [update] raises
    [OverflowError]. *)
Lemma overflow_cuts_second_update :
  observers stats_twice = [0; 0]%nat
  /\ updates stats_twice = []
  /\ forall fuel,
       let run := setMeasurements (S fuel) huge (PyInt 0) (PyInt 0) stats_twice in
       fst run = Raise OverflowError
       /\ calls_to 0 (updates (snd run)) = 1%nat.
Proof.
  split; [reflexivity|]. split; [reflexivity|]. intros fuel run. subst run.
  rewrite setMeasurements_unfold.
  rewrite (notify_from_raise fuel 0 _ 0%nat OverflowError);
    [|vm_compute; reflexivity|vm_compute; reflexivity].
  split; [reflexivity|]. vm_compute; reflexivity.
Qed.

(** C4, amended: [registerObserver] appends without looking for a
    duplicate and [removeObserver] takes out the first occurrence only.
    Over observers whose [display] does not call back into the subject,
    as the three displays, an observer that is not on the list and is then
    registered twice gets two [update] calls from every [setMeasurements]
    call in which no [update] raises, and one after one removal. *)
Theorem double_registration (w : world) (O : obj) (fuel : nat) (t h p : number) :
  all_quiet w ->
  quietb (heap w) O = true ->
  O ∉ observers w ->
  (length (observers w) + 2 < fuel)%nat ->
  (forall o w0, registerObserver o w0 = (Ok tt, set_observers (observers w0 ++ [o]) w0))
  /\ (forall o w0 l1 l2, observers w0 = l1 ++ o :: l2 -> o ∉ l1 ->
        removeObserver o w0 = (Ok tt, set_observers (l1 ++ l2) w0))
  /\ exists w2 w3,
       snd (registerObserver O (snd (registerObserver O w))) = w2
       /\ observers w2 = observers w ++ [O; O]
       /\ fst (setMeasurements fuel t h p w2) <> OutOfFuel
       /\ (fst (setMeasurements fuel t h p w2) = Ok tt ->
           calls_to O (updates (snd (setMeasurements fuel t h p w2)))
           = (calls_to O (updates w) + 2)%nat)
       /\ removeObserver O w2 = (Ok tt, w3)
       /\ observers w3 = observers w ++ [O]
       /\ fst (setMeasurements fuel t h p w3) <> OutOfFuel
       /\ (fst (setMeasurements fuel t h p w3) = Ok tt ->
           calls_to O (updates (snd (setMeasurements fuel t h p w3)))
           = (calls_to O (updates w) + 1)%nat).
Proof.
  intros Hq HqO Hn Hfuel.
  split; [reflexivity|].
  split.
  { intros o w0 l1 l2 Hl Hn1. unfold removeObserver.
    rewrite Hl, remove_first_app by exact Hn1. reflexivity. }
  assert (Hq_ext : forall l, Forall (fun x => x ∈ observers w \/ x = O) l ->
            all_quiet (set_observers l w)).
  { intros l Hl. unfold all_quiet. cbn. rewrite forallb_forall. intros x Hx.
    rewrite Forall_forall in Hl. apply list_elem_of_In in Hx.
    destruct (Hl x Hx) as [Hin| ->]; [|exact HqO].
    unfold all_quiet in Hq. rewrite forallb_forall in Hq.
    apply Hq, list_elem_of_In, Hin. }
  assert (Hocc : occurrences O (observers w) = 0%nat) by (apply occurrences_zero, Hn).
  exists (set_observers (observers w ++ [O; O]) w),
         (set_observers (observers w ++ [O]) w).
  split; [cbn; unfold set_observers; cbn; rewrite <- app_assoc; reflexivity|].
  split; [reflexivity|].
  assert (run : forall l k, Forall (fun x => x ∈ observers w \/ x = O) l ->
            (length l < fuel)%nat -> occurrences O l = k ->
            fst (setMeasurements fuel t h p (set_observers l w)) <> OutOfFuel
            /\ (fst (setMeasurements fuel t h p (set_observers l w)) = Ok tt ->
                calls_to O (updates (snd (setMeasurements fuel t h p (set_observers l w))))
                = (calls_to O (updates w) + k)%nat)).
  { intros l k Hl Hlen Hk.
    destruct (setMeasurements fuel t h p (set_observers l w)) as [r w'] eqn:Hrun.
    apply setMeasurements_quiet in Hrun; [|apply Hq_ext, Hl|exact Hlen].
    destruct Hrun as (_ & _ & _ & Hfu & _ & n & Htr & Hall). cbn in *.
    split; [exact Hfu|]. intros Hr.
    rewrite Htr, (Hall Hr), calls_to_app, calls_to_fan_out, Hk. reflexivity. }
  assert (Hmem : forall l', Forall (fun x => x = O) l' ->
            Forall (fun x => x ∈ observers w \/ x = O) (observers w ++ l')).
  { intros l' Hl'. apply Forall_app. split.
    - apply Forall_forall. intros x Hx. left. exact Hx.
    - eapply Forall_impl; [exact Hl'|]. cbn. intros x ->. right. reflexivity. }
  destruct (run (observers w ++ [O; O]) 2%nat) as [Ha Hb].
  { apply Hmem. repeat constructor. }
  { rewrite length_app. cbn. lia. }
  { rewrite occurrences_app, !occurrences_cons, Nat.eqb_refl, Hocc. reflexivity. }
  destruct (run (observers w ++ [O]) 1%nat) as [Hc Hd].
  { apply Hmem. repeat constructor. }
  { rewrite length_app. cbn. lia. }
  { rewrite occurrences_app, !occurrences_cons, Nat.eqb_refl, Hocc. reflexivity. }
  split; [exact Ha|]. split; [exact Hb|].
  split.
  { unfold removeObserver. cbn [observers set_observers].
    rewrite remove_first_app by exact Hn. reflexivity. }
  split; [reflexivity|]. split; [exact Hc|exact Hd].
Qed.

Lemma double_registration_witness :
  all_quiet current_removed
  /\ quietb (heap current_removed) 0 = true
  /\ (0%nat ∉ observers current_removed)
  /\ (length (observers current_removed) + 2 < 5)%nat
  /\ fst (setMeasurements 5 (PyInt 82) (PyInt 70) (PyFloat (float_lit 292 1))
            (snd (registerObserver 0 (snd (registerObserver 0 current_removed)))))
     = Ok tt
  /\ exists w2 w3,
       snd (registerObserver 0 (snd (registerObserver 0 current_removed))) = w2
       /\ observers w2 = observers current_removed ++ [0; 0]%nat
       /\ fst (setMeasurements 5 (PyInt 82) (PyInt 70) (PyFloat (float_lit 292 1)) w2)
          <> OutOfFuel
       /\ (fst (setMeasurements 5 (PyInt 82) (PyInt 70) (PyFloat (float_lit 292 1)) w2)
           = Ok tt ->
           calls_to 0 (updates (snd (setMeasurements 5 (PyInt 82) (PyInt 70)
                                       (PyFloat (float_lit 292 1)) w2)))
           = (calls_to 0 (updates current_removed) + 2)%nat)
       /\ removeObserver 0 w2 = (Ok tt, w3)
       /\ observers w3 = observers current_removed ++ [0]%nat
       /\ fst (setMeasurements 5 (PyInt 82) (PyInt 70) (PyFloat (float_lit 292 1)) w3)
          <> OutOfFuel
       /\ (fst (setMeasurements 5 (PyInt 82) (PyInt 70) (PyFloat (float_lit 292 1)) w3)
           = Ok tt ->
           calls_to 0 (updates (snd (setMeasurements 5 (PyInt 82) (PyInt 70)
                                       (PyFloat (float_lit 292 1)) w3)))
           = (calls_to 0 (updates current_removed) + 1)%nat).
Proof.
  assert (H1 : all_quiet current_removed) by (vm_compute; reflexivity).
  assert (H2 : quietb (heap current_removed) 0 = true) by (vm_compute; reflexivity).
  assert (H3 : 0%nat ∉ observers current_removed).
  { apply remove_first_None. vm_compute. reflexivity. }
  assert (H4 : (length (observers current_removed) + 2 < 5)%nat) by (vm_compute; lia).
  split; [exact H1|]. split; [exact H2|]. split; [exact H3|]. split; [exact H4|].
  split; [vm_compute; reflexivity|].
  exact (proj2 (proj2 (double_registration current_removed 0 5
                         (PyInt 82) (PyInt 70) (PyFloat (float_lit 292 1))
                         H1 H2 H3 H4))).
Defined.

End Subject.

Section Statistics.

Lemma calculate_stats_fields t h p s :
  calculate_stats t h p s = calculate_stats_by_field t h p s.
Proof.
  destruct s.
  unfold calculate_stats_by_field, calculate_stats, field_step,
    assign_round_min, assign_round_max, assign_midpoint,
    bind, gets, modify, lift, temp_acc, humidity_acc, pressure_acc,
    stats_of, acc_min, acc_max, acc_avg,
    set_min_temp, set_max_temp, set_average_temp,
    set_min_humidity, set_max_humidity, set_average_humidity,
    set_min_pressure, set_max_pressure, set_average_pressure.
  follow_outcomes.
Qed.

(** Whatever the humidity and the pressure do, the temperature triple
    after [calculate_stats] is the one its own three assignments leave. *)
Lemma calculate_stats_temp t h p s :
  temp_acc (snd (calculate_stats t h p s)) = snd (field_step t (temp_acc s)).
Proof.
  rewrite calculate_stats_fields. unfold calculate_stats_by_field.
  destruct (field_step t (temp_acc s)) as [[[]|e|] [[mn mx] av]];
    [|reflexivity..].
  destruct (field_step h (humidity_acc s)) as [[[]|e|] a2]; [|reflexivity..].
  destruct (field_step p (pressure_acc s)) as [r3 a3]; reflexivity.
Qed.

(** [update] on a [StatisticsDisplay] runs [calculate_stats] with the
    values passed on the attributes the object has. *)
Lemma update_stats_at o t h p w s :
  stats_at w o = Some s ->
  stats_at (snd (update o t h p w)) o = Some (snd (calculate_stats t h p s)).
Proof.
  unfold stats_at, update. intros Hs.
  destruct (heap w !! o) as [ob|] eqn:Hob; [|discriminate].
  destruct (class_of ob) as [|s0| |] eqn:Hk; try discriminate.
  injection Hs as ->.
  assert (Hlt : (o < length (heap w))%nat) by (eapply lookup_lt_Some; eauto).
  unfold bind, modify, display; cbn.
  rewrite list_lookup_insert_eq by exact Hlt. cbn.
  unfold bind, on_attrs, print, modify; cbn.
  destruct (calculate_stats t h p s) as [[[]|e|] s']; cbn;
    rewrite list_lookup_insert_eq by (rewrite length_insert; exact Hlt);
    reflexivity.
Qed.

(** C5: a [StatisticsDisplay] fed the temperatures 80, 82, 78 (each
    [update] calls [display], which recomputes the statistics), whatever
    the humidity and the pressure are, has (min, max) = (80, 80), then
    (80, 82), then (78, 82), and average 80.0, then 81.0, then 80.0: the
    value of [round((min + max) / 2, 2)], the midpoint of the extremes and
    not a mean of the samples. *)
Theorem statistics_temperature_sequence (h1 p1 h2 p2 h3 p3 : number) :
  let w0 := snd (new_StatisticsDisplay WeatherData_init) in
  let w1 := snd (update 0 (PyInt 80) h1 p1 w0) in
  let w2 := snd (update 0 (PyInt 82) h2 p2 w1) in
  let w3 := snd (update 0 (PyInt 78) h3 p3 w2) in
  temp_at w1 0 = Some (PyInt 80, PyInt 80, PyFloat (float_lit 800 1))
  /\ temp_at w2 0 = Some (PyInt 80, PyInt 82, PyFloat (float_lit 810 1))
  /\ temp_at w3 0 = Some (PyInt 78, PyInt 82, PyFloat (float_lit 800 1))
  /\ midpoint (PyInt 80) (PyInt 80) = Ok (PyFloat (float_lit 800 1))
  /\ midpoint (PyInt 80) (PyInt 82) = Ok (PyFloat (float_lit 810 1))
  /\ midpoint (PyInt 78) (PyInt 82) = Ok (PyFloat (float_lit 800 1)).
Proof.
  intros w0 w1 w2 w3.
  assert (H0 : stats_at w0 0 = Some StatisticsDisplay_init) by reflexivity.
  pose proof (update_stats_at 0 (PyInt 80) h1 p1 w0 _ H0) as H1. fold w1 in H1.
  pose proof (update_stats_at 0 (PyInt 82) h2 p2 w1 _ H1) as H2. fold w2 in H2.
  pose proof (update_stats_at 0 (PyInt 78) h3 p3 w2 _ H2) as H3. fold w3 in H3.
  unfold temp_at. rewrite H1, H2, H3. cbn [option_map].
  rewrite !calculate_stats_temp.
  repeat split; vm_compute; reflexivity.
Qed.
(** The average is the midpoint of the extremes, not the mean of the
    samples: after 80, 80, 83 it is 81.5, where the mean is 81.0. *)
Example midpoint_is_not_the_mean (h p : number) :
  let w0 := snd (new_StatisticsDisplay WeatherData_init) in
  let w1 := snd (update 0 (PyInt 80) h p w0) in
  let w2 := snd (update 0 (PyInt 80) h p w1) in
  let w3 := snd (update 0 (PyInt 83) h p w2) in
  temp_at w3 0 = Some (PyInt 80, PyInt 83, PyFloat (float_lit 815 1))
  /\ py_truediv (PyInt (80 + 80 + 83)) (PyInt 3) = Ok (PyFloat (float_lit 810 1)).
Proof.
  intros w0 w1 w2 w3.
  assert (H0 : stats_at w0 0 = Some StatisticsDisplay_init) by reflexivity.
  pose proof (update_stats_at 0 (PyInt 80) h p w0 _ H0) as H1. fold w1 in H1.
  pose proof (update_stats_at 0 (PyInt 80) h p w1 _ H1) as H2. fold w2 in H2.
  pose proof (update_stats_at 0 (PyInt 83) h p w2 _ H2) as H3. fold w3 in H3.
  unfold temp_at. rewrite H3. cbn [option_map].
  rewrite !calculate_stats_temp.
  split; vm_compute; reflexivity.
Qed.

(** The run of [main]: every call returns, nine [update] calls are made
    and sixty lines are written; at the end the statistics of the pressure
    are 29.2, 30.4 and 29.8 and the forecast is 94.32, 9.0, 30.87. *)
Example main_run :
  let w := snd (main 4 WeatherData_init) in
  fst (main 4 WeatherData_init) = Ok tt
  /\ map fst (updates w) = [0; 1; 2; 0; 1; 2; 0; 1; 2]%nat
  /\ length (stdout w) = 60%nat
  /\ option_map pressure_acc (stats_at w 1)
     = Some (PyFloat (float_lit 292 1), PyFloat (float_lit 304 1),
             PyFloat (float_lit 298 1))
  /\ forecast_at w 2
     = Some {| forcast_temp := PyFloat (float_lit 9432 2);
               forcast_humidity := PyFloat (float_lit 90 1);
               forcast_pressure := PyFloat (float_lit 3087 2) |}.
Proof. vm_compute. repeat split; reflexivity. Qed.

End Statistics.

Section Forecast.

(** ** ForecastDisplay *)

Lemma calculate_forcast_formulas t h p f :
  calculate_forcast t h p f = calculate_forcast_by_formula t h p f.
Proof.
  destruct f.
  unfold calculate_forcast_by_formula, calculate_forcast,
    forecast_temp_formula, forecast_humidity_formula, forecast_pressure_formula,
    and_then, bind, gets, modify, lift,
    set_forcast_temp, set_forcast_humidity, set_forcast_pressure.
  follow_outcomes.
Qed.

(** C7: [calculate_forcast] computes the three formulas of the
    specification from the current reading alone: when the formulas have
    values these are the new attributes whatever the old ones were, and
    the other way round; for the reading (78, 90, 29.2) the values are
    94.32, 9.0 and 30.87, which [update] stores and [display] prints. *)
Theorem forecast_from_current_reading :
  (forall t h p f f',
      forecast_formulas t h p = Ok f' ->
      calculate_forcast t h p f = (Ok tt, f'))
  /\ (forall t h p f f',
      calculate_forcast t h p f = (Ok tt, f') ->
      forecast_formulas t h p = Ok f')
  /\ forecast_formulas (PyInt 78) (PyInt 90) (PyFloat (float_lit 292 1))
     = Ok {| forcast_temp := PyFloat (float_lit 9432 2);
             forcast_humidity := PyFloat (float_lit 90 1);
             forcast_pressure := PyFloat (float_lit 3087 2) |}
  /\ (let w := snd (update 0 (PyInt 78) (PyInt 90) (PyFloat (float_lit 292 1))
                      (snd (new_ForecastDisplay WeatherData_init))) in
      forecast_at w 0
      = Some {| forcast_temp := PyFloat (float_lit 9432 2);
                forcast_humidity := PyFloat (float_lit 90 1);
                forcast_pressure := PyFloat (float_lit 3087 2) |}
      /\ stdout w = ForecastDisplay_lines
                     {| forcast_temp := PyFloat (float_lit 9432 2);
                        forcast_humidity := PyFloat (float_lit 90 1);
                        forcast_pressure := PyFloat (float_lit 3087 2) |}).
Proof.
  split; [|split; [|split]].
  - intros t h p f f'. rewrite calculate_forcast_formulas.
    unfold forecast_formulas, calculate_forcast_by_formula, and_then.
    destruct (forecast_temp_formula t h p); try discriminate.
    destruct (forecast_humidity_formula h); try discriminate.
    destruct (forecast_pressure_formula t p); try discriminate.
    intros [= <-]. reflexivity.
  - intros t h p f f'. rewrite calculate_forcast_formulas.
    unfold forecast_formulas, calculate_forcast_by_formula, and_then.
    destruct (forecast_temp_formula t h p); try discriminate.
    destruct (forecast_humidity_formula h); try discriminate.
    destruct (forecast_pressure_formula t p); try discriminate.
    intros [= <-]. reflexivity.
  - vm_compute. reflexivity.
  - vm_compute. split; reflexivity.
Qed.

Lemma forecast_from_current_reading_witness :
  forecast_formulas (PyInt 78) (PyInt 90) (PyFloat (float_lit 292 1))
  = Ok {| forcast_temp := PyFloat (float_lit 9432 2);
          forcast_humidity := PyFloat (float_lit 90 1);
          forcast_pressure := PyFloat (float_lit 3087 2) |}
  /\ calculate_forcast (PyInt 78) (PyInt 90) (PyFloat (float_lit 292 1))
       ForecastDisplay_init
     = (Ok tt, {| forcast_temp := PyFloat (float_lit 9432 2);
                  forcast_humidity := PyFloat (float_lit 90 1);
                  forcast_pressure := PyFloat (float_lit 3087 2) |}).
Proof.
  assert (H : forecast_formulas (PyInt 78) (PyInt 90) (PyFloat (float_lit 292 1))
              = Ok {| forcast_temp := PyFloat (float_lit 9432 2);
                      forcast_humidity := PyFloat (float_lit 90 1);
                      forcast_pressure := PyFloat (float_lit 3087 2) |})
    by (vm_compute; reflexivity).
  split; [exact H|].
  exact (proj1 forecast_from_current_reading _ _ _ ForecastDisplay_init _ H).
Defined.

End Forecast.

Section DisplayTwice.

(** ** Computing the derived values twice *)

Lemma rounded_min mn v mn1 :
  rounded mn -> py_round2 (py_min mn v) = Ok mn1 ->
  py_round2 (py_min mn1 v) = Ok mn1 /\ rounded mn1.
Proof.
  unfold rounded, py_min. intros Hmn.
  destruct (py_lt v mn) eqn:E.
  - intros Hv. pose proof (py_round2_idempotent _ _ Hv) as Hfix.
    split; [|exact Hfix]. destruct (py_lt v mn1); assumption.
  - rewrite Hmn. intros [= <-]. rewrite E. split; exact Hmn.
Qed.

Lemma rounded_max mx v mx1 :
  rounded mx -> py_round2 (py_max mx v) = Ok mx1 ->
  py_round2 (py_max mx1 v) = Ok mx1 /\ rounded mx1.
Proof.
  unfold rounded, py_max. intros Hmx.
  destruct (py_gt v mx) eqn:E.
  - intros Hv. pose proof (py_round2_idempotent _ _ Hv) as Hfix.
    split; [|exact Hfix]. destruct (py_gt v mx1); assumption.
  - rewrite Hmx. intros [= <-]. rewrite E. split; exact Hmx.
Qed.

(** One quantity: computing the statistics again from the same value
    changes nothing and ends the same way. *)
Lemma field_step_twice v a :
  rounded_acc a ->
  field_step v (snd (field_step v a)) = field_step v a
  /\ rounded_acc (snd (field_step v a)).
Proof.
  destruct a as [[mn mx] av]. intros [Hmn Hmx]. cbn in Hmn, Hmx.
  unfold field_step, bind, gets, modify, lift, acc_min, acc_max, acc_avg,
    rounded_acc; cbn.
  destruct (py_round2 (py_min mn v)) as [mn1|e|] eqn:E1; cbn;
    [|rewrite E1; cbn; auto..].
  destruct (rounded_min _ _ _ Hmn E1) as [E1' Hmn1].
  destruct (py_round2 (py_max mx v)) as [mx1|e|] eqn:E2; cbn;
    [|rewrite E1'; cbn; rewrite E2; cbn; auto..].
  destruct (rounded_max _ _ _ Hmx E2) as [E2' Hmx1].
  destruct (py_add mx1 mn1) as [sum|e|] eqn:E3; cbn;
    [|rewrite E1'; cbn; rewrite E2'; cbn; rewrite E3; cbn; auto..].
  destruct (py_truediv sum (PyInt 2)) as [half|e|] eqn:E4; cbn;
    [|rewrite E1'; cbn; rewrite E2'; cbn; rewrite E3; cbn; rewrite E4; cbn; auto..].
  destruct (py_round2 half) as [av1|e|] eqn:E5; cbn;
    rewrite E1'; cbn; rewrite E2'; cbn; rewrite E3; cbn; rewrite E4; cbn;
    rewrite E5; cbn; auto.
Qed.

Lemma accs_of_stats a b c :
  temp_acc (stats_of a b c) = a /\ humidity_acc (stats_of a b c) = b
  /\ pressure_acc (stats_of a b c) = c.
Proof. destruct a as [[? ?] ?], b as [[? ?] ?], c as [[? ?] ?]. auto. Qed.

(** [calculate_stats] twice with the same reading is [calculate_stats]
    once, and it keeps the running minima and maxima rounded. *)
Lemma calculate_stats_twice t h p s :
  rounded_stats s ->
  calculate_stats t h p (snd (calculate_stats t h p s)) = calculate_stats t h p s
  /\ rounded_stats (snd (calculate_stats t h p s)).
Proof.
  intros (Ht & Hh & Hp).
  rewrite !calculate_stats_fields. unfold calculate_stats_by_field.
  destruct (field_step_twice t _ Ht) as [T1 T2].
  destruct (field_step_twice h _ Hh) as [H1 H2].
  destruct (field_step_twice p _ Hp) as [P1 P2].
  destruct (field_step t (temp_acc s)) as [r1 a1] eqn:E1.
  destruct (field_step h (humidity_acc s)) as [r2 a2] eqn:E2.
  destruct (field_step p (pressure_acc s)) as [r3 a3] eqn:E3.
  cbn [snd] in *.
  unfold rounded_stats.
  destruct r1 as [[]|e|]; cbn [snd];
    [|destruct (accs_of_stats a1 (humidity_acc s) (pressure_acc s)) as (-> & -> & ->);
      rewrite T1; auto..].
  destruct r2 as [[]|e|]; cbn [snd];
    [|destruct (accs_of_stats a1 a2 (pressure_acc s)) as (-> & -> & ->);
      rewrite T1, H1; auto..].
  destruct (accs_of_stats a1 a2 a3) as (-> & -> & ->).
  rewrite T1, H1, P1. auto.
Qed.

Lemma calculate_forcast_twice t h p f :
  calculate_forcast t h p (snd (calculate_forcast t h p f)) = calculate_forcast t h p f.
Proof.
  rewrite !calculate_forcast_formulas. unfold calculate_forcast_by_formula.
  destruct (forecast_temp_formula t h p); [|reflexivity..].
  destruct (forecast_humidity_formula h); [|reflexivity..].
  destruct (forecast_pressure_formula t p); reflexivity.
Qed.

End DisplayTwice.

Section DisplayRepeat.

(** ** Calling [display] again *)

Lemma add_stdout_nil w : add_stdout [] w = w.
Proof. destruct w. unfold add_stdout; cbn. rewrite app_nil_r. reflexivity. Qed.

Lemma display_as_obj o w ob :
  heap w !! o = Some ob -> is_display (class_of ob) = true ->
  display o w =
  (fst (fst (display_obj ob)),
   add_stdout (snd (display_obj ob))
     (set_heap (<[o := snd (fst (display_obj ob))]> (heap w)) w)).
Proof.
  intros Hob Hk. unfold display, display_obj. rewrite Hob.
  destruct (class_of ob) as [|s|f|body] eqn:Ek; try discriminate.
  - cbn. unfold print, modify, add_stdout, set_heap; cbn.
    rewrite list_insert_id by exact Hob. reflexivity.
  - unfold bind, on_attrs, print, modify.
    destruct (calculate_stats _ _ _ s) as [[[]|e|] s']; cbn;
      rewrite ?add_stdout_nil; reflexivity.
  - unfold bind, on_attrs, print, modify.
    destruct (calculate_forcast _ _ _ f) as [[[]|e|] f']; cbn;
      rewrite ?add_stdout_nil; reflexivity.
Qed.

Lemma display_obj_twice ob :
  class_ok (class_of ob) ->
  display_obj (snd (fst (display_obj ob))) = display_obj ob.
Proof.
  unfold display_obj, class_ok. destruct ob as [t h p k]; cbn.
  destruct k as [|s|f|body]; cbn; try reflexivity.
  - intros Hs. destruct (calculate_stats_twice t h p s Hs) as [Htw _].
    destruct (calculate_stats t h p s) as [r s'] eqn:E. cbn in *.
    rewrite Htw. reflexivity.
  - intros _. pose proof (calculate_forcast_twice t h p f) as Htw.
    destruct (calculate_forcast t h p f) as [r f'] eqn:E. cbn in *.
    rewrite Htw. reflexivity.
Qed.

Lemma display_obj_class ob :
  is_display (class_of (snd (fst (display_obj ob)))) = is_display (class_of ob).
Proof.
  unfold display_obj. destruct ob as [t h p k]; cbn.
  destruct k as [|s|f|body]; cbn; try reflexivity.
  - destruct (calculate_stats t h p s); reflexivity.
  - destruct (calculate_forcast t h p f); reflexivity.
Qed.

Lemma printed_add_stdout w ls w' :
  stdout w' = stdout w -> printed w (add_stdout ls w') = ls.
Proof.
  intros H. unfold printed, add_stdout; cbn. rewrite H.
  rewrite drop_app_length. reflexivity.
Qed.

(** After one [display] of one of the three displays, every further
    [display] in a row ends the same way, writes the same lines and leaves
    the store as it is. *)
Lemma display_again o w ob :
  heap w !! o = Some ob -> is_display (class_of ob) = true ->
  class_ok (class_of ob) ->
  let w1 := snd (display o w) in
  fst (display o w1) = fst (display o w)
  /\ printed w1 (snd (display o w1)) = printed w (snd (display o w))
  /\ heap (snd (display o w1)) = heap w1
  /\ exists ob1, heap w1 !! o = Some ob1 /\ is_display (class_of ob1) = true
       /\ display_obj ob1 = display_obj ob /\ snd (fst (display_obj ob)) = ob1.
Proof.
  intros Hob Hk Hok w1. subst w1.
  assert (Hlt : (o < length (heap w))%nat) by (eapply lookup_lt_Some; eauto).
  rewrite (display_as_obj o w ob Hob Hk). cbn [fst snd].
  set (ob1 := snd (fst (display_obj ob))).
  set (w1 := add_stdout _ _).
  assert (Hob1 : heap w1 !! o = Some ob1).
  { subst w1. cbn. apply list_lookup_insert_eq. exact Hlt. }
  assert (Hk1 : is_display (class_of ob1) = true).
  { subst ob1. rewrite display_obj_class. exact Hk. }
  pose proof (display_obj_twice ob Hok) as Htw. fold ob1 in Htw.
  rewrite (display_as_obj o w1 ob1 Hob1 Hk1). cbn [fst snd].
  rewrite Htw. fold ob1.
  split; [reflexivity|].
  split.
  { rewrite (printed_add_stdout w1) by reflexivity.
    unfold w1. rewrite printed_add_stdout by reflexivity. reflexivity. }
  split.
  { cbn. apply list_insert_id. exact Hob1. }
  exists ob1. auto.
Qed.

Lemma display_obj_ok ob :
  class_ok (class_of ob) -> class_ok (class_of (snd (fst (display_obj ob)))).
Proof.
  unfold display_obj, class_ok. destruct ob as [t h p k]; cbn.
  destruct k as [|s|f|body]; cbn; auto.
  - intros Hs. destruct (calculate_stats_twice t h p s Hs) as [_ Hr].
    destruct (calculate_stats t h p s) as [r s']. exact Hr.
  - intros _. destruct (calculate_forcast t h p f) as [r f']. exact I.
Qed.

Lemma heap_ok_lookup w o ob :
  heap_ok w -> heap w !! o = Some ob -> class_ok (class_of ob).
Proof. unfold heap_ok. rewrite Forall_lookup. intros H Ho. exact (H o ob Ho). Qed.

Lemma heap_ok_insert w o ob (w' : world) :
  heap_ok w -> class_ok (class_of ob) -> heap w' = <[o := ob]> (heap w) ->
  heap_ok w'.
Proof.
  unfold heap_ok. intros H Hob ->. apply Forall_insert; assumption.
Qed.

Lemma run_body_heap body : forall w, heap (snd (run_body body w)) = heap w.
Proof.
  induction body as [|c cs IH]; intros w; [reflexivity|].
  cbn [run_body]. unfold bind.
  destruct (run_cmd c w) as [r w1] eqn:E.
  assert (Hh : heap w1 = heap w).
  { destruct c as [x|x]; cbn in E.
    - injection E as <- <-. reflexivity.
    - unfold removeObserver in E.
      destruct (remove_first x (observers w)); injection E as <- <-; reflexivity. }
  destruct r as [[]|e|]; cbn; [rewrite IH|..]; exact Hh.
Qed.

Lemma display_heap_ok o w : heap_ok w -> heap_ok (snd (display o w)).
Proof.
  intros Hok.
  destruct (heap w !! o) as [ob|] eqn:Hob.
  2:{ unfold display. rewrite Hob. exact Hok. }
  destruct (is_display (class_of ob)) eqn:Hk.
  - rewrite (display_as_obj o w ob Hob Hk). cbn [snd].
    eapply heap_ok_insert; [exact Hok| |reflexivity].
    apply display_obj_ok. eapply heap_ok_lookup; eauto.
  - unfold display. rewrite Hob.
    destruct (class_of ob) as [|s|f|body]; try discriminate.
    unfold heap_ok. rewrite run_body_heap. exact Hok.
Qed.

Lemma update_heap_ok o t h p w : heap_ok w -> heap_ok (snd (update o t h p w)).
Proof.
  intros Hok. unfold update.
  destruct (heap w !! o) as [ob|] eqn:Hob; [|exact Hok].
  unfold bind, modify. cbn.
  apply display_heap_ok.
  eapply heap_ok_insert; [exact Hok| |reflexivity].
  cbn. eapply heap_ok_lookup; eauto.
Qed.

Lemma notify_from_heap_ok fuel : forall i w,
  heap_ok w -> heap_ok (snd (notify_from fuel i w)).
Proof.
  induction fuel as [|fuel IH]; intros i w Hok; [exact Hok|].
  cbn [notify_from].
  destruct (observers w !! i) as [ob|]; [|exact Hok].
  unfold bind.
  pose proof (update_heap_ok ob (wd_temperature w) (wd_humidity w) (wd_pressure w) w Hok) as H1.
  destruct (update ob _ _ _ w) as [[[]|e|] w1]; cbn in *; auto.
Qed.

Lemma new_observer_heap_ok k w :
  (forall self, class_ok (k self)) -> heap_ok w -> heap_ok (snd (new_observer k w)).
Proof.
  intros Hk Hok. unfold new_observer, heap_ok, bind, modify, registerObserver, ret. cbn.
  apply Forall_app. split; [exact Hok|]. repeat constructor. cbn. apply Hk.
Qed.

Lemma StatisticsDisplay_init_rounded : rounded_stats StatisticsDisplay_init.
Proof. repeat split. Qed.

Lemma reachable_heap_ok w : reachable w -> heap_ok w.
Proof.
  induction 1.
  - constructor.
  - apply new_observer_heap_ok; [intros; exact I|assumption].
  - apply new_observer_heap_ok; [intros; apply StatisticsDisplay_init_rounded|assumption].
  - apply new_observer_heap_ok; [intros; exact I|assumption].
  - apply new_observer_heap_ok; [intros; exact I|assumption].
  - assumption.
  - unfold removeObserver. destruct (remove_first o (observers w)); assumption.
  - apply (notify_from_heap_ok fuel 0). assumption.
  - apply update_heap_ok. assumption.
  - apply display_heap_ok. assumption.
Qed.

(** C8: in every state the program can reach, for an observer of one of
    the three display classes, the call of [display] made after any number
    [n] of [display] calls in a row ends as the first one and writes the
    same lines. *)
Theorem display_repeatable (w : world) (o : obj) (ob : observer) (n : nat) :
  reachable w ->
  heap w !! o = Some ob ->
  is_display (class_of ob) = true ->
  fst (display o (display_times n o w)) = fst (display o w)
  /\ printed (display_times n o w) (snd (display o (display_times n o w)))
     = printed w (snd (display o w)).
Proof.
  intros Hr Hob Hk. apply reachable_heap_ok in Hr.
  pose proof (heap_ok_lookup w o ob Hr Hob) as Hok. clear Hr.
  enough (H : exists obn, heap (display_times n o w) !! o = Some obn
                /\ is_display (class_of obn) = true
                /\ class_ok (class_of obn)
                /\ fst (display o (display_times n o w)) = fst (display o w)
                /\ printed (display_times n o w) (snd (display o (display_times n o w)))
                   = printed w (snd (display o w)))
    by (destruct H as (? & _ & _ & _ & H); exact H).
  induction n as [|n IH].
  - exists ob. cbn. auto.
  - destruct IH as (obn & Hobn & Hkn & Hokn & Hfst & Hpr).
    cbn [display_times].
    destruct (display_again o _ obn Hobn Hkn Hokn) as (H1 & H2 & _ & ob1 & Hob1 & Hk1 & _ & Heq).
    exists ob1. split; [exact Hob1|]. split; [exact Hk1|].
    split; [rewrite <- Heq; apply display_obj_ok, Hokn|].
    split; congruence.
Qed.

Lemma display_repeatable_witness :
  reachable after_first_reading
  /\ exists ob,
       heap after_first_reading !! 1%nat = Some ob
       /\ is_display (class_of ob) = true
       /\ fst (display 1 (display_times 2 1 after_first_reading))
          = fst (display 1 after_first_reading)
       /\ printed (display_times 2 1 after_first_reading)
            (snd (display 1 (display_times 2 1 after_first_reading)))
          = printed after_first_reading (snd (display 1 after_first_reading)).
Proof.
  assert (H1 : reachable after_first_reading).
  { apply reach_setMeasurements, reach_new_forecast, reach_new_statistics,
      reach_new_current, reach_start. }
  split; [exact H1|].
  eexists. split; [vm_compute; reflexivity|].
  split; [reflexivity|].
  refine (display_repeatable after_first_reading 1 _ 2 H1 _ _);
    [vm_compute; reflexivity|reflexivity].
Defined.

End DisplayRepeat.

Section FirstReading.

(** ** The first reading of a [StatisticsDisplay] *)

(** A rational that is a binary64 number rounds to that number. *)
Lemma round_ratio_exact s n d m e x :
  0 < n -> 0 < d -> canonical (Zpos m) e ->
  0 <= x -> 0 <= x + e ->
  n * 2 ^ x = Zpos m * d * 2 ^ (x + e) ->
  round_ratio s n d = S754_finite s m e.
Proof.
  intros Hn Hd Hcan Hx Hxe Heq.
  assert (HND : scaled_num n e = Zpos m * scaled_den d e).
  { unfold scaled_num, scaled_den.
    destruct (Z.le_gt_cases 0 e) as [He|He].
    - rewrite Z.max_l, Z.max_r by lia. rewrite Z.pow_add_r in Heq by lia.
      pose proof (Z.pow_pos_nonneg 2 x ltac:(lia) Hx).
      change (2 ^ 0) with 1. nia.
    - rewrite Z.max_r, Z.max_l by lia.
      replace x with ((x + e) + - e) in Heq at 1 by lia.
      rewrite Z.pow_add_r in Heq by lia.
      pose proof (Z.pow_pos_nonneg 2 (x + e) ltac:(lia) Hxe).
      change (2 ^ 0) with 1. nia. }
  pose proof (scaled_den_pos d e Hd).
  destruct Hcan as (He & Hm & Hnorm).
  apply round_ratio_nearest; auto.
  - unfold canonical; auto.
  - destruct Hnorm as [Hnorm|Hsub]; [left|right; exact Hsub]. rewrite HND. nia.
  - rewrite HND. lia.
Qed.

Lemma py_min_inf v : not_nan v -> py_min inf v = v.
Proof.
  unfold not_nan, py_min, py_lt, py_compare.
  destruct v as [z|[s|[|]| |s m e]]; cbn; try reflexivity; congruence.
Qed.

Lemma py_max_neg_inf v : not_nan v -> py_max neg_inf v = v.
Proof.
  unfold not_nan, py_max, py_gt, py_compare.
  destruct v as [z|[s|[|]| |s m e]]; cbn; try reflexivity; congruence.
Qed.

Lemma pow2_split a b : 0 <= a -> 0 <= b -> 2 ^ (a + b) = 2 ^ a * 2 ^ b.
Proof. intros. apply Z.pow_add_r; assumption. Qed.

(** Doubling a float below [2^1023] is exact. *)
Lemma fadd_self s m e :
  canonical (Zpos m) e -> e <= 970 ->
  exists m2 e2,
    fadd (S754_finite s m e) (S754_finite s m e) = S754_finite s m2 e2
    /\ canonical (Zpos m2) e2
    /\ ((m2 = m /\ e2 = e + 1) \/ (m2 = (2 * m)%positive /\ e2 = e /\ e = -1074)).
Proof.
  intros (He & Hm & Hnorm) Hle.
  unfold fadd. cbv zeta. rewrite Z.min_id, Z.sub_diag.
  change (2 ^ 0) with 1. rewrite Z.mul_1_r.
  unfold round_dyadic.
  assert (Hs : (signed s (Zpos m) + signed s (Zpos m) <? 0) = s
               /\ Z.abs (signed s (Zpos m) + signed s (Zpos m)) = 2 * Zpos m).
  { destruct s; cbn [signed]; split;
      first [lia | apply Z.ltb_lt; lia | apply Z.ltb_ge; lia]. }
  destruct Hs as [-> ->].
  assert (Hn : 0 < scaled_num (2 * Zpos m) (- e)) by (apply scaled_num_pos; lia).
  assert (Hd : 0 < scaled_den 1 (- e)) by (apply scaled_den_pos; lia).
  destruct (Z.le_gt_cases (2 ^ 52) (Zpos m)) as [Hbig|Hsmall].
  - exists m, (e + 1). split; [|split; [unfold canonical; lia|left; auto]].
    destruct (Z.le_gt_cases 0 e) as [Hpos|Hneg].
    + apply (round_ratio_exact _ _ _ _ _ 0); auto; try lia; [unfold canonical; lia|].
      unfold scaled_num, scaled_den. rewrite Z.max_r, Z.max_l by lia.
      replace (- - e) with e by lia. change (2 ^ 0) with 1.
      replace (0 + (e + 1)) with (e + 1) by lia. rewrite pow2_split by lia.
      change (2 ^ 1) with 2. ring.
    + apply (round_ratio_exact _ _ _ _ _ (- (e + 1))); auto; try lia;
        [unfold canonical; lia|].
      unfold scaled_num, scaled_den. rewrite Z.max_l, Z.max_r by lia.
      replace (- (e + 1) + (e + 1)) with 0 by lia. change (2 ^ 0) with 1.
      replace (- e) with (1 + - (e + 1)) by lia. rewrite pow2_split by lia.
      change (2 ^ 1) with 2. ring.
  - assert (e = -1074) by lia. subst e.
    exists (2 * m)%positive, (-1074).
    split; [|split; [unfold canonical; lia|right; auto]].
    apply (round_ratio_exact _ _ _ _ _ 1074); auto; try lia; [unfold canonical; lia|].
    unfold scaled_num, scaled_den. rewrite Z.max_l, Z.max_r by lia.
    change (1074 + -1074) with 0. change (2 ^ 0) with 1.
    change (- -1074) with 1074. rewrite Pos2Z.inj_mul. ring.
Qed.

Lemma int_to_float_two :
  int_to_float 2 = Ok (S754_finite false (2 ^ 52) (-51)).
Proof. vm_compute. reflexivity. Qed.

(** Halving the double of a float gives the float back. *)
Lemma fdiv_two s m2 e2 m e :
  canonical (Zpos m) e ->
  (m2 = m /\ e2 = e + 1) \/ (m2 = (2 * m)%positive /\ e2 = e /\ e = -1074) ->
  fdiv (S754_finite s m2 e2) (S754_finite false (2 ^ 52) (-51)) = S754_finite s m e.
Proof.
  intros Hcan Hcase. pose proof Hcan as (He & Hm & Hnorm).
  unfold fdiv. rewrite xorb_false_r.
  assert (Hn : 0 < scaled_num (Zpos m2) (-51 - e2)) by (apply scaled_num_pos; lia).
  assert (Hd : 0 < scaled_den (Zpos (2 ^ 52)) (-51 - e2)) by (apply scaled_den_pos; lia).
  change (Zpos (2 ^ 52)) with (2 ^ 52) in *.
  destruct Hcase as [[-> ->]|(-> & -> & ->)].
  - destruct (Z.le_gt_cases 0 e) as [Hpos|Hneg].
    + apply (round_ratio_exact _ _ _ _ _ 0); auto; try lia.
      unfold scaled_num, scaled_den. rewrite Z.max_r, Z.max_l by lia.
      replace (- (-51 - (e + 1))) with (52 + e) by lia.
      replace (0 + e) with e by lia. change (2 ^ 0) with 1.
      rewrite pow2_split by lia. ring.
    + destruct (Z.le_gt_cases (-52) e) as [Hmid|Hlow].
      * apply (round_ratio_exact _ _ _ _ _ (- e)); auto; try lia.
        unfold scaled_num, scaled_den. rewrite Z.max_r, Z.max_l by lia.
        replace (- (-51 - (e + 1))) with (52 + e) by lia.
        replace (- e + e) with 0 by lia. change (2 ^ 0) with 1.
        rewrite <- Z.mul_assoc, <- pow2_split by lia.
        replace (52 + e + - e) with 52 by lia. ring.
      * apply (round_ratio_exact _ _ _ _ _ (- e)); auto; try lia.
        unfold scaled_num, scaled_den. rewrite Z.max_l, Z.max_r by lia.
        replace (- e + e) with 0 by lia. change (2 ^ 0) with 1.
        replace (- e) with (52 + (-51 - (e + 1))) at 1 by lia.
        rewrite pow2_split by lia. ring.
  - apply (round_ratio_exact _ _ _ _ _ 1074); auto; try lia.
    unfold scaled_num, scaled_den. rewrite Z.max_l, Z.max_r by lia.
    change (1074 + -1074) with 0. change (2 ^ 0) with 1.
    change (-51 - -1074) with 1023.
    rewrite Pos2Z.inj_mul.
    assert (H2 : 2 ^ 52 * 2 ^ 1023 = 2 * 2 ^ 1074) by reflexivity.
    rewrite H2. ring.
Qed.

Lemma midpoint_self_float s m e :
  canonical (Zpos m) e -> e <= 970 ->
  exists sum,
    py_add (PyFloat (S754_finite s m e)) (PyFloat (S754_finite s m e)) = Ok sum
    /\ py_truediv sum (PyInt 2) = Ok (PyFloat (S754_finite s m e)).
Proof.
  intros Hcan Hle.
  destruct (fadd_self s m e Hcan Hle) as (m2 & e2 & Hadd & _ & Hcase).
  exists (PyFloat (S754_finite s m2 e2)). split.
  - unfold py_add, float_binop. rewrite Hadd. reflexivity.
  - unfold py_truediv, float_binop. rewrite int_to_float_two.
    rewrite (fdiv_two s m2 e2 m e Hcan Hcase). reflexivity.
Qed.

(** An [int] of at most 53 bits is a binary64 number. *)
Lemma int_canonical a :
  0 < a <= 2 ^ 53 ->
  exists m e, canonical (Zpos m) e /\ e <= 1
    /\ a * 2 ^ Z.max 0 (- e) = Zpos m * 2 ^ Z.max 0 e.
Proof.
  intros Ha.
  destruct (Z.eq_dec a (2 ^ 53)) as [->|Hne].
  - exists (2 ^ 52)%positive, 1. split; [unfold canonical; lia|].
    split; [lia|reflexivity].
  - pose proof (Z.log2_spec a ltac:(lia)) as [Hl1 Hl2].
    pose proof (Z.log2_nonneg a) as Hl0.
    assert (Hl : Z.log2 a < 53) by (apply Z.log2_lt_pow2; lia).
    set (L := Z.log2 a) in *.
    assert (H52 : 2 ^ 52 = 2 ^ L * 2 ^ (52 - L))
      by (rewrite <- pow2_split by lia; f_equal; lia).
    assert (H53 : 2 ^ 53 = 2 ^ Z.succ L * 2 ^ (52 - L))
      by (rewrite <- pow2_split by lia; f_equal; lia).
    pose proof (Z.pow_pos_nonneg 2 (52 - L) ltac:(lia) ltac:(lia)) as Hp.
    assert (Hm : 2 ^ 52 <= a * 2 ^ (52 - L) < 2 ^ 53) by nia.
    exists (Z.to_pos (a * 2 ^ (52 - L))), (L - 52).
    rewrite Z2Pos.id by lia.
    split; [unfold canonical; lia|]. split; [lia|].
    rewrite Z.max_r, Z.max_l by lia. change (2 ^ 0) with 1.
    replace (- (L - 52)) with (52 - L) by lia. ring.
Qed.

Lemma signed_abs z : signed (z <? 0) (Z.abs z) = z.
Proof. unfold signed. destruct (Z.ltb_spec z 0); lia. Qed.

(** The midpoint of an [int] of at most 53 bits with itself is that
    [int] as a float, and [round(_, 2)] keeps it. *)
Lemma midpoint_self_int z :
  Z.abs z <= 2 ^ 53 ->
  exists avg, midpoint (PyInt z) (PyInt z) = Ok avg /\ py_eq avg (PyInt z) = true.
Proof.
  intros Hz. unfold midpoint, and_then, py_add, py_truediv.
  change (2 =? 0) with false. cbv iota.
  destruct (Z.eq_dec z 0) as [->|Hnz].
  { eexists. split; vm_compute; reflexivity. }
  destruct (int_canonical (Z.abs z) ltac:(lia)) as (m & e & Hcan & He1 & Hval).
  pose proof Hcan as (He & Hm & Hnorm).
  assert (Hsign : xorb (z + z <? 0) (2 <? 0) = (z <? 0)).
  { change (2 <? 0) with false. rewrite xorb_false_r.
    destruct (Z.ltb_spec z 0), (Z.ltb_spec (z + z) 0); try reflexivity; lia. }
  rewrite Hsign. replace (Z.abs (z + z)) with (2 * Z.abs z) by lia.
  change (Z.abs 2) with 2.
  assert (Hdiv : round_ratio (z <? 0) (2 * Z.abs z) 2 = S754_finite (z <? 0) m e).
  { destruct (Z.le_gt_cases 0 e) as [Hpos|Hneg].
    - apply (round_ratio_exact _ _ _ _ _ 0); auto; try lia.
      rewrite Z.max_l, Z.max_r in Hval by lia. change (2 ^ 0) with 1 in *.
      replace (0 + e) with e by lia. lia.
    - apply (round_ratio_exact _ _ _ _ _ (- e)); auto; try lia.
      rewrite Z.max_r, Z.max_l in Hval by lia.
      replace (- e + e) with 0 by lia. change (2 ^ 0) with 1 in *. lia. }
  rewrite Hdiv. cbn [is_infinity].
  assert (Hk : div_half_even (scaled_num (100 * Zpos m) (- e)) (scaled_den 1 (- e))
               = 100 * Z.abs z).
  { unfold scaled_num, scaled_den. replace (- - e) with e by lia.
    replace (100 * Z.pos m * 2 ^ Z.max 0 e)
      with (100 * Z.abs z * (1 * 2 ^ Z.max 0 (- e))) by nia.
    apply div_half_even_exact.
    pose proof (Z.pow_pos_nonneg 2 (Z.max 0 (- e))). lia. }
  assert (Hround : round_ratio (z <? 0) (100 * Z.abs z) 100 = S754_finite (z <? 0) m e).
  { destruct (Z.le_gt_cases 0 e) as [Hpos|Hneg].
    - apply (round_ratio_exact _ _ _ _ _ 0); auto; try lia.
      rewrite Z.max_l, Z.max_r in Hval by lia. change (2 ^ 0) with 1 in *.
      replace (0 + e) with e by lia. lia.
    - apply (round_ratio_exact _ _ _ _ _ (- e)); auto; try lia.
      rewrite Z.max_r, Z.max_l in Hval by lia.
      replace (- e + e) with 0 by lia. change (2 ^ 0) with 1 in *. lia. }
  exists (PyFloat (S754_finite (z <? 0) m e)). split.
  - unfold py_round2. rewrite Hk, Hround. reflexivity.
  - unfold py_eq, py_compare, value_of, xcompare.
    assert (Hz' : z = signed (z <? 0) (Z.abs z)) by (symmetry; apply signed_abs).
    enough (Heq : signed (z <? 0) (Z.pos m) * 2 ^ (e - Z.min e 0)
                  = z * 2 ^ (0 - Z.min e 0))
      by (rewrite Heq, Z.compare_refl; reflexivity).
    rewrite Hz' at 2. unfold signed.
    destruct (Z.le_gt_cases 0 e) as [Hpos|Hneg].
    + rewrite Z.min_r by lia. rewrite Z.max_l, Z.max_r in Hval by lia.
      replace (e - 0) with e by lia. change (2 ^ (0 - 0)) with 1.
      change (2 ^ 0) with 1 in Hval. destruct (z <? 0); lia.
    + rewrite Z.min_l by lia. rewrite Z.max_r, Z.max_l in Hval by lia.
      replace (e - e) with 0 by lia. replace (0 - e) with (- e) by lia.
      change (2 ^ 0) with 1 in *. destruct (z <? 0); lia.
Qed.

Lemma field_step_unfold v mn mx av :
  field_step v (mn, mx, av) =
  match py_round2 (py_min mn v) with
  | Ok mn1 =>
      match py_round2 (py_max mx v) with
      | Ok mx1 =>
          match midpoint mx1 mn1 with
          | Ok a => (Ok tt, (mn1, mx1, a))
          | Raise e => (Raise e, (mn1, mx1, av))
          | OutOfFuel => (OutOfFuel, (mn1, mx1, av))
          end
      | Raise e => (Raise e, (mn1, mx, av))
      | OutOfFuel => (OutOfFuel, (mn1, mx, av))
      end
  | Raise e => (Raise e, (mn, mx, av))
  | OutOfFuel => (OutOfFuel, (mn, mx, av))
  end.
Proof.
  unfold field_step, midpoint, and_then, bind, gets, modify, lift,
    acc_min, acc_max, acc_avg; cbn.
  destruct (py_round2 (py_min mn v)); cbn; try reflexivity.
  destruct (py_round2 (py_max mx v)); cbn; try reflexivity.
  destruct (py_add _ _); cbn; try reflexivity.
  destruct (py_truediv _ _); reflexivity.
Qed.

Lemma plain_reading_facts v :
  plain_reading v ->
  not_nan v /\ py_round2 v = Ok v
  /\ exists avg, midpoint v v = Ok avg /\ py_eq avg v = true.
Proof.
  destruct v as [z|[s|s| |s m e]]; cbn [plain_reading]; try contradiction.
  - intros Hz. split; [discriminate|]. split; [reflexivity|].
    apply midpoint_self_int, Hz.
  - intros _. split; [discriminate|]. split; [reflexivity|].
    eexists. destruct s; split; vm_compute; reflexivity.
  - intros (Hcan & He & Hr). split; [discriminate|]. split; [exact Hr|].
    destruct (midpoint_self_float s m e Hcan He) as (sum & Hadd & Hdiv).
    exists (PyFloat (S754_finite s m e)). split.
    + unfold midpoint, and_then. rewrite Hadd, Hdiv. exact Hr.
    + unfold py_eq, py_compare, value_of, xcompare.
      rewrite Z.compare_refl. reflexivity.
Qed.

(** The first reading of one quantity: from the seeds, a plain reading
    [v] leaves [(v, v, avg)] with [avg == v]. *)
Lemma field_step_first v a0 :
  plain_reading v ->
  exists avg, field_step v (inf, neg_inf, a0) = (Ok tt, (v, v, avg))
              /\ py_eq avg v = true.
Proof.
  intros Hv. destruct (plain_reading_facts v Hv) as (Hnan & Hr & avg & Hmid & Heq).
  exists avg. split; [|exact Heq].
  rewrite field_step_unfold, py_min_inf, py_max_neg_inf by exact Hnan.
  rewrite Hr, Hmid. reflexivity.
Qed.

(** In general the first reading leaves [round(v, 2)] as minimum and as
    maximum. *)
Lemma field_step_first_rounds v r a0 :
  not_nan v -> py_round2 v = Ok r ->
  acc_min (snd (field_step v (inf, neg_inf, a0))) = r
  /\ acc_max (snd (field_step v (inf, neg_inf, a0))) = r.
Proof.
  intros Hnan Hr.
  rewrite field_step_unfold, py_min_inf, py_max_neg_inf by exact Hnan.
  rewrite Hr. destruct (midpoint r r); split; reflexivity.
Qed.

Lemma update_stats_outcome o t h p w s :
  stats_at w o = Some s ->
  fst (update o t h p w) = fst (calculate_stats t h p s).
Proof.
  unfold stats_at, update. intros Hs.
  destruct (heap w !! o) as [ob|] eqn:Hob; [|discriminate].
  destruct (class_of ob) as [|s0| |] eqn:Hk; try discriminate.
  injection Hs as ->.
  assert (Hlt : (o < length (heap w))%nat) by (eapply lookup_lt_Some; eauto).
  unfold bind, modify, display; cbn.
  rewrite list_lookup_insert_eq by exact Hlt. cbn.
  unfold bind, on_attrs, print, modify; cbn.
  destruct (calculate_stats t h p s) as [[[]|e|] s']; reflexivity.
Qed.

(** C6 as stated fails: [round(_, 2)] is applied to the minimum and the
    maximum, so after the one reading 29.237 they are 29.24, not the
    reading. *)
Lemma first_reading_is_rounded :
  fst (update 0 (PyFloat (float_lit 29237 3)) (PyInt 0) (PyInt 0)
         (snd (new_StatisticsDisplay WeatherData_init))) = Ok tt
  /\ temp_at (snd (update 0 (PyFloat (float_lit 29237 3)) (PyInt 0) (PyInt 0)
                     (snd (new_StatisticsDisplay WeatherData_init)))) 0
     = Some (PyFloat (float_lit 2924 2), PyFloat (float_lit 2924 2),
             PyFloat (float_lit 2924 2))
  /\ py_eq (PyFloat (float_lit 2924 2)) (PyFloat (float_lit 29237 3)) = false.
Proof. vm_compute. repeat split; reflexivity. Qed.

(** C6, amended: the accumulators start at [+inf] (min), [-inf] (max)
    and 0 (average); after one [update] with plain readings (an [int] of
    at most 53 bits, or a finite [float] that [round(_, 2)] leaves
    unchanged and below [2^1023]) each quantity has min and max equal to
    its reading and an average [==] to it. *)
Theorem statistics_first_reading (vt vh vp : number) :
  plain_reading vt -> plain_reading vh -> plain_reading vp ->
  let w0 := snd (new_StatisticsDisplay WeatherData_init) in
  stats_at w0 0 = Some StatisticsDisplay_init
  /\ temp_acc StatisticsDisplay_init = (inf, neg_inf, PyInt 0)
  /\ humidity_acc StatisticsDisplay_init = (inf, neg_inf, PyInt 0)
  /\ pressure_acc StatisticsDisplay_init = (inf, neg_inf, PyInt 0)
  /\ fst (update 0 vt vh vp w0) = Ok tt
  /\ exists s, stats_at (snd (update 0 vt vh vp w0)) 0 = Some s
       /\ min_temp s = vt /\ max_temp s = vt
       /\ py_eq (average_temp s) vt = true
       /\ min_humidity s = vh /\ max_humidity s = vh
       /\ py_eq (average_humidity s) vh = true
       /\ min_pressure s = vp /\ max_pressure s = vp
       /\ py_eq (average_pressure s) vp = true.
Proof.
  intros Ht Hh Hp w0.
  assert (H0 : stats_at w0 0 = Some StatisticsDisplay_init) by reflexivity.
  destruct (field_step_first vt (PyInt 0) Ht) as (at_ & Et & Qt).
  destruct (field_step_first vh (PyInt 0) Hh) as (ah & Eh & Qh).
  destruct (field_step_first vp (PyInt 0) Hp) as (ap & Ep & Qp).
  assert (Hcalc : calculate_stats vt vh vp StatisticsDisplay_init
                  = (Ok tt, stats_of (vt, vt, at_) (vh, vh, ah) (vp, vp, ap))).
  { rewrite calculate_stats_fields. unfold calculate_stats_by_field.
    change (temp_acc StatisticsDisplay_init) with (inf, neg_inf, PyInt 0).
    change (humidity_acc StatisticsDisplay_init) with (inf, neg_inf, PyInt 0).
    change (pressure_acc StatisticsDisplay_init) with (inf, neg_inf, PyInt 0).
    rewrite Et, Eh, Ep. reflexivity. }
  split; [exact H0|]. do 3 (split; [reflexivity|]).
  split; [rewrite (update_stats_outcome _ _ _ _ _ _ H0), Hcalc; reflexivity|].
  exists (stats_of (vt, vt, at_) (vh, vh, ah) (vp, vp, ap)).
  split; [rewrite (update_stats_at _ _ _ _ _ _ H0), Hcalc; reflexivity|].
  cbn. auto 12.
Qed.

Lemma statistics_first_reading_witness :
  plain_reading (PyInt 80)
  /\ plain_reading (PyInt 65)
  /\ plain_reading (PyFloat (float_lit 304 1))
  /\ fst (update 0 (PyInt 80) (PyInt 65) (PyFloat (float_lit 304 1))
            (snd (new_StatisticsDisplay WeatherData_init))) = Ok tt.
Proof.
  assert (H1 : plain_reading (PyInt 80)) by (cbn; lia).
  assert (H2 : plain_reading (PyInt 65)) by (cbn; lia).
  assert (H3 : plain_reading (PyFloat (float_lit 304 1))).
  { assert (E : float_lit 304 1 = S754_finite false 8556839292003942 (-48))
      by (vm_compute; reflexivity).
    rewrite E. cbn [plain_reading].
    split; [unfold canonical; lia|]. split; [lia|]. vm_compute. reflexivity. }
  split; [exact H1|]. split; [exact H2|]. split; [exact H3|].
  exact (proj1 (proj2 (proj2 (proj2 (proj2
           (statistics_first_reading (PyInt 80) (PyInt 65)
              (PyFloat (float_lit 304 1)) H1 H2 H3)))))).
Defined.

End FirstReading.

Section Registration.

(** ** Registering and removing *)

Lemma others_app o l1 l2 : others o (l1 ++ l2) = others o l1 ++ others o l2.
Proof. unfold others. apply List.filter_app. Qed.

Lemma set_observers_same w : set_observers (observers w) w = w.
Proof. destruct w. reflexivity. Qed.

(** X1: [removeObserver] of an observer that is on the list returns, and
    takes exactly one registration of it off: the observer is on the list
    once less, and the other observers keep their places, their order and
    their number of registrations. *)
Theorem removeObserver_present (o : obj) (w : world) :
  o ∈ observers w ->
  exists l,
    removeObserver o w = (Ok tt, set_observers l w)
    /\ S (occurrences o l) = occurrences o (observers w)
    /\ others o l = others o (observers w)
    /\ (forall x, x <> o -> occurrences x l = occurrences x (observers w)).
Proof.
  intros Hin. apply remove_first_Some in Hin as (l1 & l2 & Hl & Hn & Hrm).
  exists (l1 ++ l2). unfold removeObserver. rewrite Hrm, Hl.
  split; [reflexivity|].
  split.
  { rewrite !occurrences_app, occurrences_cons, Nat.eqb_refl. lia. }
  split.
  { rewrite !others_app. unfold others at 3. cbn. rewrite Nat.eqb_refl. reflexivity. }
  intros x Hx. rewrite !occurrences_app, occurrences_cons.
  destruct (Nat.eqb_spec o x); [congruence|]. lia.
Qed.

Lemma removeObserver_present_witness :
  (1%nat ∈ observers three_displays)
  /\ exists l,
       removeObserver 1 three_displays = (Ok tt, set_observers l three_displays)
       /\ S (occurrences 1 l) = occurrences 1 (observers three_displays)
       /\ others 1 l = others 1 (observers three_displays)
       /\ (forall x, x <> 1%nat ->
             occurrences x l = occurrences x (observers three_displays)).
Proof.
  assert (H : 1%nat ∈ observers three_displays).
  { change (observers three_displays) with [0; 1; 2]%nat.
    apply elem_of_cons. right. apply elem_of_cons. left. reflexivity. }
  split; [exact H|]. exact (removeObserver_present 1 three_displays H).
Defined.

(** X2: [registerObserver] followed by [removeObserver] of the same
    observer.  When the observer was not registered, the subject is what
    it was before the two calls.  When it was, with [l1] the observers
    before its earliest registration and [l2] those after it, the list
    becomes [l1 ++ l2 ++ [o]]: [remove] takes the earliest registration
    and the new one stays at the end. *)
Theorem register_then_remove (o : obj) (w : world) :
  (o ∉ observers w ->
   removeObserver o (snd (registerObserver o w)) = (Ok tt, w))
  /\ (forall l1 l2, observers w = l1 ++ o :: l2 -> o ∉ l1 ->
      exists w',
        removeObserver o (snd (registerObserver o w)) = (Ok tt, w')
        /\ observers w' = l1 ++ l2 ++ [o]).
Proof.
  split.
  - intros Hn. unfold removeObserver, registerObserver, modify. cbn.
    replace (observers w ++ [o]) with (observers w ++ o :: []) by reflexivity.
    rewrite remove_first_app by exact Hn. rewrite app_nil_r.
    unfold set_observers; cbn. destruct w; reflexivity.
  - intros l1 l2 Hl Hn. unfold removeObserver, registerObserver, modify. cbn.
    rewrite Hl, <- app_assoc. cbn. rewrite remove_first_app by exact Hn.
    eexists. split; [reflexivity|]. reflexivity.
Qed.

Lemma register_then_remove_witness :
  (7%nat ∉ observers three_displays)
  /\ removeObserver 7 (snd (registerObserver 7 three_displays))
     = (Ok tt, three_displays).
Proof.
  assert (H : 7%nat ∉ observers three_displays).
  { apply remove_first_None. vm_compute. reflexivity. }
  split; [exact H|]. exact (proj1 (register_then_remove 7 three_displays) H).
Defined.

End Registration.

Section Construction.

(** ** The constructor of an observer *)

(** X3: [WeatherDataObserver.__init__] (through the constructor of any
    subclass), in a state where every address on the list has an object
    behind it: the new object is put on the end of the list and is on it
    exactly once, its three measurements are the [int] 0, the objects that
    were there are untouched, and nothing is printed and no [update] is
    made. *)
Theorem new_observer_registers_once (k : obj -> klass) (w : world) :
  registered_allocated w ->
  exists w',
    new_observer k w = (Ok (length (heap w)), w')
    /\ observers w' = observers w ++ [length (heap w)]
    /\ occurrences (length (heap w)) (observers w') = 1%nat
    /\ heap w' !! length (heap w)
       = Some {| temperature := PyInt 0; humidity := PyInt 0; pressure := PyInt 0;
                 class_of := k (length (heap w)) |}
    /\ (forall x ob, heap w !! x = Some ob -> heap w' !! x = Some ob)
    /\ registered_allocated w'
    /\ stdout w' = stdout w /\ updates w' = updates w.
Proof.
  intros Hwf.
  exists (set_observers (observers w ++ [length (heap w)])
            (set_heap (heap w ++
               [{| temperature := PyInt 0; humidity := PyInt 0; pressure := PyInt 0;
                   class_of := k (length (heap w)) |}]) w)).
  split; [reflexivity|].
  unfold set_observers, set_heap; cbn [observers heap stdout updates].
  split; [reflexivity|].
  split.
  { rewrite occurrences_app, occurrences_cons, Nat.eqb_refl.
    assert (Hz : occurrences (length (heap w)) (observers w) = 0%nat).
    { apply occurrences_zero. intros Hin.
      unfold registered_allocated in Hwf. rewrite Forall_forall in Hwf.
      specialize (Hwf _ Hin). lia. }
    rewrite Hz. reflexivity. }
  split.
  { rewrite lookup_app_r by lia. rewrite Nat.sub_diag. reflexivity. }
  split.
  { intros x ob Hx. rewrite lookup_app_l by (eapply lookup_lt_Some; eauto). exact Hx. }
  split; [|split; reflexivity].
  unfold registered_allocated in *. cbn [observers heap].
  rewrite length_app. cbn [length].
  apply Forall_app. split.
  - eapply Forall_impl; [exact Hwf|]. cbn. intros; lia.
  - repeat constructor. lia.
Qed.

Lemma new_observer_registers_once_witness :
  registered_allocated three_displays
  /\ exists w',
       new_observer (fun _ => StatisticsDisplay StatisticsDisplay_init) three_displays
       = (Ok (length (heap three_displays)), w')
       /\ observers w' = observers three_displays ++ [length (heap three_displays)].
Proof.
  assert (H : registered_allocated three_displays).
  { unfold registered_allocated.
    change (observers three_displays) with [0; 1; 2]%nat.
    change (length (heap three_displays)) with 3%nat.
    repeat constructor. }
  split; [exact H|].
  destruct (new_observer_registers_once
              (fun _ => StatisticsDisplay StatisticsDisplay_init) three_displays H)
    as (w' & H1 & H2 & _).
  exists w'. split; assumption.
Defined.

End Construction.

Section UpdateOfDisplay.

(** ** [update] and [display] of the three displays *)

(** [update] of one of the three displays, through [display_obj]. *)
Lemma update_as_obj o w ob t h p :
  heap w !! o = Some ob -> is_display (class_of ob) = true ->
  update o t h p w =
  (fst (fst (display_obj (with_reading ob t h p))),
   add_stdout (snd (display_obj (with_reading ob t h p)))
     (set_heap (<[o := snd (fst (display_obj (with_reading ob t h p)))]> (heap w))
        (add_update o t h p w))).
Proof.
  intros Hob Hk.
  assert (Hlt : (o < length (heap w))%nat) by (eapply lookup_lt_Some; eauto).
  unfold update. rewrite Hob. unfold bind, modify.
  set (w1 := set_heap _ (add_update o t h p w)).
  assert (Hob1 : heap w1 !! o = Some (with_reading ob t h p)).
  { subst w1. cbn. apply list_lookup_insert_eq. exact Hlt. }
  rewrite (display_as_obj o w1 _ Hob1 Hk).
  subst w1. unfold set_heap, add_stdout, add_update; cbn.
  rewrite list_insert_insert_eq. reflexivity.
Qed.

Lemma display_obj_reading ob :
  let ob' := snd (fst (display_obj ob)) in
  temperature ob' = temperature ob /\ humidity ob' = humidity ob
  /\ pressure ob' = pressure ob.
Proof.
  unfold display_obj. destruct ob as [t h p k]; cbn.
  destruct k as [|s|f|body]; cbn; auto.
  - destruct (calculate_stats t h p s); cbn; auto.
  - destruct (calculate_forcast t h p f); cbn; auto.
Qed.

Lemma py_round2_printable x r :
  py_round2 x = Ok r -> printable x = true -> printable r = true.
Proof.
  unfold py_round2. destruct x as [z|[s|s| |s m e]];
    try (intros [= <-] Hx; exact Hx).
  destruct (is_infinity _); [discriminate|]. intros [= <-] _. reflexivity.
Qed.

Lemma py_round2_is_float x r :
  py_round2 x = Ok r -> is_float x = true -> is_float r = true.
Proof.
  unfold py_round2. destruct x as [z|[s|s| |s m e]];
    try (intros [= <-] Hx; exact Hx).
  destruct (is_infinity _); [discriminate|]. intros [= <-] _. reflexivity.
Qed.

Lemma is_float_printable x : is_float x = true -> printable x = true.
Proof. destruct x; [discriminate|reflexivity]. Qed.

Lemma float_binop_is_float op a b r :
  float_binop op a b = Ok r -> is_float r = true.
Proof.
  unfold float_binop.
  destruct (match a with PyInt z => int_to_float z | PyFloat f => Ok f end);
    try discriminate.
  destruct (match b with PyInt z => int_to_float z | PyFloat f => Ok f end);
    try discriminate.
  intros [= <-]. reflexivity.
Qed.

Lemma py_add_is_float a b r :
  py_add a b = Ok r -> is_float a || is_float b = true -> is_float r = true.
Proof.
  unfold py_add. destruct a, b; try discriminate; intros H _;
    eapply float_binop_is_float; exact H.
Qed.

Lemma py_sub_is_float a b r :
  py_sub a b = Ok r -> is_float a || is_float b = true -> is_float r = true.
Proof.
  unfold py_sub. destruct a, b; try discriminate; intros H _;
    eapply float_binop_is_float; exact H.
Qed.

Lemma py_mul_is_float a b r :
  py_mul a b = Ok r -> is_float a || is_float b = true -> is_float r = true.
Proof.
  unfold py_mul. destruct a, b; try discriminate; intros H _;
    eapply float_binop_is_float; exact H.
Qed.

(** [a / b] is a [float] whenever it returns. *)
Lemma py_truediv_is_float a b r : py_truediv a b = Ok r -> is_float r = true.
Proof.
  unfold py_truediv.
  destruct a as [x|x], b as [y|y].
  - destruct (y =? 0); [discriminate|].
    destruct (is_infinity _); [discriminate|]. intros [= <-]. reflexivity.
  - destruct (float_binop fdiv _ _) as [q|e|] eqn:Hq; try discriminate.
    destruct (py_eq _ _); [discriminate|]. intros [= <-].
    eapply float_binop_is_float; exact Hq.
  - destruct (float_binop fdiv _ _) as [q|e|] eqn:Hq; try discriminate.
    destruct (py_eq _ _); [discriminate|]. intros [= <-].
    eapply float_binop_is_float; exact Hq.
  - destruct (float_binop fdiv _ _) as [q|e|] eqn:Hq; try discriminate.
    destruct (py_eq _ _); [discriminate|]. intros [= <-].
    eapply float_binop_is_float; exact Hq.
Qed.

Lemma midpoint_is_float a b r : midpoint a b = Ok r -> is_float r = true.
Proof.
  unfold midpoint.
  destruct (py_add a b) as [s|e|]; try discriminate. cbn [and_then].
  destruct (py_truediv s (PyInt 2)) as [q|e|] eqn:Hq; try discriminate.
  cbn [and_then]. intros Hr.
  eapply py_round2_is_float; [exact Hr|]. eapply py_truediv_is_float; exact Hq.
Qed.

Lemma py_min_printable a b :
  printable a = true -> printable b = true -> printable (py_min a b) = true.
Proof. intros. unfold py_min. destruct (py_lt b a); assumption. Qed.

Lemma py_max_printable a b :
  printable a = true -> printable b = true -> printable (py_max a b) = true.
Proof. intros. unfold py_max. destruct (py_gt b a); assumption. Qed.

Lemma field_step_printable v a a' :
  field_step v a = (Ok tt, a') ->
  printable v = true -> printable (acc_min a) = true -> printable (acc_max a) = true ->
  printable (acc_min a') = true /\ printable (acc_max a') = true
  /\ printable (acc_avg a') = true.
Proof.
  destruct a as [[mn mx] av]. unfold acc_min, acc_max, acc_avg; cbn [fst snd].
  rewrite field_step_unfold. intros Hrun Hv Hmn Hmx.
  destruct (py_round2 (py_min mn v)) as [mn1|e|] eqn:H1; try discriminate.
  destruct (py_round2 (py_max mx v)) as [mx1|e|] eqn:H2; try discriminate.
  destruct (midpoint mx1 mn1) as [av1|e|] eqn:H3; try discriminate.
  injection Hrun as <-. cbn [fst snd].
  split; [eapply py_round2_printable; [exact H1|apply py_min_printable; assumption]|].
  split; [eapply py_round2_printable; [exact H2|apply py_max_printable; assumption]|].
  apply is_float_printable. eapply midpoint_is_float; exact H3.
Qed.

(** What a [StatisticsDisplay] prints when [calculate_stats] has
    returned can be written. *)
Lemma calculate_stats_printable t h p s s' :
  calculate_stats t h p s = (Ok tt, s') ->
  printable t = true -> printable h = true -> printable p = true ->
  printable_stats s ->
  Forall (fun l => printable_line l = true) (StatisticsDisplay_lines s').
Proof.
  rewrite calculate_stats_fields. unfold calculate_stats_by_field.
  intros Hrun Ht Hh Hp (M1 & M2 & M3 & M4 & M5 & M6).
  destruct (field_step t (temp_acc s)) as [r1 a1] eqn:E1.
  destruct r1 as [[]|e|]; try discriminate.
  destruct (field_step h (humidity_acc s)) as [r2 a2] eqn:E2.
  destruct r2 as [[]|e|]; try discriminate.
  destruct (field_step p (pressure_acc s)) as [r3 a3] eqn:E3.
  destruct r3 as [[]|e|]; try discriminate.
  injection Hrun as <-.
  destruct (field_step_printable _ _ _ E1 Ht M1 M2) as (A1 & A2 & A3).
  destruct (field_step_printable _ _ _ E2 Hh M3 M4) as (B1 & B2 & B3).
  destruct (field_step_printable _ _ _ E3 Hp M5 M6) as (C1 & C2 & C3).
  destruct a1 as [[x1 x2] x3], a2 as [[y1 y2] y3], a3 as [[z1 z2] z3].
  unfold acc_min, acc_max, acc_avg in *. cbn [fst snd] in *.
  unfold StatisticsDisplay_lines, stats_of, acc_min, acc_max, acc_avg.
  repeat (constructor;
          [unfold printable_line; cbn;
           rewrite ?A1, ?A2, ?A3, ?B1, ?B2, ?B3, ?C1, ?C2, ?C3; reflexivity|]).
  constructor.
Qed.

(** What a [ForecastDisplay] prints are [float]s. *)
Lemma calculate_forcast_printable t h p f f' :
  calculate_forcast t h p f = (Ok tt, f') ->
  Forall (fun l => printable_line l = true) (ForecastDisplay_lines f').
Proof.
  rewrite calculate_forcast_formulas. unfold calculate_forcast_by_formula.
  destruct (forecast_temp_formula t h p) as [a|e|] eqn:Ea; try discriminate.
  destruct (forecast_humidity_formula h) as [b|e|] eqn:Eb; try discriminate.
  destruct (forecast_pressure_formula t p) as [c|e|] eqn:Ec; try discriminate.
  intros [= <-].
  assert (Ha : is_float a = true).
  { unfold forecast_temp_formula in Ea.
    destruct (py_mul _ h) as [x|?|] eqn:E1; try discriminate. cbn [and_then] in Ea.
    destruct (py_add t x) as [y|?|] eqn:E2; try discriminate. cbn [and_then] in Ea.
    destruct (py_mul _ p) as [z|?|] eqn:E3; try discriminate. cbn [and_then] in Ea.
    destruct (py_add y z) as [u|?|] eqn:E4; try discriminate. cbn [and_then] in Ea.
    eapply py_round2_is_float; [exact Ea|].
    eapply py_add_is_float; [exact E4|].
    rewrite (py_mul_is_float _ _ _ E3 eq_refl). apply orb_true_r. }
  assert (Hb : is_float b = true).
  { unfold forecast_humidity_formula in Eb.
    destruct (py_mul _ h) as [x|?|] eqn:E1; try discriminate. cbn [and_then] in Eb.
    destruct (py_sub h x) as [y|?|] eqn:E2; try discriminate. cbn [and_then] in Eb.
    eapply py_round2_is_float; [exact Eb|].
    eapply py_sub_is_float; [exact E2|].
    rewrite (py_mul_is_float _ _ _ E1 eq_refl). apply orb_true_r. }
  assert (Hc : is_float c = true).
  { unfold forecast_pressure_formula in Ec.
    destruct (py_mul _ t) as [x|?|] eqn:E1; try discriminate. cbn [and_then] in Ec.
    destruct (py_add p x) as [y|?|] eqn:E2; try discriminate. cbn [and_then] in Ec.
    destruct (py_mul _ p) as [z|?|] eqn:E3; try discriminate. cbn [and_then] in Ec.
    destruct (py_sub y z) as [u|?|] eqn:E4; try discriminate. cbn [and_then] in Ec.
    eapply py_round2_is_float; [exact Ec|].
    eapply py_sub_is_float; [exact E4|].
    rewrite (py_mul_is_float _ _ _ E3 eq_refl). apply orb_true_r. }
  apply is_float_printable in Ha, Hb, Hc.
  unfold ForecastDisplay_lines.
  repeat (constructor;
          [unfold printable_line; cbn; rewrite ?Ha, ?Hb, ?Hc; reflexivity|]).
  constructor.
Qed.

(** X4: [update] of a [CurrentConditionsDisplay] with values [print] can
    write (any [float], a NaN or an infinity too, and any [int] below
    [10^4300] in magnitude, whether or not it fits a [float]) never
    raises: it stores the three values, prints the two lines of [display]
    with exactly the values passed, not rounded or converted, and leaves
    the list of observers alone. *)
Theorem CurrentConditionsDisplay_update (o : obj) (w : world) (ob : observer)
    (t h p : number) :
  heap w !! o = Some ob ->
  class_of ob = CurrentConditionsDisplay ->
  printable t = true -> printable h = true -> printable p = true ->
  fst (update o t h p w) = Ok tt
  /\ printed w (snd (update o t h p w)) = CurrentConditionsDisplay_lines t h p
  /\ Forall (fun l => printable_line l = true) (printed w (snd (update o t h p w)))
  /\ heap (snd (update o t h p w)) !! o
     = Some {| temperature := t; humidity := h; pressure := p;
               class_of := CurrentConditionsDisplay |}
  /\ observers (snd (update o t h p w)) = observers w.
Proof.
  intros Hob Hk Ht Hh Hp.
  assert (Hlt : (o < length (heap w))%nat) by (eapply lookup_lt_Some; eauto).
  rewrite (update_as_obj o w ob t h p Hob) by (rewrite Hk; reflexivity).
  unfold display_obj, with_reading. cbn [class_of temperature humidity pressure].
  rewrite Hk. cbn [fst snd].
  split; [reflexivity|].
  rewrite printed_add_stdout by reflexivity.
  split; [reflexivity|].
  split.
  { unfold CurrentConditionsDisplay_lines.
    repeat (constructor;
            [unfold printable_line; cbn; rewrite ?Ht, ?Hh, ?Hp; reflexivity|]).
    constructor. }
  split; [cbn; apply list_lookup_insert_eq; exact Hlt|reflexivity].
Qed.

Lemma CurrentConditionsDisplay_update_witness :
  fst (update 0 huge (PyFloat S754_nan) (PyInt (-5)) three_displays) = Ok tt
  /\ printed three_displays
       (snd (update 0 huge (PyFloat S754_nan) (PyInt (-5)) three_displays))
     = CurrentConditionsDisplay_lines huge (PyFloat S754_nan) (PyInt (-5)).
Proof.
  assert (H : heap three_displays !! 0%nat
              = Some {| temperature := PyInt 0; humidity := PyInt 0;
                        pressure := PyInt 0; class_of := CurrentConditionsDisplay |})
    by reflexivity.
  assert (H1 : printable huge = true) by (vm_compute; reflexivity).
  destruct (CurrentConditionsDisplay_update 0 three_displays _
              huge (PyFloat S754_nan) (PyInt (-5)) H eq_refl H1 eq_refl eq_refl)
    as (H2 & H3 & _).
  split; assumption.
Defined.

(** X5: [display] of one of the three displays, on an object whose
    reading and, for a [StatisticsDisplay], whose minima and maxima are
    values [print] can write, prints all of its report or nothing.
    Either it returns and has made every [print] call of the class (2, 12
    or 6), each with values [print] can write; or it raises in
    [calculate_stats] or [calculate_forcast], before the first [print],
    and standard output is what it was. *)
Theorem display_all_or_nothing (o : obj) (w : world) (ob : observer) :
  heap w !! o = Some ob ->
  is_display (class_of ob) = true ->
  printable_obj ob ->
  (fst (display o w) = Ok tt
   /\ length (printed w (snd (display o w))) = report_length (class_of ob)
   /\ Forall (fun l => printable_line l = true) (printed w (snd (display o w))))
  \/ (fst (display o w) <> Ok tt
      /\ stdout (snd (display o w)) = stdout w).
Proof.
  intros Hob Hk (Ht & Hh & Hp & Hs). rewrite (display_as_obj o w ob Hob Hk).
  cbn [fst snd]. unfold display_obj.
  destruct (class_of ob) as [|s|f|body]; try discriminate.
  - left. cbn [fst snd]. rewrite printed_add_stdout by reflexivity.
    split; [reflexivity|]. split; [reflexivity|].
    unfold CurrentConditionsDisplay_lines.
    repeat (constructor;
            [unfold printable_line; cbn; rewrite ?Ht, ?Hh, ?Hp; reflexivity|]).
    constructor.
  - destruct (calculate_stats _ _ _ s) as [[[]|e|] s'] eqn:Hc; cbn [fst snd].
    + left. rewrite printed_add_stdout by reflexivity.
      split; [reflexivity|]. split; [reflexivity|].
      eapply calculate_stats_printable; eauto.
    + right. split; [discriminate|]. cbn. apply app_nil_r.
    + right. split; [discriminate|]. cbn. apply app_nil_r.
  - destruct (calculate_forcast _ _ _ f) as [[[]|e|] f'] eqn:Hc; cbn [fst snd].
    + left. rewrite printed_add_stdout by reflexivity.
      split; [reflexivity|]. split; [reflexivity|].
      eapply calculate_forcast_printable; eauto.
    + right. split; [discriminate|]. cbn. apply app_nil_r.
    + right. split; [discriminate|]. cbn. apply app_nil_r.
Qed.

Lemma display_all_or_nothing_witness :
  (fst (display 1 three_displays) = Ok tt
   /\ length (printed three_displays (snd (display 1 three_displays))) = 12%nat
   /\ Forall (fun l => printable_line l = true)
        (printed three_displays (snd (display 1 three_displays))))
  \/ (fst (display 1 three_displays) <> Ok tt
      /\ stdout (snd (display 1 three_displays)) = stdout three_displays).
Proof.
  apply (display_all_or_nothing 1 three_displays
           {| temperature := PyInt 0; humidity := PyInt 0; pressure := PyInt 0;
              class_of := StatisticsDisplay StatisticsDisplay_init |}).
  - reflexivity.
  - reflexivity.
  - repeat split; reflexivity.
Defined.

End UpdateOfDisplay.

Section ReadingStored.

(** ** The reading the observers hold *)

Lemma update_quiet_reading o t h p w w' :
  quietb (heap w) o = true ->
  update o t h p w = (Ok tt, w') ->
  reading_at w' o = Some (t, h, p).
Proof.
  intros Hq Hup. unfold reading_at.
  destruct (heap w !! o) as [ob|] eqn:Hob.
  2:{ unfold update in Hup. rewrite Hob in Hup. discriminate. }
  assert (Hlt : (o < length (heap w))%nat) by (eapply lookup_lt_Some; eauto).
  destruct (is_display (class_of ob)) eqn:Hk.
  - rewrite (update_as_obj o w ob t h p Hob Hk) in Hup.
    injection Hup as _ <-. cbn [heap add_stdout set_heap].
    rewrite list_lookup_insert_eq by exact Hlt.
    destruct (display_obj_reading (with_reading ob t h p)) as (-> & -> & ->).
    reflexivity.
  - unfold quietb in Hq. rewrite Hob in Hq.
    unfold update in Hup. rewrite Hob in Hup.
    unfold bind, modify, display in Hup; cbn in Hup.
    rewrite list_lookup_insert_eq in Hup by exact Hlt. cbn in Hup.
    destruct (class_of ob) as [| | |[|c cs]]; try discriminate.
    cbn in Hup. injection Hup as <-. cbn.
    rewrite list_lookup_insert_eq by exact Hlt. reflexivity.
Qed.

Lemma notify_from_reading fuel : forall i w w',
  all_quiet w ->
  (length (observers w) - i < fuel)%nat ->
  notify_from fuel i w = (Ok tt, w') ->
  forall o, o ∈ drop i (observers w) -> reading_at w' o = Some (reading_of w).
Proof.
  induction fuel as [|fuel IH]; intros i w w' Hq Hfuel; [lia|].
  cbn [notify_from].
  destruct (observers w !! i) as [ob|] eqn:Hi.
  2:{ intros _ o Ho. apply lookup_ge_None_1 in Hi.
      rewrite (drop_ge _ _ Hi) in Ho. inversion Ho. }
  unfold bind.
  destruct (update ob (wd_temperature w) (wd_humidity w) (wd_pressure w) w)
    as [r1 w1] eqn:Hup.
  pose proof (lookup_lt_Some _ _ _ Hi) as Hlt.
  pose proof (all_quiet_lookup w i ob Hq Hi) as Hqo.
  pose proof (update_quiet _ _ _ _ _ _ _ Hqo Hup) as (Hobs & Hrd & Hqb & _).
  destruct r1 as [[]|e|]; [|discriminate|discriminate].
  intros Hrec o Ho.
  assert (Hq1 : all_quiet w1) by (eapply all_quiet_transfer; eauto).
  rewrite (drop_S _ _ _ Hi) in Ho.
  destruct (decide (o ∈ drop (S i) (observers w))) as [Hin|Hout].
  - rewrite <- Hrd. apply (IH (S i) w1 w' Hq1); [rewrite Hobs; lia|exact Hrec|].
    rewrite Hobs. exact Hin.
  - apply elem_of_cons in Ho as [->|Ho]; [|contradiction].
    apply notify_from_quiet in Hrec; [|exact Hq1|rewrite Hobs; lia].
    destruct Hrec as (_ & _ & _ & _ & Hframe & _).
    unfold reading_at. rewrite Hframe by (rewrite Hobs; exact Hout).
    apply (update_quiet_reading _ _ _ _ _ _ Hqo Hup).
Qed.

(** X6: after a [setMeasurements] call that returns, over observers
    whose [display] leaves the list alone, the subject and every registered
    observer hold the same reading, the one passed to the call. *)
Theorem setMeasurements_stores_reading (w w' : world) (fuel : nat)
    (t h p : number) :
  all_quiet w ->
  (length (observers w) < fuel)%nat ->
  setMeasurements fuel t h p w = (Ok tt, w') ->
  reading_of w' = (t, h, p)
  /\ forall o, o ∈ observers w' -> reading_at w' o = Some (t, h, p).
Proof.
  intros Hq Hfuel Hrun.
  pose proof (setMeasurements_quiet _ _ _ _ _ _ _ Hq Hfuel Hrun) as (Hobs & Hrd & _).
  split; [exact Hrd|].
  intros o Ho. rewrite Hobs in Ho.
  rewrite setMeasurements_unfold in Hrun.
  apply (notify_from_reading fuel 0 (set_reading t h p w) w'); auto.
  cbn. lia.
Qed.

Lemma setMeasurements_stores_reading_witness :
  reading_of (snd (setMeasurements 4 (PyInt 82) (PyInt 70) (PyFloat (float_lit 292 1))
                     after_first_reading))
  = (PyInt 82, PyInt 70, PyFloat (float_lit 292 1))
  /\ forall o,
       o ∈ observers (snd (setMeasurements 4 (PyInt 82) (PyInt 70)
                             (PyFloat (float_lit 292 1)) after_first_reading)) ->
       reading_at (snd (setMeasurements 4 (PyInt 82) (PyInt 70)
                          (PyFloat (float_lit 292 1)) after_first_reading)) o
       = Some (PyInt 82, PyInt 70, PyFloat (float_lit 292 1)).
Proof.
  apply (setMeasurements_stores_reading after_first_reading _ 4).
  - vm_compute. reflexivity.
  - vm_compute. lia.
  - vm_compute. reflexivity.
Defined.

End ReadingStored.

Section Range.

(** ** Values within the range of binary64 *)

Lemma div_half_even_le a b q : 0 < b -> a <= q * b -> div_half_even a b <= q.
Proof.
  intros Hb Ha. pose proof (div_half_even_bounds a b Hb) as H.
  set (r := div_half_even a b) in *. clearbody r.
  assert (r - q < 1) by nia. lia.
Qed.

(** A ratio up to the largest binary64 number rounds to a finite one. *)
Lemma round_ratio_in_range s n d :
  0 < d -> n <= (2 ^ 53 - 1) * 2 ^ 971 * d ->
  is_infinity (round_ratio s n d) = false.
Proof.
  intros Hd Hn. unfold round_ratio.
  destruct (Z.leb_spec n 0) as [|Hpos]; [reflexivity|].
  rewrite emin_binary64. unfold prec, emax.
  destruct (ilog2_ratio_spec n d Hpos Hd) as [HL1 HL2].
  set (L := ilog2_ratio n d) in *.
  assert (HL : L <= 1023).
  { destruct (Z.le_gt_cases L 1023) as [|Hgt]; [assumption|exfalso].
    assert (Hc : ge_pow2 n d 1024)
      by (eapply ge_pow2_anti; [exact Hd| |exact HL1]; lia).
    unfold ge_pow2 in Hc.
    rewrite scaled_den_nonneg, scaled_num_nonneg in Hc by lia.
    assert (H2 : 2 ^ 1024 = 2 ^ 53 * 2 ^ 971) by reflexivity.
    rewrite H2 in Hc.
    pose proof (Z.pow_pos_nonneg 2 971 ltac:(lia) ltac:(lia)) as Hp.
    set (P := 2 ^ 971) in *. clearbody P. nia. }
  set (e0 := Z.max (L - (53 - 1)) (-1074)).
  assert (He0 : -1074 <= e0 <= 971) by lia.
  pose proof (scaled_den_pos d e0 Hd) as HD.
  set (m0 := div_half_even (scaled_num n e0) (scaled_den d e0)).
  destruct (Z.eqb_spec m0 (2 ^ 53)) as [Heq|Hne].
  - change (2 ^ (53 - 1)) with (Zpos (2 ^ 52)%positive).
    destruct (Z.leb_spec (e0 + 1) (1024 - 53)) as [Hle|Hgt]; [reflexivity|exfalso].
    assert (He : e0 = 971) by lia.
    assert (Hm : m0 <= 2 ^ 53 - 1).
    { subst m0. apply div_half_even_le; [exact HD|].
      rewrite He. rewrite scaled_den_nonneg, scaled_num_nonneg by lia. lia. }
    lia.
  - destruct m0 as [|p|p]; try reflexivity.
    destruct (Z.leb_spec e0 (1024 - 53)) as [Hle|Hgt]; [reflexivity|lia].
Qed.

Lemma round_dyadic_valid m e : valid_binary prec emax (round_dyadic m e) = true.
Proof.
  unfold round_dyadic. apply round_ratio_valid, scaled_den_pos. lia.
Qed.

Lemma fadd_valid x y :
  valid_binary prec emax x = true -> valid_binary prec emax y = true ->
  valid_binary prec emax (fadd x y) = true.
Proof.
  intros Hx Hy.
  destruct x as [sx|sx| |sx mx ex], y as [sy|sy| |sy my ey]; cbn;
    try reflexivity; try assumption;
    try (destruct (Bool.eqb sx sy); reflexivity).
  apply round_dyadic_valid.
Qed.

Lemma fopp_valid x :
  valid_binary prec emax x = true -> valid_binary prec emax (fopp x) = true.
Proof. destruct x; cbn; auto. Qed.

Lemma fsub_valid x y :
  valid_binary prec emax x = true -> valid_binary prec emax y = true ->
  valid_binary prec emax (fsub x y) = true.
Proof. intros Hx Hy. apply fadd_valid; [exact Hx|apply fopp_valid, Hy]. Qed.

Lemma fmul_valid x y :
  valid_binary prec emax x = true -> valid_binary prec emax y = true ->
  valid_binary prec emax (fmul x y) = true.
Proof.
  intros Hx Hy.
  destruct x as [sx|sx| |sx mx ex], y as [sy|sy| |sy my ey]; cbn;
    try reflexivity.
  apply round_ratio_valid, scaled_den_pos. lia.
Qed.

Lemma fdiv_valid x y :
  valid_binary prec emax x = true -> valid_binary prec emax y = true ->
  valid_binary prec emax (fdiv x y) = true.
Proof.
  intros Hx Hy.
  destruct x as [sx|sx| |sx mx ex], y as [sy|sy| |sy my ey]; cbn;
    try reflexivity.
  apply round_ratio_valid, scaled_den_pos. lia.
Qed.

Lemma int_to_float_ordinary z :
  Z.abs z <= 2 ^ 1023 ->
  int_to_float z = Ok (round_dyadic z 0).
Proof.
  intros Hz. unfold int_to_float.
  assert (Hfin : is_infinity (round_dyadic z 0) = false).
  { unfold round_dyadic. apply round_ratio_in_range.
    - apply scaled_den_pos. lia.
    - change (- 0) with 0.
      rewrite scaled_num_nonneg, scaled_den_nonneg by lia.
      assert (H2 : 2 ^ 1023 = 2 ^ 52 * 2 ^ 971) by reflexivity.
      rewrite H2 in Hz.
      pose proof (Z.pow_pos_nonneg 2 971 ltac:(lia) ltac:(lia)) as Hp.
      set (P := 2 ^ 971) in *. clearbody P. nia. }
  rewrite Hfin. reflexivity.
Qed.

End Range.

Section Ordinary.

(** ** Readings of everyday size never raise *)

Lemma py_round2_ordinary x :
  ordinary x = true ->
  exists r, py_round2 x = Ok r /\ ordinary r = true.
Proof.
  intros Hx. destruct x as [z|[s|s| |s m e]];
    try (eexists; split; [reflexivity|exact Hx]).
  cbn in Hx. apply canonical_bounded in Hx. destruct Hx as (He & Hm & _).
  unfold py_round2.
  set (k := div_half_even _ _).
  assert (Hk : k <= (2 ^ 53 - 1) * 2 ^ 971 * 100).
  { pose proof (Z.pow_pos_nonneg 2 971 ltac:(lia) ltac:(lia)) as Hp.
    subst k. destruct (Z.le_gt_cases 0 e) as [Hpos|Hneg].
    - rewrite scaled_num_neg, scaled_den_nonpos by lia.
      rewrite div_half_even_one. replace (- - e) with e by lia.
      assert (Hq : 2 ^ e <= 2 ^ 971) by (apply Z.pow_le_mono_r; lia).
      pose proof (Z.pow_pos_nonneg 2 e ltac:(lia) Hpos) as Hq0.
      set (P := 2 ^ 971) in *. set (Q := 2 ^ e) in *. clearbody P Q. nia.
    - rewrite scaled_num_nonneg, scaled_den_nonneg by lia.
      pose proof (Z.pow_pos_nonneg 2 (- e) ltac:(lia) ltac:(lia)) as Hq0.
      assert (div_half_even (100 * Z.pos m) (1 * 2 ^ (- e)) <= 100 * Z.pos m).
      { apply div_half_even_le; [lia|]. nia. }
      set (P := 2 ^ 971) in *. clearbody P. nia. }
  rewrite (round_ratio_in_range s k 100) by (try exact Hk; lia).
  eexists; split; [reflexivity|]. cbn. apply round_ratio_valid. lia.
Qed.

Lemma conv_ordinary x :
  ordinary x = true ->
  exists f, match x with PyInt z => int_to_float z | PyFloat f => Ok f end = Ok f
            /\ valid_binary prec emax f = true.
Proof.
  intros Hx. destruct x as [z|f]; cbn in Hx.
  - apply Z.leb_le in Hx. rewrite (int_to_float_ordinary z Hx).
    eexists; split; [reflexivity|apply round_dyadic_valid].
  - exists f. split; [reflexivity|exact Hx].
Qed.

Lemma float_binop_ordinary op a b :
  (forall x y, valid_binary prec emax x = true -> valid_binary prec emax y = true ->
               valid_binary prec emax (op x y) = true) ->
  ordinary a = true -> ordinary b = true ->
  exists r, float_binop op a b = Ok r /\ ordinary r = true /\ is_float r = true.
Proof.
  intros Hop Ha Hb. unfold float_binop.
  destruct (conv_ordinary a Ha) as (fa & -> & Hfa).
  destruct (conv_ordinary b Hb) as (fb & -> & Hfb).
  eexists; split; [reflexivity|]. split; [cbn; auto|reflexivity].
Qed.

Lemma py_add_float a b :
  ordinary a = true -> ordinary b = true -> is_float a || is_float b = true ->
  exists r, py_add a b = Ok r /\ ordinary r = true /\ is_float r = true.
Proof.
  intros Ha Hb Hf. unfold py_add.
  destruct a, b; try discriminate Hf;
    apply float_binop_ordinary; auto using fadd_valid.
Qed.

Lemma py_sub_float a b :
  ordinary a = true -> ordinary b = true -> is_float a || is_float b = true ->
  exists r, py_sub a b = Ok r /\ ordinary r = true /\ is_float r = true.
Proof.
  intros Ha Hb Hf. unfold py_sub.
  destruct a, b; try discriminate Hf;
    apply float_binop_ordinary; auto using fsub_valid.
Qed.

Lemma py_mul_float a b :
  ordinary a = true -> ordinary b = true -> is_float a || is_float b = true ->
  exists r, py_mul a b = Ok r /\ ordinary r = true /\ is_float r = true.
Proof.
  intros Ha Hb Hf. unfold py_mul.
  destruct a, b; try discriminate Hf;
    apply float_binop_ordinary; auto using fmul_valid.
Qed.

(** [round((a + b) / 2, 2)] of two numbers of everyday size returns. *)
Lemma midpoint_ordinary a b :
  ordinary a = true -> ordinary b = true ->
  exists r, midpoint a b = Ok r /\ ordinary r = true.
Proof.
  intros Ha Hb. unfold midpoint.
  destruct (is_float a || is_float b) eqn:Hf.
  - destruct (py_add_float a b Ha Hb Hf) as (r & -> & Hr & Hfr). cbn [and_then].
    destruct r as [z|f]; [discriminate Hfr|].
    unfold py_truediv.
    destruct (float_binop_ordinary fdiv (PyFloat f) (PyInt 2) fdiv_valid Hr eq_refl)
      as (q & -> & Hq & _).
    change (py_eq (PyInt 2) (PyInt 0)) with false. cbn [and_then].
    apply py_round2_ordinary, Hq.
  - destruct a as [x|], b as [y|]; try discriminate Hf.
    cbn in Ha, Hb. apply Z.leb_le in Ha, Hb.
    unfold py_add. cbn [and_then]. unfold py_truediv.
    change (2 =? 0) with false. cbv iota.
    change (Z.abs 2) with 2.
    rewrite round_ratio_in_range.
    + cbn [and_then]. apply py_round2_ordinary. cbn.
      apply round_ratio_valid. lia.
    + lia.
    + assert (H2 : 2 ^ 1023 = 2 ^ 52 * 2 ^ 971) by reflexivity.
      rewrite H2 in Ha, Hb.
      pose proof (Z.pow_pos_nonneg 2 971 ltac:(lia) ltac:(lia)) as Hp.
      set (P := 2 ^ 971) in *. clearbody P. nia.
Qed.

Lemma py_min_ordinary a b :
  ordinary a = true -> ordinary b = true -> ordinary (py_min a b) = true.
Proof. intros. unfold py_min. destruct (py_lt b a); assumption. Qed.

Lemma py_max_ordinary a b :
  ordinary a = true -> ordinary b = true -> ordinary (py_max a b) = true.
Proof. intros. unfold py_max. destruct (py_gt b a); assumption. Qed.

Lemma field_step_ordinary v a :
  ordinary v = true -> ordinary (acc_min a) = true -> ordinary (acc_max a) = true ->
  exists a', field_step v a = (Ok tt, a')
    /\ ordinary (acc_min a') = true /\ ordinary (acc_max a') = true.
Proof.
  destruct a as [[mn mx] av]. unfold acc_min, acc_max; cbn [fst snd].
  intros Hv Hmn Hmx. rewrite field_step_unfold.
  destruct (py_round2_ordinary _ (py_min_ordinary mn v Hmn Hv)) as (mn1 & -> & Hmn1).
  destruct (py_round2_ordinary _ (py_max_ordinary mx v Hmx Hv)) as (mx1 & -> & Hmx1).
  destruct (midpoint_ordinary mx1 mn1 Hmx1 Hmn1) as (av1 & -> & _).
  eexists; split; [reflexivity|]. split; assumption.
Qed.

Lemma calculate_stats_ordinary t h p s :
  ordinary_reading (t, h, p) -> ordinary_stats s ->
  exists s', calculate_stats t h p s = (Ok tt, s') /\ ordinary_stats s'.
Proof.
  intros (Ht & Hh & Hp) (H1 & H2 & H3 & H4 & H5 & H6). cbn [fst snd] in Ht, Hh, Hp.
  rewrite calculate_stats_fields. unfold calculate_stats_by_field.
  destruct (field_step_ordinary t (temp_acc s) Ht H1 H2) as (a1 & -> & Ha1 & Ha1').
  destruct (field_step_ordinary h (humidity_acc s) Hh H3 H4) as (a2 & -> & Ha2 & Ha2').
  destruct (field_step_ordinary p (pressure_acc s) Hp H5 H6) as (a3 & -> & Ha3 & Ha3').
  eexists; split; [reflexivity|].
  unfold ordinary_stats, stats_of; cbn. tauto.
Qed.

Lemma float_lit_ordinary n k :
  0 <= k -> ordinary (PyFloat (float_lit n k)) = true.
Proof.
  intros Hk. cbn. unfold float_lit. apply round_ratio_valid.
  apply Z.pow_pos_nonneg; lia.
Qed.

Lemma forecast_formulas_ordinary t h p :
  ordinary_reading (t, h, p) ->
  exists f, forecast_formulas t h p = Ok f.
Proof.
  intros (Ht & Hh & Hp). cbn [fst snd] in Ht, Hh, Hp.
  unfold forecast_formulas, forecast_temp_formula, forecast_humidity_formula,
    forecast_pressure_formula.
  destruct (py_mul_float (PyFloat (float_lit 11 2)) h (float_lit_ordinary 11 2 ltac:(lia)) Hh eq_refl)
    as (a1 & -> & Ha1 & Hf1). cbn [and_then].
  destruct (py_add_float t a1 Ht Ha1) as (b1 & -> & Hb1 & Hg1);
    [rewrite Hf1; apply orb_true_r|]. cbn [and_then].
  destruct (py_mul_float (PyFloat (float_lit 22 2)) p (float_lit_ordinary 22 2 ltac:(lia)) Hp eq_refl)
    as (c1 & -> & Hc1 & Hh1). cbn [and_then].
  destruct (py_add_float b1 c1 Hb1 Hc1) as (d1 & -> & Hd1 & _);
    [rewrite Hg1; reflexivity|]. cbn [and_then].
  destruct (py_round2_ordinary d1 Hd1) as (v1 & -> & _). cbn [and_then].
  destruct (py_mul_float (PyFloat (float_lit 9 1)) h (float_lit_ordinary 9 1 ltac:(lia)) Hh eq_refl)
    as (a2 & -> & Ha2 & Hf2). cbn [and_then].
  destruct (py_sub_float h a2 Hh Ha2) as (b2 & -> & Hb2 & _);
    [rewrite Hf2; apply orb_true_r|]. cbn [and_then].
  destruct (py_round2_ordinary b2 Hb2) as (v2 & -> & _). cbn [and_then].
  destruct (py_mul_float (PyFloat (float_lit 1 1)) t (float_lit_ordinary 1 1 ltac:(lia)) Ht eq_refl)
    as (a3 & -> & Ha3 & Hf3). cbn [and_then].
  destruct (py_add_float p a3 Hp Ha3) as (b3 & -> & Hb3 & Hg3);
    [rewrite Hf3; apply orb_true_r|]. cbn [and_then].
  destruct (py_mul_float (PyFloat (float_lit 21 2)) p (float_lit_ordinary 21 2 ltac:(lia)) Hp eq_refl)
    as (c3 & -> & Hc3 & _). cbn [and_then].
  destruct (py_sub_float b3 c3 Hb3 Hc3) as (d3 & -> & Hd3 & _);
    [rewrite Hg3; reflexivity|]. cbn [and_then].
  destruct (py_round2_ordinary d3 Hd3) as (v3 & -> & _). cbn [and_then].
  eexists; reflexivity.
Qed.

Lemma calculate_forcast_ordinary t h p f :
  ordinary_reading (t, h, p) ->
  exists f', calculate_forcast t h p f = (Ok tt, f').
Proof.
  intros Hr. destruct (forecast_formulas_ordinary t h p Hr) as (f' & Hf).
  rewrite calculate_forcast_formulas. unfold calculate_forcast_by_formula.
  unfold forecast_formulas in Hf.
  destruct (forecast_temp_formula t h p); try discriminate Hf. cbn [and_then] in Hf.
  destruct (forecast_humidity_formula h); try discriminate Hf. cbn [and_then] in Hf.
  destruct (forecast_pressure_formula t p); try discriminate Hf.
  eexists; reflexivity.
Qed.

Lemma display_obj_ordinary ob :
  is_display (class_of ob) = true ->
  ordinary_reading (temperature ob, humidity ob, pressure ob) ->
  ordinary_class (class_of ob) ->
  fst (fst (display_obj ob)) = Ok tt
  /\ ordinary_class (class_of (snd (fst (display_obj ob))))
  /\ is_display (class_of (snd (fst (display_obj ob)))) = true.
Proof.
  intros Hk Hr Hc. unfold display_obj.
  destruct (class_of ob) as [|s|f|body] eqn:Hcl; try discriminate Hk.
  - cbn. rewrite Hcl. auto.
  - destruct (calculate_stats_ordinary _ _ _ s Hr Hc) as (s' & -> & Hs').
    cbn. auto.
  - destruct (calculate_forcast_ordinary _ _ _ f Hr) as (f' & ->).
    cbn. auto.
Qed.

Lemma all_displays_lookup w i o :
  all_displays w -> observers w !! i = Some o -> displayb (heap w) o = true.
Proof.
  unfold all_displays. rewrite forallb_forall. intros H Hi.
  apply H, list_elem_of_In. eapply list_elem_of_lookup_2; eauto.
Qed.

Lemma all_displays_quiet w : all_displays w -> all_quiet w.
Proof.
  unfold all_displays, all_quiet. rewrite !forallb_forall.
  intros H x Hx. specialize (H x Hx). unfold displayb, quietb in *.
  destruct (heap w !! x) as [ob|]; [|discriminate].
  destruct (class_of ob); try reflexivity. discriminate.
Qed.

Lemma all_displays_transfer w w' :
  observers w' = observers w ->
  (forall x, displayb (heap w') x = displayb (heap w) x) ->
  all_displays w -> all_displays w'.
Proof.
  unfold all_displays. intros -> Hq. rewrite !forallb_forall.
  intros H x Hx. rewrite Hq. auto.
Qed.

Lemma update_ordinary o t h p w :
  displayb (heap w) o = true ->
  ordinary_heap w -> ordinary_reading (t, h, p) ->
  exists w', update o t h p w = (Ok tt, w')
    /\ ordinary_heap w'
    /\ (forall x, displayb (heap w') x = displayb (heap w) x).
Proof.
  intros Hd Hh Hr. unfold displayb in Hd.
  destruct (heap w !! o) as [ob|] eqn:Hob; [|discriminate].
  assert (Hlt : (o < length (heap w))%nat) by (eapply lookup_lt_Some; eauto).
  rewrite (update_as_obj o w ob t h p Hob Hd).
  assert (Hc : ordinary_class (class_of ob)).
  { unfold ordinary_heap in Hh. rewrite Forall_lookup in Hh. exact (Hh o ob Hob). }
  destruct (display_obj_ordinary (with_reading ob t h p) Hd Hr Hc) as (-> & Hc' & Hk').
  eexists; split; [reflexivity|]. split.
  - unfold ordinary_heap. cbn [heap add_stdout set_heap].
    apply Forall_insert; assumption.
  - intros x. cbn [heap add_stdout set_heap]. unfold displayb.
    destruct (decide (o = x)) as [<-|Hne].
    + rewrite list_lookup_insert_eq by exact Hlt. rewrite Hob, Hk', Hd. reflexivity.
    + rewrite list_lookup_insert_ne by exact Hne. reflexivity.
Qed.

Lemma notify_from_ordinary fuel : forall i w,
  all_displays w -> ordinary_heap w -> ordinary_reading (reading_of w) ->
  (length (observers w) - i < fuel)%nat ->
  exists w', notify_from fuel i w = (Ok tt, w')
    /\ all_displays w' /\ ordinary_heap w'.
Proof.
  induction fuel as [|fuel IH]; intros i w Hd Hh Hr Hfuel; [lia|].
  cbn [notify_from].
  destruct (observers w !! i) as [ob|] eqn:Hi.
  2:{ exists w. auto. }
  pose proof (lookup_lt_Some _ _ _ Hi) as Hlt.
  unfold bind.
  destruct (update_ordinary ob (wd_temperature w) (wd_humidity w) (wd_pressure w) w
              (all_displays_lookup w i ob Hd Hi) Hh Hr) as (w1 & Hup & Hh1 & Hdb).
  rewrite Hup.
  pose proof (update_quiet _ _ _ _ _ _ _
                (all_quiet_lookup w i ob (all_displays_quiet w Hd) Hi) Hup)
    as (Hobs & Hrd & _).
  apply IH.
  - eapply all_displays_transfer; eauto.
  - exact Hh1.
  - rewrite Hrd. exact Hr.
  - rewrite Hobs. lia.
Qed.

(** X7: with the three displays of the program and readings of everyday
    size (any binary64 [float], infinities and NaN included, or an [int] up
    to [2^1023] in magnitude), [setMeasurements] never raises: every
    registered observer is updated, in order, and the store is again one in
    which the next such call returns.  The hypothesis on the store holds
    when the displays are new and is kept by every such call. *)
Theorem ordinary_readings_never_raise (w : world) (fuel : nat) (t h p : number) :
  all_displays w -> ordinary_heap w ->
  ordinary_reading (t, h, p) ->
  (length (observers w) < fuel)%nat ->
  exists w', setMeasurements fuel t h p w = (Ok tt, w')
    /\ updates w' = updates w ++ fan_out (observers w) (t, h, p)
    /\ observers w' = observers w
    /\ all_displays w' /\ ordinary_heap w'.
Proof.
  intros Hd Hh Hr Hfuel.
  destruct (notify_from_ordinary fuel 0 (set_reading t h p w) Hd Hh Hr)
    as (w' & Hrun & Hd' & Hh'); [cbn; lia|].
  rewrite <- setMeasurements_unfold in Hrun.
  exists w'. split; [exact Hrun|].
  pose proof (setMeasurements_quiet _ _ _ _ _ _ _ (all_displays_quiet w Hd) Hfuel Hrun)
    as (Hobs & _ & _ & _ & _ & n & Htr & Hall).
  rewrite Hall in Htr by reflexivity.
  auto.
Qed.

Lemma ordinary_readings_never_raise_witness :
  exists w', setMeasurements 4 (PyInt 80) (PyInt 65) (PyFloat (float_lit 304 1))
               three_displays = (Ok tt, w')
    /\ updates w' = updates three_displays
         ++ fan_out (observers three_displays)
              (PyInt 80, PyInt 65, PyFloat (float_lit 304 1))
    /\ observers w' = observers three_displays
    /\ all_displays w' /\ ordinary_heap w'.
Proof.
  apply ordinary_readings_never_raise.
  - reflexivity.
  - repeat constructor.
  - repeat split; reflexivity.
  - vm_compute. lia.
Defined.

End Ordinary.

Section IntStatistics.

(** ** Statistics of [int] readings *)

Lemma py_min_int a b : py_min (PyInt a) (PyInt b) = PyInt (Z.min a b).
Proof.
  unfold py_min, py_lt, py_compare; cbn. rewrite !Z.mul_1_r.
  destruct (Z.compare_spec b a) as [->|Hlt|Hgt].
  - rewrite Z.min_id. reflexivity.
  - rewrite Z.min_r by lia. reflexivity.
  - rewrite Z.min_l by lia. reflexivity.
Qed.

Lemma py_max_int a b : py_max (PyInt a) (PyInt b) = PyInt (Z.max a b).
Proof.
  unfold py_max, py_gt, py_compare; cbn. rewrite !Z.mul_1_r.
  destruct (Z.compare_spec b a) as [->|Hlt|Hgt].
  - rewrite Z.max_id. reflexivity.
  - rewrite Z.max_l by lia. reflexivity.
  - rewrite Z.max_r by lia. reflexivity.
Qed.

Lemma ordinary_int_min a b :
  ordinary (PyInt a) = true -> ordinary (PyInt b) = true ->
  ordinary (PyInt (Z.min a b)) = true.
Proof. intros Ha Hb. rewrite <- py_min_int. apply py_min_ordinary; assumption. Qed.

Lemma ordinary_int_max a b :
  ordinary (PyInt a) = true -> ordinary (PyInt b) = true ->
  ordinary (PyInt (Z.max a b)) = true.
Proof. intros Ha Hb. rewrite <- py_max_int. apply py_max_ordinary; assumption. Qed.

Lemma field_step_int z mn mx a :
  ordinary (PyInt z) = true -> ordinary (PyInt mn) = true ->
  ordinary (PyInt mx) = true ->
  acc_min a = PyInt mn -> acc_max a = PyInt mx ->
  exists a', field_step (PyInt z) a = (Ok tt, a')
    /\ int_acc (Z.min mn z) (Z.max mx z) a'.
Proof.
  destruct a as [[mn0 mx0] av]. unfold acc_min, acc_max; cbn [fst snd].
  intros Hz Hmn Hmx -> ->. rewrite field_step_unfold.
  rewrite py_min_int, py_max_int.
  change (py_round2 (PyInt (Z.min mn z))) with (Ok (PyInt (Z.min mn z))).
  change (py_round2 (PyInt (Z.max mx z))) with (Ok (PyInt (Z.max mx z))).
  cbv iota beta.
  destruct (midpoint_ordinary (PyInt (Z.max mx z)) (PyInt (Z.min mn z)))
    as (av1 & Hav & _);
    [apply ordinary_int_max; assumption|apply ordinary_int_min; assumption|].
  rewrite Hav. eexists; split; [reflexivity|].
  unfold int_acc, acc_min, acc_max, acc_avg; cbn. auto.
Qed.

Lemma field_step_int_first z av :
  ordinary (PyInt z) = true ->
  exists a', field_step (PyInt z) (inf, neg_inf, av) = (Ok tt, a')
    /\ int_acc z z a'.
Proof.
  intros Hz. rewrite field_step_unfold.
  rewrite py_min_inf, py_max_neg_inf by (cbn; discriminate).
  change (py_round2 (PyInt z)) with (Ok (PyInt z)). cbv iota beta.
  destruct (midpoint_ordinary (PyInt z) (PyInt z) Hz Hz) as (av1 & Hav & _).
  rewrite Hav. eexists; split; [reflexivity|].
  unfold int_acc, acc_min, acc_max, acc_avg; cbn. auto.
Qed.

Lemma stats_of_acc a1 a2 a3 :
  temp_acc (stats_of a1 a2 a3) = a1 /\ humidity_acc (stats_of a1 a2 a3) = a2
  /\ pressure_acc (stats_of a1 a2 a3) = a3.
Proof. destruct a1 as [[? ?] ?], a2 as [[? ?] ?], a3 as [[? ?] ?]. auto. Qed.

Lemma calculate_stats_int_first r :
  ordinary_reading (int_reading r) ->
  exists s', calculate_stats (PyInt (fst (fst r))) (PyInt (snd (fst r))) (PyInt (snd r))
               StatisticsDisplay_init = (Ok tt, s')
    /\ int_stats r r s'.
Proof.
  intros (Ht & Hh & Hp). cbn [int_reading fst snd] in Ht, Hh, Hp.
  rewrite calculate_stats_fields. unfold calculate_stats_by_field.
  change (temp_acc StatisticsDisplay_init) with (inf, neg_inf, PyInt 0).
  change (humidity_acc StatisticsDisplay_init) with (inf, neg_inf, PyInt 0).
  change (pressure_acc StatisticsDisplay_init) with (inf, neg_inf, PyInt 0).
  destruct (field_step_int_first _ (PyInt 0) Ht) as (a1 & -> & H1).
  destruct (field_step_int_first _ (PyInt 0) Hh) as (a2 & -> & H2).
  destruct (field_step_int_first _ (PyInt 0) Hp) as (a3 & -> & H3).
  eexists; split; [reflexivity|].
  unfold int_stats. destruct (stats_of_acc a1 a2 a3) as (-> & -> & ->). auto.
Qed.

Lemma calculate_stats_int r lo hi s :
  ordinary_reading (int_reading r) ->
  ordinary_reading (int_reading lo) -> ordinary_reading (int_reading hi) ->
  int_stats lo hi s ->
  exists s', calculate_stats (PyInt (fst (fst r))) (PyInt (snd (fst r))) (PyInt (snd r)) s
             = (Ok tt, s')
    /\ int_stats (pointwise Z.min lo r) (pointwise Z.max hi r) s'.
Proof.
  intros (Ht & Hh & Hp) (Hlt & Hlh & Hlp) (Hht & Hhh & Hhp)
    ((T1 & T2 & _) & (H1 & H2 & _) & (P1 & P2 & _)).
  cbn [int_reading fst snd] in *.
  rewrite calculate_stats_fields. unfold calculate_stats_by_field.
  destruct (field_step_int _ _ _ (temp_acc s) Ht Hlt Hht T1 T2) as (a1 & -> & A1).
  destruct (field_step_int _ _ _ (humidity_acc s) Hh Hlh Hhh H1 H2) as (a2 & -> & A2).
  destruct (field_step_int _ _ _ (pressure_acc s) Hp Hlp Hhp P1 P2) as (a3 & -> & A3).
  eexists; split; [reflexivity|].
  unfold int_stats, pointwise; cbn [fst snd].
  destruct (stats_of_acc a1 a2 a3) as (-> & -> & ->). auto.
Qed.

Lemma pointwise_ordinary_min a b :
  ordinary_reading (int_reading a) -> ordinary_reading (int_reading b) ->
  ordinary_reading (int_reading (pointwise Z.min a b)).
Proof.
  intros (H1 & H2 & H3) (H4 & H5 & H6).
  unfold ordinary_reading, int_reading, pointwise in *; cbn [fst snd] in *.
  auto using ordinary_int_min.
Qed.

Lemma pointwise_ordinary_max a b :
  ordinary_reading (int_reading a) -> ordinary_reading (int_reading b) ->
  ordinary_reading (int_reading (pointwise Z.max a b)).
Proof.
  intros (H1 & H2 & H3) (H4 & H5 & H6).
  unfold ordinary_reading, int_reading, pointwise in *; cbn [fst snd] in *.
  auto using ordinary_int_max.
Qed.

Lemma update_statistics o t h p w s s' :
  stats_at w o = Some s ->
  calculate_stats t h p s = (Ok tt, s') ->
  exists w', update o t h p w = (Ok tt, w') /\ stats_at w' o = Some s'.
Proof.
  intros Hs Hc.
  pose proof (update_stats_at o t h p w s Hs) as Hat.
  pose proof (update_stats_outcome o t h p w s Hs) as Hout.
  rewrite Hc in Hat, Hout. cbn [fst snd] in Hat, Hout.
  destruct (update o t h p w) as [r w']. cbn [fst snd] in Hat, Hout. subst r.
  exists w'. auto.
Qed.

Lemma update_each_int o : forall rs w s lo hi,
  stats_at w o = Some s ->
  int_stats lo hi s ->
  ordinary_reading (int_reading lo) -> ordinary_reading (int_reading hi) ->
  Forall (fun r => ordinary_reading (int_reading r)) rs ->
  exists w' s', update_each o (map int_reading rs) w = (Ok tt, w')
    /\ stats_at w' o = Some s'
    /\ int_stats (foldl (pointwise Z.min) lo rs) (foldl (pointwise Z.max) hi rs) s'.
Proof.
  induction rs as [|r rs IH]; intros w s lo hi Hs Hint Hlo Hhi Hall.
  - exists w, s. auto.
  - inversion Hall as [|? ? Hr Hrest]; subst.
    destruct (calculate_stats_int r lo hi s Hr Hlo Hhi Hint) as (s1 & Hc & Hint1).
    destruct (update_statistics o _ _ _ w s s1 Hs Hc) as (w1 & Hup & Hs1).
    cbn [map update_each int_reading]. unfold bind. rewrite Hup.
    cbn [foldl].
    apply (IH w1 s1); auto using pointwise_ordinary_min, pointwise_ordinary_max.
Qed.

(** X8: a new [StatisticsDisplay] updated with any non-empty sequence of
    [int] readings (each up to [2^1023] in magnitude) never raises, and
    then holds, for each of the three quantities, the least and the
    greatest of the values received, exactly and as [int]s, and
    [round((max + min) / 2, 2)] of these two as the average. *)
Theorem statistics_of_int_readings (o : obj) (w : world) (r : Z * Z * Z)
    (rs : list (Z * Z * Z)) :
  stats_at w o = Some StatisticsDisplay_init ->
  Forall (fun r => ordinary_reading (int_reading r)) (r :: rs) ->
  exists w' s, update_each o (map int_reading (r :: rs)) w = (Ok tt, w')
    /\ stats_at w' o = Some s
    /\ int_stats (foldl (pointwise Z.min) r rs) (foldl (pointwise Z.max) r rs) s.
Proof.
  intros Hs Hall. inversion Hall as [|? ? Hr Hrest]; subst.
  destruct (calculate_stats_int_first r Hr) as (s1 & Hc & Hint1).
  destruct (update_statistics o _ _ _ w _ s1 Hs Hc) as (w1 & Hup & Hs1).
  cbn [map update_each int_reading]. unfold bind. rewrite Hup.
  apply (update_each_int o rs w1 s1 r r); auto.
Qed.

Lemma statistics_of_int_readings_witness :
  exists w' s,
    update_each 1 (map int_reading [(80, 65, 30); (82, 70, 29); (78, 90, 29)])
      three_displays = (Ok tt, w')
    /\ stats_at w' 1 = Some s
    /\ int_stats (78, 65, 29) (82, 90, 30) s.
Proof.
  apply (statistics_of_int_readings 1 three_displays (80, 65, 30)
           [(82, 70, 29); (78, 90, 29)]).
  - reflexivity.
  - repeat constructor.
Defined.

End IntStatistics.

Section Invariant.

(** ** Two decimals, in every reachable state *)

(** X9: in every state the program can reach, whatever calls were made
    and whichever raised, each minimum and maximum a [StatisticsDisplay]
    holds is a value [round(_, 2)] gives back unchanged. *)
Theorem reachable_statistics_rounded (w : world) (o : obj) (s : stats) :
  reachable w -> stats_at w o = Some s -> rounded_stats s.
Proof.
  intros Hr Hs. apply reachable_heap_ok in Hr.
  unfold stats_at in Hs.
  destruct (heap w !! o) as [ob|] eqn:Hob; [|discriminate].
  unfold heap_ok in Hr. rewrite Forall_lookup in Hr.
  specialize (Hr o ob Hob).
  destruct (class_of ob) as [|s0| |]; try discriminate.
  injection Hs as <-. exact Hr.
Qed.

Lemma reachable_statistics_rounded_witness :
  exists s, stats_at after_first_reading 1 = Some s /\ rounded_stats s.
Proof.
  eexists. split; [vm_compute; reflexivity|].
  apply (reachable_statistics_rounded after_first_reading 1).
  - unfold after_first_reading, three_displays.
    apply reach_setMeasurements, reach_new_forecast, reach_new_statistics,
      reach_new_current, reach_start.
  - vm_compute. reflexivity.
Defined.

End Invariant.

Section ForecastHumidity.

(** ** The forecast humidity *)

Lemma forecast_humidity_percent (n : nat) :
  (n <= 100)%nat ->
  forecast_humidity_formula (PyInt (Z.of_nat n))
  = Ok (PyFloat (float_lit (Z.of_nat n) 1)).
Proof.
  intros Hn.
  do 101 (destruct n as [|n]; [vm_compute; reflexivity|]).
  lia.
Qed.

(** X10: for a humidity that is an [int] from 0 to 100,
    [calculate_forcast], when it returns, leaves as forecast humidity
    exactly the [float] that the decimal [humidity / 10] denotes: rounding
    to two decimals takes away the error of [humidity - 0.9 * humidity]. *)
Theorem forecast_humidity_is_a_tenth (t p : number) (h : Z) (f f' : forecast) :
  0 <= h <= 100 ->
  calculate_forcast t (PyInt h) p f = (Ok tt, f') ->
  forcast_humidity f' = PyFloat (float_lit h 1).
Proof.
  intros Hh. rewrite calculate_forcast_formulas. unfold calculate_forcast_by_formula.
  rewrite <- (Z2Nat.id h) by lia.
  rewrite forecast_humidity_percent by lia.
  destruct (forecast_temp_formula _ _ _); try discriminate.
  destruct (forecast_pressure_formula _ _); try discriminate.
  intros [= <-]. reflexivity.
Qed.

Lemma forecast_humidity_is_a_tenth_witness :
  forcast_humidity
    (snd (calculate_forcast (PyInt 78) (PyInt 90) (PyFloat (float_lit 292 1))
            ForecastDisplay_init))
  = PyFloat (float_lit 90 1).
Proof.
  apply (forecast_humidity_is_a_tenth (PyInt 78) (PyFloat (float_lit 292 1)) 90
           ForecastDisplay_init).
  - lia.
  - vm_compute. reflexivity.
Defined.

End ForecastHumidity.

Section FailedNotification.

(** ** A notification that raises *)

(** X11: when [setMeasurements] raises, over observers whose [display]
    leaves the list alone, the subject already holds the new reading and
    the list is unchanged.  The exception is that of the [update] of one
    observer [o], at a position [k]: the observers before [k] have been
    notified as by a call on the list cut at [k], which returns, and the
    call ends in the state the [update] of [o] leaves.  Every object that
    is not among the observers up to and including [o] has received no
    [update] and is as it was. *)
Theorem failed_notification_stops (w w' : world) (fuel : nat) (t h p : number)
    (e : exn) :
  all_quiet w ->
  (length (observers w) < fuel)%nat ->
  setMeasurements fuel t h p w = (Raise e, w') ->
  reading_of w' = (t, h, p) /\ observers w' = observers w
  /\ exists k o wk,
       observers w !! k = Some o
       /\ setMeasurements fuel t h p (set_observers (take k (observers w)) w)
          = (Ok tt, wk)
       /\ update o t h p (set_observers (observers w) wk) = (Raise e, w')
       /\ forall x, x ∉ take (S k) (observers w) ->
            heap w' !! x = heap w !! x
            /\ calls_to x (updates w') = calls_to x (updates w).
Proof.
  intros Hq Hfuel Hrun.
  pose proof (setMeasurements_quiet _ _ _ _ _ _ _ Hq Hfuel Hrun) as (Hobs & Hrd & _).
  split; [exact Hrd|]. split; [exact Hobs|].
  destruct (setMeasurements_raiser w fuel t h p e w' Hq Hfuel Hrun)
    as (k & o & wk & Hk & Hcut & Hraise).
  exists k, o, wk. split; [exact Hk|]. split; [exact Hcut|]. split; [exact Hraise|].
  pose proof (lookup_lt_Some _ _ _ Hk) as Hlt.
  assert (Hqk : all_quiet (set_observers (take k (observers w)) w))
    by (apply all_quiet_take, Hq).
  assert (Hfk : (length (observers (set_observers (take k (observers w)) w)) < fuel)%nat).
  { cbn [observers set_observers]. rewrite length_take. lia. }
  pose proof (setMeasurements_quiet _ _ _ _ _ _ _ Hqk Hfk Hcut)
    as (_ & _ & Hqb & _ & Hframe & m & Htrk & Hallk).
  cbn [observers set_observers updates heap] in Htrk, Hallk, Hqb, Hframe.
  rewrite Hallk in Htrk by reflexivity.
  assert (Hqo : quietb (heap (set_observers (observers w) wk)) o = true).
  { cbn [heap set_observers]. rewrite Hqb. eapply all_quiet_lookup; eauto. }
  pose proof (update_quiet _ _ _ _ _ _ _ Hqo Hraise)
    as (_ & _ & _ & _ & Hframe' & Hup).
  cbn [updates heap set_observers] in Hup, Hframe'.
  intros x Hx. rewrite (take_S_r _ _ _ Hk), not_elem_of_app, not_elem_of_cons in Hx.
  destruct Hx as (Hx1 & Hx2 & _).
  split.
  - rewrite Hframe' by exact Hx2. apply Hframe, Hx1.
  - assert (Hz : occurrences x (take k (observers w)) = 0%nat)
      by (apply occurrences_zero, Hx1).
    destruct Hup as [[Hup _]|Hup]; rewrite Hup, Htrk, !calls_to_app, calls_to_fan_out, Hz.
    + lia.
    + unfold calls_to; cbn. destruct (Nat.eqb_spec o x); [congruence|]. cbn. lia.
Qed.

Lemma failed_notification_stops_witness :
  exists w', setMeasurements 4 huge (PyInt 65) (PyInt 30) three_displays
             = (Raise OverflowError, w')
    /\ reading_of w' = (huge, PyInt 65, PyInt 30)
    /\ observers w' = observers three_displays
    /\ exists k o wk,
         observers three_displays !! k = Some o
         /\ setMeasurements 4 huge (PyInt 65) (PyInt 30)
              (set_observers (take k (observers three_displays)) three_displays)
            = (Ok tt, wk)
         /\ update o huge (PyInt 65) (PyInt 30)
              (set_observers (observers three_displays) wk)
            = (Raise OverflowError, w')
         /\ forall x, x ∉ take (S k) (observers three_displays) ->
              heap w' !! x = heap three_displays !! x
              /\ calls_to x (updates w') = calls_to x (updates three_displays).
Proof.
  eexists. split; [vm_compute; reflexivity|].
  apply (failed_notification_stops three_displays _ 4 huge (PyInt 65) (PyInt 30)
           OverflowError).
  - reflexivity.
  - vm_compute. lia.
  - vm_compute. reflexivity.
Defined.

End FailedNotification.
